(** * ai-helpers: the tool catalog validator and the artifact builders

    A shallow embedding of [scripts/validate_tools.py],
    [scripts/build-website.py] and [scripts/update_claude_settings.py].

    Decoded JSON documents are the [json] values below.  Python
    exceptions are explicit ([result]); a Python [dict] is an
    association list in insertion order; a Python [set] is a [gset],
    and the order in which a [for] loop walks a set of strings, which
    Python leaves to the string hashes of the running process, is an
    explicit parameter of the functions that depend on it. *)

From Stdlib Require Import ZArith Ascii String Lia.
From stdpp Require Import base option list strings gmap sorting pretty.

Local Open Scope Z_scope.

(** ** Python strings

    In the documents of the catalog model a [str] is a Rocq [string]:
    a sequence of characters with code points below 256.  Case,
    whitespace and the regular-expression classes are the ones
    Python 3 gives those code points.  The operations on sequences of
    characters do not depend on the type of the characters; the module
    [Unicode] below uses them on strings of any code points. *)
Module PyStr.

Definition code (c : ascii) : N := N_of_ascii c.

Definition in_range (lo hi : N) (c : ascii) : bool :=
  ((lo <=? code c) && (code c <=? hi))%N.

Definition is_ascii_upper : ascii -> bool := in_range 65 90.
Definition is_ascii_lower : ascii -> bool := in_range 97 122.
Definition is_ascii_digit : ascii -> bool := in_range 48 57.
Definition is_hyphen (c : ascii) : bool := (code c =? 45)%N.

(** [c.lower()] for one character: A-Z, and the upper-case letters
    of U+00C0..U+00DE (U+00D7 is the multiplication sign). *)
Definition char_lower (c : ascii) : ascii :=
  if is_ascii_upper c || (in_range 192 222 c && negb (code c =? 215)%N)
  then ascii_of_N (code c + 32)
  else c.

(** [c.isspace()], which is also the regular-expression class [\s]. *)
Definition isspace (c : ascii) : bool :=
  in_range 9 13 c || in_range 28 32 c
  || (code c =? 133)%N || (code c =? 160)%N.

(** The class [[a-zA-Z0-9]]. *)
Definition is_ascii_alnum (c : ascii) : bool :=
  is_ascii_lower c || is_ascii_upper c || is_ascii_digit c.

(** The class [\w] of a [str] pattern: [[a-zA-Z0-9_]] and every
    other character for which [isalnum()] holds. *)
Definition is_word (c : ascii) : bool :=
  is_ascii_alnum c || (code c =? 95)%N
  || (code c =? 170)%N || (code c =? 178)%N || (code c =? 179)%N
  || (code c =? 181)%N || (code c =? 185)%N || (code c =? 186)%N
  || in_range 188 190 c || in_range 192 214 c
  || in_range 216 246 c || in_range 248 255 c.

Definition chars : string -> list ascii := list_ascii_of_string.
Definition of_chars : list ascii -> string := string_of_list_ascii.

(** [s.lower()] *)
Definition lower_chars (s : list ascii) : list ascii := map char_lower s.
Definition lower (s : string) : string := of_chars (lower_chars (chars s)).

(** [s.lstrip(..)], [s.rstrip(..)] and [s.strip(..)] for the set of
    characters [p]. *)
Fixpoint lstrip_chars {A : Type} (p : A -> bool) (s : list A) : list A :=
  match s with
  | [] => []
  | c :: s' => if p c then lstrip_chars p s' else s
  end.

Fixpoint rstrip_chars {A : Type} (p : A -> bool) (s : list A) : list A :=
  match s with
  | [] => []
  | c :: s' =>
      match rstrip_chars p s' with
      | [] => if p c then [] else [c]
      | r => c :: r
      end
  end.

Definition strip_chars {A : Type} (p : A -> bool) (s : list A) : list A :=
  rstrip_chars p (lstrip_chars p s).

Definition strip (p : ascii -> bool) (s : string) : string :=
  of_chars (strip_chars p (chars s)).

(** [not value.strip()]: the string is empty or all whitespace. *)
Definition is_blank (s : string) : bool :=
  match strip_chars isspace (chars s) with [] => true | _ => false end.

(** [re.sub(r"[p]+", rep, s)]: every maximal run of characters of
    the class [p] is replaced by [rep].  [in_run] tells whether the
    previous character belonged to the run being replaced. *)
Fixpoint sub_runs_from {A : Type} (p : A -> bool) (rep : list A)
    (in_run : bool) (s : list A) : list A :=
  match s with
  | [] => []
  | c :: s' =>
      if p c
      then (if in_run then [] else rep) ++ sub_runs_from p rep true s'
      else c :: sub_runs_from p rep false s'
  end.

Definition sub_runs {A : Type} (p : A -> bool) (rep : list A)
    (s : list A) : list A :=
  sub_runs_from p rep false s.

(** [re.sub(r"[p]", "", s)]: every character of the class [p] is
    deleted. *)
Definition delete_chars {A : Type} (p : A -> bool) (s : list A) : list A :=
  filter (fun c => p c = false) s.

Definition hyphen : ascii := "-"%char.

End PyStr.

(** ** Python strings of any code points

    A gem title is an arbitrary [str].  Here a [str] is the list of
    its code points, and the operations of the interpreter that read
    its Unicode tables are parameters of the functions: [str.lower]
    and the classes [\w] and [\s] of the module [re].  The two
    conversions of a gem title are the expressions of the scripts; the
    theorems about them name the properties of the tables that they
    rest on. *)
Module Unicode.

Definition text : Type := list N.

Definition in_range (lo hi c : N) : bool := ((lo <=? c) && (c <=? hi))%N.

Definition is_ascii_upper : N -> bool := in_range 65 90.
Definition is_ascii_lower : N -> bool := in_range 97 122.
Definition is_ascii_digit : N -> bool := in_range 48 57.

(** The class [[a-zA-Z0-9]]. *)
Definition is_ascii_alnum (c : N) : bool :=
  is_ascii_lower c || is_ascii_upper c || is_ascii_digit c.

Definition hyphen : N := 45%N.
Definition is_hyphen (c : N) : bool := (c =? hyphen)%N.

(** The lower case of an ASCII character. *)
Definition ascii_lower (c : N) : N :=
  if is_ascii_upper c then (c + 32)%N else c.

(** The code points of an 8-bit string. *)
Definition of_string (s : string) : text := PyStr.code <$> PyStr.chars s.

Section Tables.
(** [s.lower()] *)
Variable lower : text -> text.

(** [title_to_slug] of scripts/validate_tools.py:
    [re.sub(r"[^a-zA-Z0-9]+", "-", title.lower()).strip("-")] *)
Definition title_to_slug (title : text) : text :=
  PyStr.strip_chars is_hyphen
    (PyStr.sub_runs (fun c => negb (is_ascii_alnum c)) [hyphen]
       (lower title)).

(** The classes [\w] and [\s]. *)
Variable is_word : N -> bool.
Variable isspace : N -> bool.

(** [title_to_kebab_case] of scripts/build-website.py:
    [kebab = re.sub(r"[^\w\s-]", "", title.lower())], then
    [kebab = re.sub(r"[-\s]+", "-", kebab)], then [kebab.strip("-")]. *)
Definition title_to_kebab_case (title : text) : text :=
  let kebab :=
    PyStr.delete_chars
      (fun c => negb (is_word c || isspace c || is_hyphen c))
      (lower title) in
  let kebab :=
    PyStr.sub_runs (fun c => is_hyphen c || isspace c) [hyphen] kebab in
  PyStr.strip_chars is_hyphen kebab.
End Tables.

End Unicode.

(** ** Decoded JSON documents and the Python operations on them *)
Module Py.

(** What [json.load] returns.  Numbers are the integers; an object
    is its items in insertion order, with pairwise distinct keys. *)
#[warnings="-register-all"]
Inductive json : Type :=
| JNull
| JBool (b : bool)
| JInt (n : Z)
| JStr (s : string)
| JList (l : list json)
| JDict (d : list (string * json)).

Abbreviation dict := (list (string * json)).

Inductive exn : Type :=
| AttributeError | TypeError | KeyError | OSError | UnicodeDecodeError.

Inductive result (A : Type) : Type :=
| Ok (a : A)
| Raise (e : exn).
Global Arguments Ok {A} a.
Global Arguments Raise {A} e.

Global Instance result_ret : MRet result := fun A a => Ok a.
Global Instance result_bind : MBind result := fun A B f r =>
  match r with
  | Ok a => f a
  | Raise e => Raise e
  end.

(** [type(v).__name__] *)
Definition type_name (v : json) : string :=
  match v with
  | JNull => "NoneType"
  | JBool _ => "bool"
  | JInt _ => "int"
  | JStr _ => "str"
  | JList _ => "list"
  | JDict _ => "dict"
  end.

(** Truth value of [v] in a condition. *)
Definition truthy (v : json) : bool :=
  match v with
  | JNull => false
  | JBool b => b
  | JInt n => negb (n =? 0)
  | JStr s => negb (String.eqb s "")
  | JList l => match l with [] => false | _ => true end
  | JDict d => match d with [] => false | _ => true end
  end.

(** [d.keys()], [k in d], [d.get(k)] and [d.get(k, default)] *)
Definition keys (d : dict) : list string := d.*1.

Fixpoint lookup (d : dict) (k : string) : option json :=
  match d with
  | [] => None
  | (k', v) :: d' => if String.eqb k' k then Some v else lookup d' k
  end.

Definition has_key (d : dict) (k : string) : bool :=
  match lookup d k with Some _ => true | None => false end.

Definition get (d : dict) (k : string) (default : json) : json :=
  match lookup d k with Some v => v | None => default end.

(** [d[k]] on a dict *)
Definition getitem (d : dict) (k : string) : result json :=
  match lookup d k with Some v => Ok v | None => Raise KeyError end.

(** [v.get(k, default)] on a value that need not be a dict: only a
    dict has the method. *)
Definition get_attr (v : json) (k : string) (default : json) : result json :=
  match v with
  | JDict d => Ok (get d k default)
  | _ => Raise AttributeError
  end.

(** [set(d.keys())] *)
Definition key_set (d : dict) : gset string := list_to_set (keys d).

(** [sorted(X)] for a set of strings. *)
Definition sorted (X : gset string) : list string :=
  merge_sort String.le (elements X).

(** Hashable values as keys of a set or dict: [True == 1] and
    [False == 0], and no other two decoded values of different
    types are equal.  Lists and dicts are unhashable. *)
Inductive hkey : Type :=
| HNone
| HInt (n : Z)
| HStr (s : string).

Global Instance hkey_eq_dec : EqDecision hkey.
Proof. solve_decision. Defined.

Definition hkey_to_sum (k : hkey) : unit + (Z + string) :=
  match k with
  | HNone => inl tt
  | HInt n => inr (inl n)
  | HStr s => inr (inr s)
  end.

Definition hkey_of_sum (x : unit + (Z + string)) : hkey :=
  match x with
  | inl _ => HNone
  | inr (inl n) => HInt n
  | inr (inr s) => HStr s
  end.

Global Instance hkey_countable : Countable hkey.
Proof.
  apply (inj_countable' hkey_to_sum hkey_of_sum).
  intros []; reflexivity.
Defined.

Definition hash (v : json) : result hkey :=
  match v with
  | JNull => Ok HNone
  | JBool b => Ok (HInt (if b then 1 else 0))
  | JInt n => Ok (HInt n)
  | JStr s => Ok (HStr s)
  | JList _ | JDict _ => Raise TypeError
  end.

(** [v != s] for a string [s]. *)
Definition ne_str (v : json) (s : string) : bool :=
  match v with
  | JStr s' => negb (String.eqb s' s)
  | _ => true
  end.

(** [for x in v]: a list gives its elements, a dict its keys, a
    string its characters; nothing else is iterable. *)
Definition iterate (v : json) : result (list json) :=
  match v with
  | JList l => Ok l
  | JDict d => Ok (JStr <$> keys d)
  | JStr s => Ok ((fun c => JStr (String c EmptyString)) <$> PyStr.chars s)
  | _ => Raise TypeError
  end.

(** [d[k] = v] on a dict in insertion order: an existing key keeps
    its place. *)
Fixpoint set_item {V : Type} (d : list (string * V)) (k : string) (v : V)
    : list (string * V) :=
  match d with
  | [] => [(k, v)]
  | (k', v') :: d' =>
      if String.eqb k' k then (k, v) :: d' else (k', v') :: set_item d' k v
  end.

End Py.

(** ** scripts/validate_tools.py *)
Module ValidateTools.
Import Py.

Definition VALID_TOOL_TYPES : gset string :=
  {[ "skill"; "command"; "agent"; "gem" ]}.
Definition REQUIRED_TOOL_FIELDS : gset string :=
  {[ "name"; "description"; "type"; "category" ]}.
Definition ALLOWED_TOOL_FIELDS : gset string := REQUIRED_TOOL_FIELDS.

(** [title_to_slug]:
    [re.sub(r"[^a-zA-Z0-9]+", "-", title.lower()).strip("-")] *)
Definition title_to_slug (title : string) : string :=
  PyStr.of_chars
    (PyStr.strip_chars PyStr.is_hyphen
       (PyStr.sub_runs (fun c => negb (PyStr.is_ascii_alnum c))
          [PyStr.hyphen]
          (PyStr.lower_chars (PyStr.chars title)))).

(** The validation errors.  Each constructor is one message of the
    script, with the values its f-string interpolates. *)
Inductive error : Type :=
| MissingToolsField
    (* Missing required 'tools' field *)
| MissingCategoriesField
    (* Missing required 'categories' field *)
| ToolsNotArray
    (* 'tools' field must be an array *)
| CategoriesNotObject
    (* 'categories' field must be an object *)
| ToolNotObject (index : nat) (type : string)
    (* Tool at index {i} must be an object, got {type} *)
| ToolMissingField (tool_name : json) (field : string)
    (* Tool '{tool_name}' is missing required field: {field} *)
| ToolDisallowedField (tool_name : json) (field : string)
    (* Tool '{tool_name}' has disallowed field: {field}. Only allowed
       fields: category, description, name, type *)
| ToolInvalidType (tool_name tool_type : json)
    (* Tool '{tool_name}' has invalid type '{tool_type}'. Valid types:
       agent, command, gem, skill *)
| ToolFieldNotString (tool_name : json) (field type : string)
    (* Tool '{tool_name}' field '{field}' must be a string, got {type} *)
| ToolEmptyField (tool_name : json) (field : string)
    (* Tool '{tool_name}' has empty {field} *)
| DuplicateToolName (name : json)
    (* Duplicate tool name: '{name}' *)
| CategoryNotObject (category_key type : string)
    (* Category '{category_key}' must be an object, got {type} *)
| CategoryMissingField (category_key field : string)
    (* Category '{category_key}' is missing required field: {field} *)
| CategoryFieldNotString (category_key field type : string)
    (* Category '{category_key}' field '{field}' must be a string,
       got {type} *)
| CategoryEmptyField (category_key field : string)
    (* Category '{category_key}' has empty {field} *)
| CategoryNotDefined (category : string)
    (* Category '{category}' is referenced by tools but not defined in
       categories section *)
| CategoryNotUsed (category : string)
    (* Category '{category}' is defined but not used by any tools *)
| FilesystemToolMissing (tool_name expected_type : string)
    (* Tool '{tool_name}' (type: {expected_type}) found in filesystem
       but missing from tools.json *)
| FilesystemTypeMismatch (tool_name expected_type : string)
    (json_type : json)
    (* Tool '{tool_name}' has mismatched type:
       filesystem={expected_type}, tools.json={json_type} *).

(** [f"tool[{index}]"] *)
Definition default_tool_name (index : nat) : json :=
  JStr ("tool[" +:+ pretty index +:+ "]").

(** The check of one required field of a tool or of a category:
    nothing for [None], an error for a value that is not a string,
    another for a blank string. *)
Definition check_string (not_string : string -> error) (empty : error)
    (value : json) : list error :=
  match value with
  | JNull => []
  | JStr s => if PyStr.is_blank s then [empty] else []
  | v => [not_string (type_name v)]
  end.

Section SetOrder.
(** The order in which [for field in X] walks the set of strings
    [X]. *)
Variable set_iter : gset string -> list string.

Definition validate_tool_structure (tool : dict) (index : nat)
    : result (list error) :=
  let tool_name := get tool "name" (default_tool_name index) in
  let missing_fields := REQUIRED_TOOL_FIELDS ∖ key_set tool in
  let missing := ToolMissingField tool_name <$> set_iter missing_fields in
  let disallowed_fields := key_set tool ∖ ALLOWED_TOOL_FIELDS in
  let disallowed :=
    ToolDisallowedField tool_name <$> sorted disallowed_fields in
  let tool_type := get tool "type" JNull in
  invalid ←
    (if truthy tool_type
     then k ← hash tool_type;
          mret (match k with
                | HStr s =>
                    if decide (s ∈ VALID_TOOL_TYPES) then []
                    else [ToolInvalidType tool_name tool_type]
                | _ => [ToolInvalidType tool_name tool_type]
                end)
     else mret []);
  let strings :=
    set_iter REQUIRED_TOOL_FIELDS ≫= (fun field =>
      check_string (ToolFieldNotString tool_name field)
        (ToolEmptyField tool_name field) (get tool field JNull)) in
  mret (missing ++ disallowed ++ invalid ++ strings).

(** The loop of [validate_tools_json] over [enumerate(tools)],
    started at index [i]. *)
Fixpoint validate_tool_entries (i : nat) (tools : list json)
    : result (list error) :=
  match tools with
  | [] => mret []
  | tool :: rest =>
      here ← match tool with
             | JDict d => validate_tool_structure d i
             | v => mret [ToolNotObject i (type_name v)]
             end;
      later ← validate_tool_entries (S i) rest;
      mret (here ++ later)
  end.
End SetOrder.

(** The first loop of [validate_categories], over [enumerate(tools)]
    from index [i]: the type errors it reports and the set
    [referenced_categories] it builds. *)
Fixpoint referenced_categories (i : nat) (tools : list json)
    : result (list error * gset string) :=
  match tools with
  | [] => mret ([], ∅)
  | tool :: rest =>
      category ← get_attr tool "category" JNull;
      here ←
        (if truthy category
         then match category with
              | JStr c => mret ([], {[ c ]})
              | v =>
                  tool_name ← get_attr tool "name" (default_tool_name i);
                  mret ([ToolFieldNotString tool_name "category"
                           (type_name v)], ∅)
              end
         else mret ([], ∅));
      later ← referenced_categories (S i) rest;
      mret (here.1 ++ later.1, here.2 ∪ later.2)
  end.

Definition validate_categories (tools : list json) (categories : dict)
    : result (list error) :=
  r ← referenced_categories 0 tools;
  let referenced := r.2 in
  let defined_categories := key_set categories in
  let missing_categories := referenced ∖ defined_categories in
  let unused_categories := defined_categories ∖ referenced in
  mret (r.1
        ++ (CategoryNotDefined <$> sorted missing_categories)
        ++ (CategoryNotUsed <$> sorted unused_categories)).

(** The body of the loop of [validate_category_structure] for one
    item of [categories.items()]. *)
Definition validate_category (category_key : string) (category_data : json)
    : list error :=
  match category_data with
  | JDict d =>
      (if has_key d "name" then []
       else [CategoryMissingField category_key "name"])
      ++ (if has_key d "description" then []
          else [CategoryMissingField category_key "description"])
      ++ check_string (CategoryFieldNotString category_key "name")
           (CategoryEmptyField category_key "name") (get d "name" JNull)
      ++ check_string (CategoryFieldNotString category_key "description")
           (CategoryEmptyField category_key "description")
           (get d "description" JNull)
  | v => [CategoryNotObject category_key (type_name v)]
  end.

Definition validate_category_structure (categories : dict) : list error :=
  categories ≫= (fun item => validate_category item.1 item.2).

(** The loop of [validate_tool_names_unique], with the set
    [seen_names] built so far. *)
Fixpoint duplicate_names (seen_names : gset hkey) (tools : list json)
    : result (list error) :=
  match tools with
  | [] => mret []
  | tool :: rest =>
      name ← get_attr tool "name" JNull;
      if truthy name
      then k ← hash name;
           if decide (k ∈ seen_names)
           then later ← duplicate_names seen_names rest;
                mret (DuplicateToolName name :: later)
           else duplicate_names ({[ k ]} ∪ seen_names) rest
      else duplicate_names seen_names rest
  end.

Definition validate_tool_names_unique (tools : list json)
    : result (list error) :=
  duplicate_names ∅ tools.

(** The dict comprehension
    [{tool.get("name"): tool.get("type") for tool in tools}],
    continued from the dict [acc]. *)
Fixpoint json_tools_from (acc : gmap hkey json) (tools : list json)
    : result (gmap hkey json) :=
  match tools with
  | [] => mret acc
  | tool :: rest =>
      name ← get_attr tool "name" JNull;
      type ← get_attr tool "type" JNull;
      k ← hash name;
      json_tools_from (<[ k := type ]> acc) rest
  end.

(** The filesystem view: what [get_filesystem_tools] returns, a dict
    from tool name to tool type, in insertion order. *)
Abbreviation filesystem_view := (list (string * string)).

(** The body of the loop of [validate_filesystem_tools_in_json] for
    one item of [filesystem_tools.items()]. *)
Definition check_filesystem_tool (json_tools : gmap hkey json)
    (tool_name expected_type : string) : list error :=
  match json_tools !! HStr tool_name with
  | None => [FilesystemToolMissing tool_name expected_type]
  | Some t =>
      if ne_str t expected_type
      then [FilesystemTypeMismatch tool_name expected_type t]
      else []
  end.

(** [validate_filesystem_tools_in_json], given the view that
    [get_filesystem_tools(helpers_dir)] returns. *)
Definition validate_filesystem_tools_in_json (tools_data : dict)
    (filesystem_tools : filesystem_view) : result (list error) :=
  tools ← iterate (get tools_data "tools" (JList []));
  json_tools ← json_tools_from ∅ tools;
  mret (filesystem_tools ≫= (fun item =>
          check_filesystem_tool json_tools item.1 item.2)).

Section SetOrder.
Variable set_iter : gset string -> list string.

(** [validate_tools_json].  [helpers] is [None] when no helpers
    directory is given or it does not exist, and the view of that
    directory otherwise. *)
Definition validate_tools_json (tools_data : dict)
    (helpers : option filesystem_view) : result (list error) :=
  if negb (has_key tools_data "tools") then mret [MissingToolsField]
  else if negb (has_key tools_data "categories")
  then mret [MissingCategoriesField]
  else
    match get tools_data "tools" (JList []) with
    | JList tools =>
        match get tools_data "categories" (JDict []) with
        | JDict categories =>
            e1 ← validate_tool_entries set_iter 0 tools;
            e2 ← validate_tool_names_unique tools;
            let e3 := validate_category_structure categories in
            e4 ← validate_categories tools categories;
            e5 ← match helpers with
                 | Some view =>
                     validate_filesystem_tools_in_json tools_data view
                 | None => mret []
                 end;
            mret (e1 ++ e2 ++ e3 ++ e4 ++ e5)
        | _ => mret [CategoriesNotObject]
        end
    | _ => mret [ToolsNotArray]
    end.
End SetOrder.

End ValidateTools.

(** ** scripts/build-website.py *)
Module BuildWebsite.
Import Py.

(** [title_to_kebab_case]:
    [kebab = re.sub(r"[^\w\s-]", "", title.lower())], then
    [kebab = re.sub(r"[-\s]+", "-", kebab)], then [kebab.strip("-")]. *)
Definition title_to_kebab_case (title : string) : string :=
  let kebab :=
    PyStr.delete_chars
      (fun c => negb (PyStr.is_word c || PyStr.isspace c || PyStr.is_hyphen c))
      (PyStr.lower_chars (PyStr.chars title)) in
  let kebab :=
    PyStr.sub_runs (fun c => PyStr.is_hyphen c || PyStr.isspace c)
      [PyStr.hyphen] kebab in
  PyStr.of_chars (PyStr.strip_chars PyStr.is_hyphen kebab).

(** [v == s] for a string [s]. *)
Definition eq_str (v : json) (s : string) : bool := negb (ne_str v s).

(** What the builder reads from the asset tree, keyed by the value
    of the tool's [name]. *)
Record assets : Type := {
  (* [Path.exists()] raises [OSError] for the file of this path
     below the repository root: its [stat] fails with another error
     than the ones for a missing file, such as a name that is too
     long or a directory that may not be searched *)
  stat_fails : string -> bool;
  (* the front matter of the skill's SKILL.md as [yaml.safe_load]
     returns it; [None] when the file, its front-matter block or a
     successful load is missing *)
  skill_front_matter : string -> option json;
  (* the key/value lines of the front matter of the command's file;
     [None] when the file is missing or cannot be read *)
  command_front_matter : json -> option (list (string * string));
  (* the stripped first line of the Synopsis code block of the
     command's file, when the pattern matches *)
  command_synopsis : json -> option string;
  (* as [skill_front_matter], for the agent's file *)
  agent_front_matter : json -> option json;
  (* gems.yaml as [yaml.safe_load] returns it; [None] when the file
     is missing or cannot be loaded *)
  gems_data : option json
}.

Section Builder.
(** [str(v)] for a value that is not a string, as an f-string
    uses it. *)
Variable py_str : json -> string.
Variable env : assets.

Definition format (v : json) : string :=
  match v with
  | JStr s => s
  | v => py_str v
  end.

(** [path.exists()], for its exception: the value is not used, a
    file that is missing has no front matter. *)
Definition stat (path : string) : result unit :=
  if stat_fails env path then Raise OSError else mret ().

(** [get_tool_file_path].  A [pathlib] path is joined with the
    name of a skill, which raises for a name that is not a string,
    and the existence of the skill file is tested. *)
Definition get_tool_file_path (tool : dict) : result string :=
  tool_type ← getitem tool "type";
  tool_name ← getitem tool "name";
  if eq_str tool_type "skill"
  then match tool_name with
       | JStr n =>
           let path := "helpers/skills/" +:+ n +:+ "/SKILL.md" in
           _ ← stat path;
           mret path
       | _ => Raise TypeError
       end
  else if eq_str tool_type "command"
  then mret ("helpers/commands/" +:+ format tool_name +:+ ".md")
  else if eq_str tool_type "agent"
  then mret ("helpers/agents/" +:+ format tool_name +:+ ".md")
  else mret "".

(** [metadata.update({k: v})] and
    [if k not in metadata: metadata[k] = v] *)
Definition set_default (metadata : dict) (k : string) (v : json) : dict :=
  if has_key metadata k then metadata else set_item metadata k v.

(** The loop over the gems of the registry: the [link] of the
    first gem whose title converts to [tool_name]. *)
Fixpoint find_gem_link (tool_name : json) (gems : list json)
    : result json :=
  match gems with
  | [] => mret (JStr "")
  | gem :: rest =>
      gem_title ← get_attr gem "title" (JStr "");
      if truthy gem_title
      then match gem_title with
           | JStr t =>
               if eq_str tool_name (title_to_kebab_case t)
               then get_attr gem "link" (JStr "")
               else find_gem_link tool_name rest
           | _ => Raise AttributeError
           end
      else find_gem_link tool_name rest
  end.

(** The [link] of a gem; an exception inside the [try] leaves the
    initial empty link. *)
Definition gem_link (tool_name : json) : json :=
  match gems_data env with
  | None => JStr ""
  | Some data =>
      match (gems ← get_attr data "gems" (JList []);
             l ← iterate gems;
             find_gem_link tool_name l) with
      | Ok link => link
      | Raise _ => JStr ""
      end
  end.

(** [get_tool_metadata] *)
Definition get_tool_metadata (tool : dict) : result dict :=
  name ← getitem tool "name";
  description ← getitem tool "description";
  category ← getitem tool "category";
  file_path ← get_tool_file_path tool;
  let metadata :=
    [("name", name); ("description", description);
     ("category", category); ("file_path", JStr file_path)] in
  tool_type ← getitem tool "type";
  if eq_str tool_type "skill"
  then
    match name with
    | JStr n =>
        _ ← stat ("helpers/skills/" +:+ n +:+ "/SKILL.md");
        let metadata :=
          match skill_front_matter env n with
          | Some (JDict skill_data) =>
              set_item (set_item metadata "id" name) "allowed_tools"
                (get skill_data "allowed-tools" (JStr ""))
          | _ => metadata
          end in
        mret (set_default (set_default metadata "id" name)
                "allowed_tools" (JStr ""))
    | _ => Raise TypeError
    end
  else if eq_str tool_type "command"
  then
    _ ← stat ("helpers/commands/" +:+ format name +:+ ".md");
    let metadata :=
      match command_front_matter env name with
      | Some frontmatter =>
          let hint :=
            match list_find (fun kv => kv.1 = "argument-hint")
                    (reverse frontmatter) with
            | Some (_, kv) => kv.2
            | None => ""
            end in
          let metadata := set_item metadata "argument_hint" (JStr hint) in
          match command_synopsis env name with
          | Some synopsis =>
              if String.eqb synopsis "" then metadata
              else set_item metadata "synopsis" (JStr synopsis)
          | None => metadata
          end
      | None => metadata
      end in
    mret (set_default
            (set_default metadata "synopsis" (JStr ("/" +:+ format name)))
            "argument_hint" (JStr ""))
  else if eq_str tool_type "agent"
  then
    _ ← stat ("helpers/agents/" +:+ format name +:+ ".md");
    let metadata :=
      match agent_front_matter env name with
      | Some (JDict agent_data) =>
          set_item
            (set_item (set_item metadata "id" name) "tools"
               (get agent_data "tools" (JStr "")))
            "model" (get agent_data "model" (JStr ""))
      | _ => metadata
      end in
    mret (set_default
            (set_default (set_default metadata "id" name)
               "tools" (JStr ""))
            "model" (JStr ""))
  else if eq_str tool_type "gem"
  then
    _ ← stat "helpers/gems/gems.yaml";
    mret (set_item metadata "link" (gem_link name))
  else mret metadata.

(** [website_data["tools"]] *)
Record website_tools : Type := {
  gemini : list dict;
  skills : list dict;
  commands : list dict;
  agents : list dict
}.

Definition no_tools : website_tools :=
  {| gemini := []; skills := []; commands := []; agents := [] |}.

Definition required_keys : list string :=
  ["name"; "type"; "description"; "category"].

(** The body of the loop of [build_website_data] for one tool. *)
Definition add_tool (out : website_tools) (tool : json)
    : result website_tools :=
  match tool with
  | JDict d =>
      let missing_keys :=
        filter (fun key => has_key d key = false) required_keys in
      match missing_keys with
      | _ :: _ => mret out
      | [] =>
          tool_metadata ← get_tool_metadata d;
          let tool_type := get d "type" JNull in
          mret
            (if eq_str tool_type "skill"
             then {| gemini := gemini out;
                     skills := skills out ++ [tool_metadata];
                     commands := commands out; agents := agents out |}
             else if eq_str tool_type "command"
             then {| gemini := gemini out; skills := skills out;
                     commands := commands out ++ [tool_metadata];
                     agents := agents out |}
             else if eq_str tool_type "agent"
             then {| gemini := gemini out; skills := skills out;
                     commands := commands out;
                     agents := agents out ++ [tool_metadata] |}
             else if eq_str tool_type "gem"
             then {| gemini := gemini out ++ [tool_metadata];
                     skills := skills out; commands := commands out;
                     agents := agents out |}
             else out)
      end
  | _ => mret out
  end.

Fixpoint add_tools (out : website_tools) (tools : list json)
    : result website_tools :=
  match tools with
  | [] => mret out
  | tool :: rest => out' ← add_tool out tool; add_tools out' rest
  end.

(** [build_website_data], for a tools.json that has the keys
    [categories] and [tools], the latter a list: the [tools] part
    of the website data. *)
Definition build_website_data (tools : list json) : result website_tools :=
  add_tools no_tools tools.
End Builder.

End BuildWebsite.

(** ** scripts/update_claude_settings.py *)
Module UpdateClaudeSettings.
Import Py.

(** [k in v]: a key of a dict, an element of a list, a substring of
    a string; no other decoded value is a container. *)
Definition contains (v : json) (k : string) : result bool :=
  match v with
  | JDict d => mret (has_key d k)
  | JList l =>
      mret (existsb (fun x => match x with
                              | JStr s => String.eqb s k
                              | _ => false
                              end) l)
  | JStr s =>
      mret (match String.index 0 k s with Some _ => true | None => false end)
  | _ => Raise TypeError
  end.

(** [v[k]] for a string [k]: only a dict can be indexed by a
    string.  The callers have checked [k in v]. *)
Definition item (v : json) (k : string) : result json :=
  match v with
  | JDict d => mret (get d k JNull)
  | _ => Raise TypeError
  end.

Section Formatting.
(** [str(v)] for a value that is not a string, as an f-string
    uses it. *)
Variable py_str : json -> string.

Definition format (v : json) : string :=
  match v with
  | JStr s => s
  | v => py_str v
  end.

(** The loop of [load_external_plugins] over the entries of the
    config. *)
Fixpoint external_plugins_of (plugins : list json) : result (list json) :=
  match plugins with
  | [] => mret []
  | plugin :: rest =>
      has_name ← contains plugin "name";
      if negb has_name then external_plugins_of rest
      else
        has_source ← contains plugin "source";
        if negb has_source
        then _ ← get_attr plugin "name" JNull; external_plugins_of rest
        else
          name ← item plugin "name";
          description ←
            get_attr plugin "description" (JStr (format name +:+ " plugin"));
          source ← item plugin "source";
          later ← external_plugins_of rest;
          mret (JDict [("name", name); ("description", description);
                       ("source", source)] :: later)
  end.

(** [load_external_plugins].  [config] is [None] when the config
    file does not exist or is not readable JSON, and the decoded
    document otherwise. *)
Definition load_external_plugins (config : option json)
    : result (list json) :=
  match config with
  | None => mret []
  | Some config =>
      plugins ← get_attr config "plugins" (JList []);
      l ← iterate plugins;
      external_plugins_of l
  end.
End Formatting.

(** The entry for the helpers of this repository. *)
Definition local_plugin : json :=
  JDict [("name", JStr "odh-ai-helpers");
         ("source", JStr "./helpers");
         ("description",
          JStr "AI automation tools, plugins, and assistants for enhanced productivity");
         ("strict", JBool false)].

(** [generate_marketplace_json]; [tools_config] is not used. *)
Definition generate_marketplace_json (tools_config : json)
    (external_plugins : list json) : dict :=
  [("name", JStr "odh-ai-helpers");
   ("owner", JDict [("name", JStr "ODH")]);
   ("plugins", JList (external_plugins ++ [local_plugin]))].

End UpdateClaudeSettings.

(** ** The rules of the specification, for comparison with the code *)
Module Rules.
Import Py.

(** The class [[a-z0-9]]. *)
Definition is_lower_or_digit (c : N) : bool :=
  Unicode.is_ascii_lower c || Unicode.is_ascii_digit c.

(** The slug rule as the specification words it: lowercase, any run
    of characters outside [[a-z0-9]] collapsed to a single hyphen,
    leading and trailing hyphens stripped. *)
Definition slug_rule (lower : Unicode.text -> Unicode.text)
    (title : Unicode.text) : Unicode.text :=
  PyStr.strip_chars Unicode.is_hyphen
    (PyStr.sub_runs (fun c => negb (is_lower_or_digit c)) [Unicode.hyphen]
       (lower title)).

(** A string in which every character of the class [p] is a hyphen
    that does not follow another character of the class;
    [after_sep] tells whether the previous character was of the
    class. *)
Fixpoint separated {A : Type} (is_hyphen p : A -> bool) (after_sep : bool)
    (s : list A) : bool :=
  match s with
  | [] => true
  | c :: s' =>
      if p c
      then is_hyphen c && negb after_sep && separated is_hyphen p true s'
      else separated is_hyphen p false s'
  end.

(** The number of elements of [l] that [f] selects. *)
Fixpoint count {A : Type} (f : A -> bool) (l : list A) : nat :=
  match l with
  | [] => 0%nat
  | x :: l' => ((if f x then 1 else 0) + count f l')%nat
  end.

(** The errors about one category. *)
Definition is_not_defined (c : string) (e : ValidateTools.error) : bool :=
  match e with
  | ValidateTools.CategoryNotDefined c' => String.eqb c' c
  | _ => false
  end.

Definition is_not_used (c : string) (e : ValidateTools.error) : bool :=
  match e with
  | ValidateTools.CategoryNotUsed c' => String.eqb c' c
  | _ => false
  end.

(** A tool references the category [c]: the value of its [category]
    is the non-empty string [c]. *)
Definition references (c : string) (tool : dict) : Prop :=
  get tool "category" JNull = JStr c /\ c <> "".

Definition referenced (tools : list dict) (c : string) : Prop :=
  Exists (references c) tools.

(** The category [c] is defined: it is a key of [categories]. *)
Definition defined (categories : dict) (c : string) : Prop :=
  c ∈ keys categories.

(** The tool has the string [n] as its name. *)
Definition has_name (n : string) (tool : dict) : bool :=
  match get tool "name" JNull with
  | JStr m => String.eqb m n
  | _ => false
  end.

(** The "duplicate tool name" errors for the name [n]. *)
Definition is_duplicate (n : string) (e : ValidateTools.error) : bool :=
  match e with
  | ValidateTools.DuplicateToolName (JStr m) => String.eqb m n
  | _ => false
  end.

(** The name of the tool can be a member of a set when the
    uniqueness check tests it: it is not a non-empty list or
    object. *)
Definition name_is_hashable_if_truthy (tool : dict) : Prop :=
  truthy (get tool "name" JNull) = true ->
  exists k, hash (get tool "name" JNull) = Ok k.

(** The value of the field [k] of [tool] is a string that is not
    blank. *)
Definition field_ok (tool : dict) (k : string) : Prop :=
  exists v, lookup tool k = Some (JStr v) /\ PyStr.is_blank v = false.

(** A tool record as the data model has it: exactly the four fields,
    each a non-blank string, and a type of the enumeration. *)
Record valid_tool (tool : dict) : Prop := {
  tool_fields :
    forall k, k ∈ keys tool -> k ∈ ValidateTools.REQUIRED_TOOL_FIELDS;
  tool_name_ok : field_ok tool "name";
  tool_description_ok : field_ok tool "description";
  tool_category_ok : field_ok tool "category";
  tool_type_ok :
    exists t, lookup tool "type" = Some (JStr t)
              /\ t ∈ ValidateTools.VALID_TOOL_TYPES
}.

(** The type that the catalog gives the name [n]: the value of
    [type] of the last tool named [n], as the dict comprehension of
    the filesystem check keeps it. *)
Fixpoint catalog_type (n : string) (tools : list dict) : option json :=
  match tools with
  | [] => None
  | tool :: rest =>
      match catalog_type n rest with
      | Some t => Some t
      | None => if has_name n tool then Some (get tool "type" JNull) else None
      end
  end.

(** The name of the tool can be the key of a dict: it is not a list
    or an object. *)
Definition name_is_hashable (tool : dict) : Prop :=
  exists k, hash (get tool "name" JNull) = Ok k.

(** The filesystem-agreement errors about the tool name [n]. *)
Definition is_fs_missing (n : string) (e : ValidateTools.error) : bool :=
  match e with
  | ValidateTools.FilesystemToolMissing n' _ => String.eqb n' n
  | _ => false
  end.

Definition is_fs_mismatch (n : string) (e : ValidateTools.error) : bool :=
  match e with
  | ValidateTools.FilesystemTypeMismatch n' _ _ => String.eqb n' n
  | _ => false
  end.

(** A category record as the data model has it: an object whose
    [name] and [description] are strings that are not blank. *)
Definition good_category (data : json) : Prop :=
  exists d, data = JDict d /\ field_ok d "name" /\ field_ok d "description".

(** The catalog has a tool of the name and the type that the
    filesystem view gives. *)
Definition in_catalog (tools : list dict) (item : string * string) : Prop :=
  Exists (fun tool => get tool "name" JNull = JStr item.1
                      /\ get tool "type" JNull = JStr item.2) tools.

(** The names of the tools, in tool order. *)
Definition tool_names (tools : list dict) : list json :=
  (fun tool => get tool "name" JNull) <$> tools.

(** An external plugin entry is well formed: it has a name and a
    source. *)
Definition well_formed (plugin : dict) : bool :=
  has_key plugin "name" && has_key plugin "source".

(** The marketplace entry of a well-formed external plugin: its
    name, its description or, by default, its name followed by
    " plugin", and its source. *)
Definition external_entry (py_str : json -> string) (plugin : dict) : json :=
  let name := get plugin "name" JNull in
  JDict [("name", name);
         ("description",
          get plugin "description"
            (JStr (UpdateClaudeSettings.format py_str name +:+ " plugin")));
         ("source", get plugin "source" JNull)].

End Rules.

(** ** Further notions, for the properties beyond the rules above *)
Module Notions.
Import Py.

(** The value is a non-empty list or object: it is true in a
    condition, and it cannot be hashed. *)
Definition is_nonempty_container (v : json) : Prop :=
  match v with
  | JList (_ :: _) | JDict (_ :: _) => True
  | _ => False
  end.

(** The type of the tool can be looked up in the set of the valid
    types when the per-tool check does so. *)
Definition type_is_hashable_if_truthy (tool : dict) : Prop :=
  ~ is_nonempty_container (get tool "type" JNull).

(** What the per-tool check lets through as the value of a required
    field: [None], or a string that is not blank. *)
Definition value_passes (v : json) : Prop :=
  v = JNull \/ exists s, v = JStr s /\ PyStr.is_blank s = false.

(** The tool objects that the per-tool check lets through: exactly
    the four keys, each value [None] or a string that is not blank,
    and the type [None] or one of the four types. *)
Record passes_tool_check (tool : dict) : Prop := {
  passes_keys :
    forall k, k ∈ keys tool <-> k ∈ ValidateTools.REQUIRED_TOOL_FIELDS;
  passes_values :
    forall k, k ∈ ValidateTools.REQUIRED_TOOL_FIELDS ->
              value_passes (get tool k JNull);
  passes_type :
    get tool "type" JNull = JNull
    \/ exists t, get tool "type" JNull = JStr t
                 /\ t ∈ ValidateTools.VALID_TOOL_TYPES
}.

(** The category values that the structure check lets through:
    objects that have the keys [name] and [description], each value
    [None] or a string that is not blank. *)
Definition passes_category_check (data : json) : Prop :=
  exists d, data = JDict d
            /\ has_key d "name" = true /\ has_key d "description" = true
            /\ value_passes (get d "name" JNull)
            /\ value_passes (get d "description" JNull).

(** The title has no other character than ASCII letters and digits,
    whitespace and hyphens. *)
Definition plain_title (isspace : N -> bool) (title : Unicode.text) : Prop :=
  Forall (fun c => Unicode.is_ascii_alnum c = true \/ isspace c = true
                   \/ Unicode.is_hyphen c = true)
    title.

End Notions.

(** ** Properties of the string operations *)
Module PyStrFacts.
Import PyStr.

Lemma of_chars_chars (s : string) : of_chars (chars s) = s.
Proof. apply string_of_list_ascii_of_string. Qed.

Lemma chars_of_chars (l : list ascii) : chars (of_chars l) = l.
Proof. apply list_ascii_of_string_of_list_ascii. Qed.

Section Strip.
Context {A : Type} (p : A -> bool).

Lemma rstrip_chars_cons_keep (c : A) (s : list A) :
  p c = false -> rstrip_chars p (c :: s) = c :: rstrip_chars p s.
Proof. intros Hc. simpl. rewrite Hc. destruct (rstrip_chars p s); reflexivity. Qed.

Lemma rstrip_chars_idem (s : list A) :
  rstrip_chars p (rstrip_chars p s) = rstrip_chars p s.
Proof.
  induction s as [|c s IH]; [reflexivity|].
  simpl. destruct (rstrip_chars p s) as [|d r] eqn:E.
  - destruct (p c) eqn:Hc; [reflexivity|]. simpl. rewrite Hc. reflexivity.
  - change (rstrip_chars p (c :: d :: r) = c :: d :: r).
    simpl. simpl in IH. rewrite IH. destruct (rstrip_chars p r); reflexivity.
Qed.

Lemma rstrip_chars_prefix (s : list A) :
  exists t, s = rstrip_chars p s ++ t.
Proof.
  induction s as [|c s [t IH]]; [exists []; reflexivity|].
  simpl. destruct (rstrip_chars p s) as [|d r] eqn:E.
  - destruct (p c).
    + exists (c :: s). reflexivity.
    + exists t. simpl in *. congruence.
  - exists t. simpl in *. congruence.
Qed.

Lemma lstrip_chars_suffix (s : list A) :
  exists t, s = t ++ lstrip_chars p s.
Proof.
  induction s as [|c s [t IH]]; [exists []; reflexivity|].
  simpl. destruct (p c).
  - exists (c :: t). simpl. congruence.
  - exists []. reflexivity.
Qed.

Lemma lstrip_chars_head (s : list A) :
  match lstrip_chars p s with
  | [] => True
  | c :: _ => p c = false
  end.
Proof.
  induction s as [|c s IH]; [exact I|].
  simpl. destruct (p c) eqn:Hc; [exact IH|exact Hc].
Qed.

Lemma lstrip_chars_fixed (s : list A) :
  match s with [] => True | c :: _ => p c = false end ->
  lstrip_chars p s = s.
Proof. destruct s as [|c s]; [reflexivity|]. simpl. intros ->. reflexivity. Qed.

Lemma strip_chars_head (s : list A) :
  match strip_chars p s with
  | [] => True
  | c :: _ => p c = false
  end.
Proof.
  unfold strip_chars. pose proof (lstrip_chars_head s) as H.
  destruct (lstrip_chars p s) as [|c t]; [exact I|].
  rewrite (rstrip_chars_cons_keep _ _ H). exact H.
Qed.

Lemma strip_chars_idem (s : list A) :
  strip_chars p (strip_chars p s) = strip_chars p s.
Proof.
  unfold strip_chars at 1.
  rewrite (lstrip_chars_fixed _ (strip_chars_head s)).
  unfold strip_chars. apply rstrip_chars_idem.
Qed.

Lemma strip_chars_Forall (P : A -> Prop) (s : list A) :
  Forall P s -> Forall P (strip_chars p s).
Proof.
  intros Hs. unfold strip_chars.
  destruct (lstrip_chars_suffix s) as [t Ht].
  destruct (rstrip_chars_prefix (lstrip_chars p s)) as [u Hu].
  rewrite Ht, Hu in Hs.
  apply Forall_app in Hs as [_ Hs]. apply Forall_app in Hs as [Hs _].
  exact Hs.
Qed.

Lemma sub_runs_from_Forall (P : A -> Prop) (rep : list A) (b : bool)
    (s : list A) :
  Forall P rep -> Forall P s -> Forall P (sub_runs_from p rep b s).
Proof.
  intros Hrep Hs. revert b.
  induction Hs as [|c s Hc _ IH]; intros b; simpl; [constructor|].
  destruct (p c).
  - apply Forall_app. split; [destruct b; [constructor|exact Hrep]|apply IH].
  - constructor; [exact Hc|apply IH].
Qed.

Lemma sub_runs_from_ext (q : A -> bool) (rep : list A) (b : bool)
    (s : list A) :
  Forall (fun c => p c = q c) s ->
  sub_runs_from p rep b s = sub_runs_from q rep b s.
Proof.
  intros Hs. revert b.
  induction Hs as [|c s Hc _ IH]; intros b; simpl; [reflexivity|].
  rewrite Hc. destruct (q c); rewrite IH; reflexivity.
Qed.

Lemma delete_chars_Forall (P : A -> Prop) (s : list A) :
  Forall P s -> Forall P (delete_chars p s).
Proof.
  unfold delete_chars. induction 1 as [|c s Hc _ IH]; [constructor|].
  destruct (p c) eqn:E.
  - rewrite filter_cons_False by congruence. exact IH.
  - rewrite filter_cons_True by exact E. constructor; assumption.
Qed.

Lemma delete_chars_kept (s : list A) :
  Forall (fun c => p c = false) (delete_chars p s).
Proof.
  unfold delete_chars. induction s as [|c s IH]; [constructor|].
  destruct (p c) eqn:E.
  - rewrite filter_cons_False by congruence. exact IH.
  - rewrite filter_cons_True by exact E. constructor; assumption.
Qed.

Lemma delete_chars_fixed (s : list A) :
  Forall (fun c => p c = false) s -> delete_chars p s = s.
Proof.
  unfold delete_chars. induction 1 as [|c s Hc _ IH]; [reflexivity|].
  rewrite filter_cons_True by exact Hc. rewrite IH. reflexivity.
Qed.
End Strip.

(** Runs of a class that are replaced by one hyphen. *)
Section Runs.
Context {A : Type} (is_hyphen : A -> bool) (hyphen : A).
Hypothesis is_hyphen_spec : forall c, is_hyphen c = true <-> c = hyphen.
Variable p : A -> bool.

Import Rules.

Lemma separated_weaken (b : bool) (s : list A) :
  separated is_hyphen p b s = true -> separated is_hyphen p false s = true.
Proof.
  destruct s as [|c s]; [reflexivity|]. simpl.
  destruct (p c); [|trivial].
  destruct (is_hyphen c), b; simpl; (discriminate || trivial).
Qed.

Lemma separated_app_l (b : bool) (s t : list A) :
  separated is_hyphen p b (s ++ t) = true -> separated is_hyphen p b s = true.
Proof.
  revert b. induction s as [|c s IH]; intros b; simpl; [reflexivity|].
  destruct (p c).
  - destruct (is_hyphen c), b; simpl; (discriminate || apply IH).
  - apply IH.
Qed.

Lemma separated_app_r (b : bool) (s t : list A) :
  separated is_hyphen p b (s ++ t) = true ->
  separated is_hyphen p false t = true.
Proof.
  revert b. induction s as [|c s IH]; intros b; simpl.
  - apply separated_weaken.
  - destruct (p c).
    + destruct (is_hyphen c), b; simpl; (discriminate || apply IH).
    + apply IH.
Qed.

Lemma separated_strip (q : A -> bool) (b : bool) (s : list A) :
  separated is_hyphen p b s = true ->
  separated is_hyphen p false (strip_chars q s) = true.
Proof.
  intros Hs. unfold strip_chars.
  destruct (lstrip_chars_suffix q s) as [t Ht].
  destruct (rstrip_chars_prefix q (lstrip_chars q s)) as [u Hu].
  rewrite Ht in Hs. apply separated_app_r in Hs.
  rewrite Hu in Hs. apply separated_app_l in Hs. exact Hs.
Qed.

Lemma sub_runs_from_separated (b : bool) (s : list A) :
  p hyphen = true ->
  separated is_hyphen p b (sub_runs_from p [hyphen] b s) = true.
Proof.
  intros Hp.
  assert (is_hyphen hyphen = true) as Hh by (apply is_hyphen_spec; reflexivity).
  revert b.
  induction s as [|c s IH]; intros b; simpl; [reflexivity|].
  destruct (p c) eqn:Hc.
  - destruct b; simpl; [apply IH|]. rewrite Hp, Hh. simpl. apply IH.
  - simpl. rewrite Hc. apply IH.
Qed.

Lemma sub_runs_from_fixed (b : bool) (s : list A) :
  separated is_hyphen p b s = true -> sub_runs_from p [hyphen] b s = s.
Proof.
  revert b. induction s as [|c s IH]; intros b; simpl; [reflexivity|].
  destruct (p c).
  - destruct (is_hyphen c) eqn:Hh, b; simpl; try discriminate.
    intros Hs. apply is_hyphen_spec in Hh. subst c.
    rewrite (IH _ Hs). reflexivity.
  - intros Hs. rewrite (IH _ Hs). reflexivity.
Qed.
End Runs.

(** The operations commute with a renaming of the characters that
    respects the classes. *)
Section Renaming.
Context {A B : Type} (f : A -> B) (p : A -> bool) (q : B -> bool).
Hypothesis classes : forall c, p c = q (f c).

Lemma fmap_lstrip_chars (s : list A) :
  f <$> lstrip_chars p s = lstrip_chars q (f <$> s).
Proof.
  induction s as [|c s IH]; [reflexivity|].
  csimpl. rewrite <- classes. destruct (p c); [exact IH|reflexivity].
Qed.

Lemma fmap_rstrip_chars (s : list A) :
  f <$> rstrip_chars p s = rstrip_chars q (f <$> s).
Proof.
  induction s as [|c s IH]; [reflexivity|].
  csimpl. rewrite <- IH, <- classes.
  destruct (rstrip_chars p s) as [|d r]; csimpl; [|reflexivity].
  destruct (p c); reflexivity.
Qed.

Lemma fmap_strip_chars (s : list A) :
  f <$> strip_chars p s = strip_chars q (f <$> s).
Proof. unfold strip_chars. rewrite fmap_rstrip_chars, fmap_lstrip_chars. reflexivity. Qed.

Lemma fmap_sub_runs_from (rep : list A) (b : bool) (s : list A) :
  f <$> sub_runs_from p rep b s = sub_runs_from q (f <$> rep) b (f <$> s).
Proof.
  revert b. induction s as [|c s IH]; intros b; [reflexivity|].
  csimpl. rewrite <- classes. destruct (p c).
  - rewrite fmap_app, IH. destruct b; reflexivity.
  - csimpl. rewrite IH. reflexivity.
Qed.

Lemma fmap_delete_chars (s : list A) :
  f <$> delete_chars p s = delete_chars q (f <$> s).
Proof.
  unfold delete_chars. induction s as [|c s IH]; [reflexivity|].
  csimpl. destruct (p c) eqn:E.
  - rewrite filter_cons_False by congruence.
    rewrite filter_cons_False by (rewrite <- classes; congruence). exact IH.
  - rewrite filter_cons_True by exact E.
    rewrite filter_cons_True by (rewrite <- classes; exact E).
    csimpl. rewrite IH. reflexivity.
Qed.
End Renaming.

End PyStrFacts.

(** ** The two conversions of a gem title *)
Module TextFacts.
Import PyStr PyStrFacts Unicode Rules.

Lemma is_hyphen_spec (c : N) : is_hyphen c = true <-> c = hyphen.
Proof. apply N.eqb_eq. Qed.

Lemma in_range_spec (lo hi c : N) :
  in_range lo hi c = true <-> (lo <= c <= hi)%N.
Proof. unfold in_range. rewrite andb_true_iff, !N.leb_le. reflexivity. Qed.

Lemma in_range_false (lo hi c : N) :
  in_range lo hi c = false <-> (c < lo \/ hi < c)%N.
Proof.
  unfold in_range. rewrite andb_false_iff, !N.leb_gt. reflexivity.
Qed.

Lemma is_ascii_alnum_spec (c : N) :
  is_ascii_alnum c = true
  <-> (97 <= c <= 122 \/ 65 <= c <= 90 \/ 48 <= c <= 57)%N.
Proof.
  unfold is_ascii_alnum, is_ascii_lower, is_ascii_upper, is_ascii_digit.
  rewrite !orb_true_iff, !in_range_spec. tauto.
Qed.

Lemma is_lower_or_digit_spec (c : N) :
  is_lower_or_digit c = true <-> (97 <= c <= 122 \/ 48 <= c <= 57)%N.
Proof.
  unfold is_lower_or_digit, is_ascii_lower, is_ascii_digit.
  rewrite orb_true_iff, !in_range_spec. reflexivity.
Qed.

Lemma ascii_lower_fixed (c : N) :
  is_ascii_upper c = false -> ascii_lower c = c.
Proof. unfold ascii_lower. intros ->. reflexivity. Qed.

Lemma ascii_lower_alnum (c : N) :
  is_ascii_alnum c = true -> is_ascii_alnum (ascii_lower c) = true.
Proof.
  unfold ascii_lower. intros Hc.
  destruct (is_ascii_upper c) eqn:E; [|exact Hc].
  apply in_range_spec in E. apply is_ascii_alnum_spec. lia.
Qed.

Lemma ascii_text (s : text) :
  forallb (fun c => (c <? 128)%N) s = true -> Forall (fun c => (c < 128)%N) s.
Proof.
  induction s as [|c s IH]; simpl; [constructor|].
  rewrite andb_true_iff, N.ltb_lt. intros [Hc Hs].
  constructor; [exact Hc|apply IH, Hs].
Qed.

Definition not_alnum (c : N) : bool := negb (is_ascii_alnum c).

Lemma lowered_class (c : N) :
  is_ascii_upper c = false -> not_alnum c = negb (is_lower_or_digit c).
Proof.
  unfold not_alnum, is_ascii_alnum, is_lower_or_digit. intros ->.
  destruct (is_ascii_lower c); reflexivity.
Qed.

Lemma separated_alphabet (b : bool) (l : text) :
  Forall (fun c => is_ascii_upper c = false) l ->
  separated is_hyphen not_alnum b l = true ->
  Forall (fun c => is_lower_or_digit c = true \/ c = hyphen) l.
Proof.
  revert b. induction l as [|c l IH]; intros b Hlow Hsep; [constructor|].
  apply Forall_cons in Hlow as [Hc Hlow]. simpl in Hsep.
  destruct (not_alnum c) eqn:Hn.
  - destruct (is_hyphen c) eqn:Hh, b; simpl in Hsep; try discriminate.
    constructor; [right; apply is_hyphen_spec, Hh|apply (IH _ Hlow Hsep)].
  - constructor; [|apply (IH _ Hlow Hsep)].
    left. rewrite (lowered_class _ Hc) in Hn.
    destruct (is_lower_or_digit c); [reflexivity|discriminate].
Qed.

(** *** The slug of the validator *)
Section Slug.
Variable lower : text -> text.
Hypothesis lower_no_capital :
  forall s, Forall (fun c => is_ascii_upper c = false) (lower s).
Hypothesis lower_ascii :
  forall s, Forall (fun c => (c < 128)%N) s -> lower s = ascii_lower <$> s.

Lemma slug_separated (title : text) :
  separated is_hyphen not_alnum false (title_to_slug lower title) = true.
Proof.
  apply (separated_strip _ _ _ false).
  apply (sub_runs_from_separated is_hyphen hyphen is_hyphen_spec).
  reflexivity.
Qed.

(** Every character of a slug is in [[a-z0-9]] or is a hyphen. *)
Lemma slug_alphabet (title : text) :
  Forall (fun c => is_lower_or_digit c = true \/ c = hyphen)
    (title_to_slug lower title).
Proof.
  apply (separated_alphabet false); [|apply slug_separated].
  apply strip_chars_Forall, sub_runs_from_Forall.
  - repeat constructor.
  - apply lower_no_capital.
Qed.

(** The lowering leaves a string of that alphabet as it is. *)
Lemma lower_alphabet (s : text) :
  Forall (fun c => is_lower_or_digit c = true \/ c = hyphen) s ->
  lower s = s.
Proof.
  intros Hs. rewrite lower_ascii.
  - induction Hs as [|c s Hc _ IH]; [reflexivity|].
    csimpl. rewrite IH. f_equal. apply ascii_lower_fixed, in_range_false.
    destruct Hc as [Hc| ->]; [|unfold hyphen; lia].
    apply is_lower_or_digit_spec in Hc. lia.
  - eapply Forall_impl; [exact Hs|]. intros c [Hc| ->]; [|unfold hyphen; lia].
    apply is_lower_or_digit_spec in Hc. lia.
Qed.

Lemma slug_fixed (title : text) :
  title_to_slug lower (title_to_slug lower title) = title_to_slug lower title.
Proof.
  unfold title_to_slug at 1.
  rewrite (lower_alphabet _ (slug_alphabet title)).
  unfold sub_runs. fold not_alnum.
  rewrite (sub_runs_from_fixed is_hyphen hyphen is_hyphen_spec _ _ _
             (slug_separated title)).
  apply strip_chars_idem.
Qed.

Lemma slug_is_rule (title : text) :
  title_to_slug lower title = slug_rule lower title.
Proof.
  unfold title_to_slug, slug_rule. f_equal. apply sub_runs_from_ext.
  eapply Forall_impl; [apply lower_no_capital|].
  intros c Hc. apply (lowered_class c Hc).
Qed.

Lemma slug_of_ascii (title : text) :
  forallb (fun c => (c <? 128)%N) title = true ->
  title_to_slug lower title
  = strip_chars is_hyphen
      (sub_runs (fun c => negb (is_ascii_alnum c)) [hyphen]
         (ascii_lower <$> title)).
Proof.
  intros H. unfold title_to_slug.
  rewrite (lower_ascii _ (ascii_text _ H)). reflexivity.
Qed.
End Slug.

(** *** The conversion of the website builder *)
Section Kebab.
Variable lower : text -> text.
Variable is_word : N -> bool.
Variable isspace : N -> bool.

Definition dropped (c : N) : bool :=
  negb (is_word c || isspace c || is_hyphen c).
Definition joint (c : N) : bool := is_hyphen c || isspace c.

Lemma kebab_kept (title : text) :
  Forall (fun c => dropped c = false)
    (title_to_kebab_case lower is_word isspace title).
Proof.
  apply strip_chars_Forall, sub_runs_from_Forall.
  - constructor; [|constructor]. unfold dropped.
    change (is_hyphen hyphen) with true. rewrite orb_true_r. reflexivity.
  - apply delete_chars_kept.
Qed.

Lemma kebab_separated (title : text) :
  separated is_hyphen joint false
    (title_to_kebab_case lower is_word isspace title) = true.
Proof.
  apply (separated_strip _ _ _ false).
  apply (sub_runs_from_separated is_hyphen hyphen is_hyphen_spec).
  reflexivity.
Qed.

Lemma kebab_lowered (title : text) :
  Forall (fun c => c ∈ lower title \/ c = hyphen)
    (title_to_kebab_case lower is_word isspace title).
Proof.
  apply strip_chars_Forall, sub_runs_from_Forall.
  - constructor; [right; reflexivity|constructor].
  - apply delete_chars_Forall, Forall_forall. intros c Hc. left. exact Hc.
Qed.

Section Stable.
Hypothesis lower_stable :
  forall s t, Forall (fun c => c ∈ lower s \/ c = hyphen) t -> lower t = t.

Lemma kebab_fixed (title : text) :
  title_to_kebab_case lower is_word isspace
    (title_to_kebab_case lower is_word isspace title)
  = title_to_kebab_case lower is_word isspace title.
Proof.
  unfold title_to_kebab_case at 1. cbv zeta.
  rewrite (lower_stable title _ (kebab_lowered title)).
  fold dropped. rewrite (delete_chars_fixed _ _ (kebab_kept title)).
  unfold sub_runs. fold joint.
  rewrite (sub_runs_from_fixed is_hyphen hyphen is_hyphen_spec _ _ _
             (kebab_separated title)).
  apply strip_chars_idem.
Qed.
End Stable.

Section Plain.
Hypothesis lower_uncased :
  forall s, Forall (fun c => (c < 128)%N \/ isspace c = true) s ->
            lower s = ascii_lower <$> s.
Hypothesis word_alnum : forall c, is_ascii_alnum c = true -> is_word c = true.
Hypothesis space_alnum :
  forall c, is_ascii_alnum c = true -> isspace c = false.

(** On a character of a plain title, lowered, the classes of the two
    conversions agree, and the builder deletes nothing. *)
Lemma plain_char_classes (c : N) :
  is_ascii_alnum c = true \/ isspace c = true \/ is_hyphen c = true ->
  dropped (ascii_lower c) = false
  /\ not_alnum (ascii_lower c) = joint (ascii_lower c).
Proof.
  unfold dropped, joint, not_alnum.
  destruct (is_ascii_alnum c) eqn:Ha.
  - intros _. pose proof (ascii_lower_alnum c Ha) as Hl.
    rewrite Hl, (word_alnum _ Hl), (space_alnum _ Hl).
    assert (is_hyphen (ascii_lower c) = false) as ->; [|split; reflexivity].
    apply N.eqb_neq. apply is_ascii_alnum_spec in Hl. unfold hyphen. lia.
  - assert (ascii_lower c = c) as ->.
    { apply ascii_lower_fixed.
      unfold is_ascii_alnum in Ha. rewrite !orb_false_iff in Ha. tauto. }
    rewrite Ha. intros [H|[H|H]]; [discriminate H| |]; rewrite H.
    + rewrite !orb_true_r. split; reflexivity.
    + rewrite orb_true_r. split; reflexivity.
Qed.

Lemma plain_ascii_or_space (title : text) :
  Notions.plain_title isspace title ->
  Forall (fun c => (c < 128)%N \/ isspace c = true) title.
Proof.
  intros H. eapply Forall_impl; [exact H|]. intros c [Hc|[Hc|Hc]].
  - left. apply is_ascii_alnum_spec in Hc. lia.
  - right. exact Hc.
  - left. apply is_hyphen_spec in Hc. subst c. unfold hyphen. lia.
Qed.

Lemma plain_agree (title : text) :
  Notions.plain_title isspace title ->
  title_to_slug lower title = title_to_kebab_case lower is_word isspace title.
Proof.
  intros Hplain. unfold title_to_slug, title_to_kebab_case, sub_runs.
  rewrite (lower_uncased _ (plain_ascii_or_space _ Hplain)).
  assert (Forall (fun c => dropped c = false /\ not_alnum c = joint c)
            (ascii_lower <$> title)) as Hclasses.
  { apply Forall_fmap. eapply Forall_impl; [exact Hplain|].
    intros c Hc. apply (plain_char_classes c Hc). }
  fold dropped.
  rewrite delete_chars_fixed
    by (eapply Forall_impl; [exact Hclasses|]; intros c [H _]; exact H).
  f_equal. apply sub_runs_from_ext.
  eapply Forall_impl; [exact Hclasses|]. intros c [_ H]. exact H.
Qed.
End Plain.
End Kebab.

End TextFacts.

(** ** An instance of the tables

    The tables of Python on the code points below 256, and beyond
    them the capital I with a dot, whose lower case has two
    characters, the Kelvin sign, whose lower case is the letter k, and
    the whitespace of Unicode. *)
Module SampleTables.
Import Unicode TextFacts.

Definition is_capital (c : N) : bool :=
  is_ascii_upper c || (in_range 192 222 c && negb (c =? 215)%N).

(** The lower case of one character. *)
Definition lower_full (c : N) : text :=
  if is_capital c then [(c + 32)%N]
  else if (c =? 304)%N then [105%N; 775%N]
  else if (c =? 8490)%N then [107%N]
  else [c].

Definition lower (s : text) : text := s ≫= lower_full.

Definition isspace (c : N) : bool :=
  in_range 9 13 c || in_range 28 32 c
  || (c =? 133)%N || (c =? 160)%N || (c =? 5760)%N
  || in_range 8192 8202 c || in_range 8232 8233 c
  || (c =? 8239)%N || (c =? 8287)%N || (c =? 12288)%N.

Definition is_word (c : N) : bool :=
  is_ascii_alnum c || (c =? 95)%N
  || (c =? 170)%N || (c =? 178)%N || (c =? 179)%N
  || (c =? 181)%N || (c =? 185)%N || (c =? 186)%N
  || in_range 188 190 c || in_range 192 214 c
  || in_range 216 246 c || in_range 248 255 c
  || (c =? 304)%N || (c =? 8490)%N.

Lemma is_capital_spec (c : N) :
  is_capital c = true
  <-> (65 <= c <= 90 \/ (192 <= c <= 222 /\ c <> 215))%N.
Proof.
  unfold is_capital, is_ascii_upper.
  rewrite orb_true_iff, andb_true_iff, negb_true_iff, !in_range_spec,
    N.eqb_neq.
  reflexivity.
Qed.

Lemma is_capital_false (c : N) :
  is_capital c = false
  <-> (~ (65 <= c <= 90) /\ (~ (192 <= c <= 222) \/ c = 215))%N.
Proof.
  rewrite <- not_true_iff_false, is_capital_spec. lia.
Qed.

Lemma not_capital_fixed (c : N) :
  is_capital c = false -> c <> 304%N -> c <> 8490%N -> lower_full c = [c].
Proof.
  intros Hc H1 H2. unfold lower_full. rewrite Hc.
  apply N.eqb_neq in H1, H2. rewrite H1, H2. reflexivity.
Qed.

(** What the lowering of one character yields: a character that
    the lowering leaves as it is, and no ASCII capital. *)
Lemma lower_full_lowered (c d : N) :
  d ∈ lower_full c ->
  lower_full d = [d] /\ is_ascii_upper d = false.
Proof.
  unfold lower_full.
  destruct (is_capital c) eqn:Hc.
  - apply is_capital_spec in Hc. intros ->%list_elem_of_singleton.
    split; [apply not_capital_fixed; [apply is_capital_false|..]|
            apply in_range_false]; lia.
  - apply is_capital_false in Hc.
    destruct (N.eqb_spec c 304) as [->|H1].
    { intros [->|[->|[]%elem_of_nil]%elem_of_cons]%elem_of_cons;
        (split; [apply not_capital_fixed; [apply is_capital_false|..]|
                 apply in_range_false]; lia). }
    destruct (N.eqb_spec c 8490) as [->|H2].
    { intros ->%list_elem_of_singleton.
      split; [apply not_capital_fixed; [apply is_capital_false|..]|
              apply in_range_false]; lia. }
    intros ->%list_elem_of_singleton.
    split; [apply not_capital_fixed; [apply is_capital_false|..]|
            apply in_range_false]; lia.
Qed.

Lemma lower_full_ascii (c : N) :
  (c < 128)%N -> lower_full c = [ascii_lower c].
Proof.
  intros Hc. unfold lower_full, ascii_lower.
  destruct (is_ascii_upper c) eqn:E.
  - assert (is_capital c = true) as ->; [|reflexivity].
    apply in_range_spec in E. apply is_capital_spec. lia.
  - apply in_range_false in E. apply not_capital_fixed; [|lia..].
    apply is_capital_false. lia.
Qed.

Lemma isspace_spec (c : N) :
  isspace c = true
  <-> (9 <= c <= 13 \/ 28 <= c <= 32 \/ c = 133 \/ c = 160 \/ c = 5760
       \/ 8192 <= c <= 8202 \/ 8232 <= c <= 8233 \/ c = 8239 \/ c = 8287
       \/ c = 12288)%N.
Proof.
  unfold isspace. rewrite !orb_true_iff, !in_range_spec, !N.eqb_eq. tauto.
Qed.

Lemma lower_fixed (s : text) :
  Forall (fun c => lower_full c = [c]) s -> lower s = s.
Proof.
  unfold lower. induction 1 as [|c s Hc _ IH]; [reflexivity|].
  csimpl. rewrite Hc, IH. reflexivity.
Qed.

Lemma lower_no_capital (s : text) :
  Forall (fun c => is_ascii_upper c = false) (lower s).
Proof.
  apply Forall_forall. intros d Hd. unfold lower in Hd.
  apply list_elem_of_bind in Hd as (c & Hd & _).
  apply (lower_full_lowered c d Hd).
Qed.

Lemma lower_ascii (s : text) :
  Forall (fun c => (c < 128)%N) s -> lower s = ascii_lower <$> s.
Proof.
  unfold lower. induction 1 as [|c s Hc _ IH]; [reflexivity|].
  csimpl. rewrite (lower_full_ascii _ Hc), IH. reflexivity.
Qed.

Lemma lower_stable (s t : text) :
  Forall (fun c => c ∈ lower s \/ c = hyphen) t -> lower t = t.
Proof.
  intros Ht. apply lower_fixed. eapply Forall_impl; [exact Ht|].
  intros d [Hd| ->]; [|reflexivity].
  unfold lower in Hd. apply list_elem_of_bind in Hd as (c & Hd & _).
  apply (lower_full_lowered c d Hd).
Qed.

Lemma lower_uncased (s : text) :
  Forall (fun c => (c < 128)%N \/ isspace c = true) s ->
  lower s = ascii_lower <$> s.
Proof.
  unfold lower. induction 1 as [|c s Hc _ IH]; [reflexivity|].
  csimpl. rewrite IH.
  assert (lower_full c = [ascii_lower c]) as ->; [|reflexivity].
  destruct Hc as [Hc|Hc].
  - apply (lower_full_ascii _ Hc).
  - apply isspace_spec in Hc.
    rewrite ascii_lower_fixed by (apply in_range_false; lia).
    apply not_capital_fixed; [apply is_capital_false|..]; lia.
Qed.

Lemma word_alnum (c : N) : is_ascii_alnum c = true -> is_word c = true.
Proof. unfold is_word. intros ->. reflexivity. Qed.

Lemma space_alnum (c : N) : is_ascii_alnum c = true -> isspace c = false.
Proof.
  intros Hc. apply is_ascii_alnum_spec in Hc.
  apply not_true_iff_false. rewrite isspace_spec. lia.
Qed.

End SampleTables.

(** ** The conversions on 8-bit strings

    The conversions of the catalog model are the conversions above
    on the code points of an 8-bit string, with the tables of
    [SampleTables]. *)
Module LatinFacts.
Import PyStr PyStrFacts.

Lemma lower_code (c : ascii) :
  SampleTables.lower_full (code c) = [code (char_lower c)].
Proof. destruct c as [[] [] [] [] [] [] [] []]; reflexivity. Qed.

Lemma isspace_code (c : ascii) :
  isspace c = SampleTables.isspace (code c).
Proof. destruct c as [[] [] [] [] [] [] [] []]; reflexivity. Qed.

Lemma is_word_code (c : ascii) :
  is_word c = SampleTables.is_word (code c).
Proof. destruct c as [[] [] [] [] [] [] [] []]; reflexivity. Qed.

Lemma lower_chars_code (s : list ascii) :
  code <$> lower_chars s = SampleTables.lower (code <$> s).
Proof.
  unfold lower_chars, SampleTables.lower.
  induction s as [|c s IH]; [reflexivity|].
  csimpl. rewrite lower_code. simpl in IH. rewrite <- IH. reflexivity.
Qed.

Lemma title_to_slug_text (title : string) :
  Unicode.of_string (ValidateTools.title_to_slug title)
  = Unicode.title_to_slug SampleTables.lower (Unicode.of_string title).
Proof.
  unfold Unicode.of_string, ValidateTools.title_to_slug,
    Unicode.title_to_slug, sub_runs.
  rewrite chars_of_chars.
  rewrite (fmap_strip_chars code is_hyphen Unicode.is_hyphen)
    by reflexivity.
  rewrite (fmap_sub_runs_from code _
             (fun c => negb (Unicode.is_ascii_alnum c)))
    by reflexivity.
  rewrite lower_chars_code. reflexivity.
Qed.

Lemma title_to_kebab_case_text (title : string) :
  Unicode.of_string (BuildWebsite.title_to_kebab_case title)
  = Unicode.title_to_kebab_case SampleTables.lower SampleTables.is_word
      SampleTables.isspace (Unicode.of_string title).
Proof.
  unfold Unicode.of_string, BuildWebsite.title_to_kebab_case,
    Unicode.title_to_kebab_case, sub_runs.
  cbv zeta. rewrite chars_of_chars.
  rewrite (fmap_strip_chars code is_hyphen Unicode.is_hyphen)
    by reflexivity.
  rewrite (fmap_sub_runs_from code _
             (fun c => Unicode.is_hyphen c || SampleTables.isspace c))
    by (intros c; rewrite isspace_code; reflexivity).
  rewrite (fmap_delete_chars code _
             (fun c => negb (SampleTables.is_word c || SampleTables.isspace c
                             || Unicode.is_hyphen c)))
    by (intros c; rewrite isspace_code, is_word_code; reflexivity).
  rewrite lower_chars_code. reflexivity.
Qed.

End LatinFacts.

(** C8: [title_to_slug] is idempotent on every string; it maps
    "My Cool Gem!" to "my-cool-gem" and "  multi   space " to
    "multi-space"; and it is the rule of the specification: the title
    in lower case, every maximal run of characters outside [a-z0-9]
    replaced by one hyphen, leading and trailing hyphens removed, so
    that a slug has no other character than [a-z0-9] and the hyphen.
    A string is any list of code points.  Of [str.lower] the proof
    uses that its result holds no ASCII capital and that on ASCII text
    it is the lowering of the letters A to Z. *)
Theorem title_to_slug_idempotent_rule (lower : Unicode.text -> Unicode.text) :
  (forall s, Forall (fun c => Unicode.is_ascii_upper c = false) (lower s)) ->
  (forall s, Forall (fun c => (c < 128)%N) s ->
             lower s = Unicode.ascii_lower <$> s) ->
  (forall t : Unicode.text,
     Unicode.title_to_slug lower (Unicode.title_to_slug lower t)
     = Unicode.title_to_slug lower t)
  /\ Unicode.title_to_slug lower (Unicode.of_string "My Cool Gem!")
     = Unicode.of_string "my-cool-gem"
  /\ Unicode.title_to_slug lower (Unicode.of_string "  multi   space ")
     = Unicode.of_string "multi-space"
  /\ (forall t : Unicode.text,
        Unicode.title_to_slug lower t = Rules.slug_rule lower t)
  /\ (forall t : Unicode.text,
        Forall (fun c => Rules.is_lower_or_digit c = true
                         \/ c = Unicode.hyphen)
          (Unicode.title_to_slug lower t)).
Proof.
  intros Hcapital Hascii. split; [|split; [|split; [|split]]].
  - intros t. apply (TextFacts.slug_fixed lower Hcapital Hascii).
  - rewrite (TextFacts.slug_of_ascii lower Hascii) by reflexivity.
    vm_compute. reflexivity.
  - rewrite (TextFacts.slug_of_ascii lower Hascii) by reflexivity.
    vm_compute. reflexivity.
  - intros t. apply (TextFacts.slug_is_rule lower Hcapital).
  - intros t. apply (TextFacts.slug_alphabet lower Hcapital).
Qed.

Lemma title_to_slug_idempotent_rule_witness :
  (forall t : Unicode.text,
     Unicode.title_to_slug SampleTables.lower
       (Unicode.title_to_slug SampleTables.lower t)
     = Unicode.title_to_slug SampleTables.lower t)
  /\ Unicode.title_to_slug SampleTables.lower
       (Unicode.of_string "My Cool Gem!")
     = Unicode.of_string "my-cool-gem"
  /\ Unicode.title_to_slug SampleTables.lower [304; 32; 8490; 33; 82]%N
     = [105; 45; 107; 45; 114]%N.
Proof.
  destruct (title_to_slug_idempotent_rule SampleTables.lower
              SampleTables.lower_no_capital SampleTables.lower_ascii)
    as (Hidem & Hgem & _).
  split; [exact Hidem|]. split; [exact Hgem|].
  vm_compute. reflexivity.
Defined.

(** ** Evaluations of the validator and the builders *)
Module Examples.
Import Py.

(** The document [{"tools": ["oops"], "categories": {}}]. *)
Definition doc_with_string_tool : dict :=
  [("tools", JList [JStr "oops"]); ("categories", JDict [])].

(** The document [{"tools": [{}], "categories": {}}]. *)
Definition doc_with_empty_tool : dict :=
  [("tools", JList [JDict []]); ("categories", JDict [])].

(** Two orders in which a run may walk a set of strings. *)
Definition ascending (X : gset string) : list string := sorted X.
Definition descending (X : gset string) : list string := reverse (sorted X).

(** A gem registry with one gem. *)
Definition registry_with_q_and_a : BuildWebsite.assets :=
  {| BuildWebsite.stat_fails := fun _ => false;
     BuildWebsite.skill_front_matter := fun _ => None;
     BuildWebsite.command_front_matter := fun _ => None;
     BuildWebsite.command_synopsis := fun _ => None;
     BuildWebsite.agent_front_matter := fun _ => None;
     BuildWebsite.gems_data :=
       Some (JDict [("gems",
                     JList [JDict [("title", JStr "Q&A Bot");
                                   ("link", JStr "https://gems.example/qa")]])]) |}.


(** The catalog with the one tool
    [{"name": "foo", "type": "skill", "description": "x",
      "category": "bar"}] and no category. *)
Definition tool_foo : dict :=
  [("name", JStr "foo"); ("type", JStr "skill");
   ("description", JStr "x"); ("category", JStr "bar")].

Definition doc_with_undefined_category : dict :=
  [("tools", JList [JDict tool_foo]); ("categories", JDict [])].


(** The catalog of [tool_foo] with the category "bar" defined, its
    name being one space. *)
Definition doc_with_blank_category_name : dict :=
  [("tools", JList [JDict tool_foo]);
   ("categories",
    JDict [("bar", JDict [("name", JStr " "); ("description", JStr "d")])])].

(** A valid catalog. *)
Definition valid_categories : dict :=
  [("bar", JDict [("name", JStr "Bar"); ("description", JStr "d")])].

Definition valid_doc : dict :=
  [("tools", JList [JDict tool_foo]); ("categories", JDict valid_categories)].


(** The tool [{"name": "foo", "type": "skill", "category": "bar"}],
    which has no description. *)
Definition tool_without_description : dict :=
  [("name", JStr "foo"); ("type", JStr "skill"); ("category", JStr "bar")].

(** [str] of a value that is not a string, for the evaluations: the
    tools of the examples have string names, which need none. *)
Definition no_str (v : json) : string := "".


(** An external-plugin document with four entries, two of them well
    formed. *)
Definition plugin_entries : list dict :=
  [[("name", JStr "alpha"); ("source", JStr "github:org/alpha")];
   [("name", JStr "beta")];
   [("source", JStr "github:org/gamma")];
   [("name", JStr "delta"); ("source", JStr "github:org/delta");
    ("description", JStr "The delta plugin")]].

Definition plugin_config : dict :=
  [("plugins", JList (JDict <$> plugin_entries))].


(** The tool whose four fields are all [null]. *)
Definition null_tool : dict :=
  [("name", JNull); ("type", JNull); ("description", JNull);
   ("category", JNull)].


(** A catalog with a skill, a command, an entry without description,
    a gem and a second skill. *)
Definition site_catalog : list json :=
  [JDict tool_foo;
   JDict [("name", JStr "run"); ("type", JStr "command");
          ("description", JStr "Runs"); ("category", JStr "bar")];
   JDict tool_without_description;
   JDict [("name", JStr "qa-bot"); ("type", JStr "gem");
          ("description", JStr "Answers"); ("category", JStr "bar")];
   JDict [("name", JStr "baz"); ("type", JStr "skill");
          ("description", JStr "Baz"); ("category", JStr "bar")]].


(** The website data of [site_catalog]. *)
Definition site_data : BuildWebsite.website_tools :=
  match BuildWebsite.build_website_data no_str registry_with_q_and_a
          site_catalog with
  | Ok out => out
  | Raise _ => BuildWebsite.no_tools
  end.

End Examples.

(** C1, at the document [{"tools": ["oops"], "categories": {}}]: the
    entry that is not an object is reported by the loop over the
    tools, and then [validate_tool_names_unique] calls [get] on it:
    the validator raises [AttributeError], whatever the order of set
    iteration. *)
Theorem validate_tools_json_raises_on_string_tool :
  forall set_iter : gset string -> list string,
    ValidateTools.validate_tool_entries set_iter 0 [Py.JStr "oops"]
    = Py.Ok [ValidateTools.ToolNotObject 0 "str"]
    /\ ValidateTools.validate_tool_names_unique [Py.JStr "oops"]
       = Py.Raise Py.AttributeError
    /\ ValidateTools.validate_tools_json set_iter
         Examples.doc_with_string_tool None
       = Py.Raise Py.AttributeError.
Proof. intros set_iter. repeat split; reflexivity. Qed.

(** C10, at the title "Q&A Bot": the validator derives the gem name
    "q-a-bot", the website builder derives "qa-bot", and so the
    builder finds no link for the gem that the validator accepts under
    the name "q-a-bot". *)
Theorem title_to_slug_kebab_case_differ :
  ValidateTools.title_to_slug "Q&A Bot" = "q-a-bot"
  /\ BuildWebsite.title_to_kebab_case "Q&A Bot" = "qa-bot"
  /\ BuildWebsite.gem_link Examples.registry_with_q_and_a (Py.JStr "q-a-bot")
     = Py.JStr ""
  /\ BuildWebsite.gem_link Examples.registry_with_q_and_a (Py.JStr "qa-bot")
     = Py.JStr "https://gems.example/qa".
Proof. repeat split; reflexivity. Qed.

(** C3, at the document [{"tools": [{}], "categories": {}}]: the
    errors for the four missing fields come in the order in which the
    run walks the set [missing_fields].  Both orders below walk every
    set completely; the two runs report the same errors in different
    orders. *)
Theorem validate_tools_json_order_depends_on_set_iteration :
  (forall X : gset string, Examples.ascending X ≡ₚ elements X)
  /\ (forall X : gset string, Examples.descending X ≡ₚ elements X)
  /\ ValidateTools.validate_tools_json Examples.ascending
       Examples.doc_with_empty_tool None
     = Py.Ok [ValidateTools.ToolMissingField (Py.JStr "tool[0]") "category";
              ValidateTools.ToolMissingField (Py.JStr "tool[0]") "description";
              ValidateTools.ToolMissingField (Py.JStr "tool[0]") "name";
              ValidateTools.ToolMissingField (Py.JStr "tool[0]") "type"]
  /\ ValidateTools.validate_tools_json Examples.descending
       Examples.doc_with_empty_tool None
     = Py.Ok [ValidateTools.ToolMissingField (Py.JStr "tool[0]") "type";
              ValidateTools.ToolMissingField (Py.JStr "tool[0]") "name";
              ValidateTools.ToolMissingField (Py.JStr "tool[0]") "description";
              ValidateTools.ToolMissingField (Py.JStr "tool[0]") "category"].
Proof.
  split; [|split; [|split]].
  - intros X. apply merge_sort_Permutation.
  - intros X. unfold Examples.descending.
    rewrite reverse_Permutation. apply merge_sort_Permutation.
  - vm_compute. reflexivity.
  - vm_compute. reflexivity.
Qed.

(** Membership in a list that is written out. *)
Ltac in_list := first [left | right; in_list].
Ltac not_in_list :=
  rewrite ?not_elem_of_cons;
  repeat (split; [discriminate|]); apply not_elem_of_nil.
Ltac no_dup := repeat (constructor; [not_in_list|]); constructor.

(** ** Counting errors *)
Module CountFacts.
Import Py Rules.

Lemma count_app {A : Type} (f : A -> bool) (l1 l2 : list A) :
  count f (l1 ++ l2) = (count f l1 + count f l2)%nat.
Proof. induction l1 as [|x l1 IH]; simpl; [reflexivity|]. rewrite IH. lia. Qed.

Lemma count_none {A : Type} (f : A -> bool) (l : list A) :
  Forall (fun x => f x = false) l -> count f l = 0%nat.
Proof. induction 1 as [|x l Hx _ IH]; simpl; [reflexivity|]. rewrite Hx, IH. reflexivity. Qed.

(** In the image of a duplicate-free list under [g], the elements
    that [f] selects are the images of one [c] at most. *)
Lemma count_fmap_NoDup {A B : Type} (f : B -> bool) (g : A -> B) (c : A)
    (l : list A) :
  (forall x, f (g x) = true <-> x = c) ->
  NoDup l ->
  (c ∈ l -> count f (g <$> l) = 1%nat)
  /\ (c ∉ l -> count f (g <$> l) = 0%nat).
Proof.
  intros Hf. induction 1 as [|x l Hx Hl [IH1 IH0]]; csimpl.
  - split; [intros H; inversion H|reflexivity].
  - destruct (f (g x)) eqn:E.
    + apply Hf in E. subst x. split; intros H.
      * rewrite (IH0 Hx). reflexivity.
      * exfalso. apply H. left.
    + assert (x <> c) as Hne.
      { intros ->. assert (f (g c) = true) as E' by (apply Hf; reflexivity).
        congruence. }
      split; intros H.
      * apply elem_of_cons in H as [->|H]; [congruence|]. apply (IH1 H).
      * apply IH0. intros Hin. apply H. right. exact Hin.
Qed.

Lemma sorted_NoDup (X : gset string) : NoDup (sorted X).
Proof.
  unfold sorted. rewrite merge_sort_Permutation. apply NoDup_elements.
Qed.

Lemma elem_of_sorted (X : gset string) (c : string) : c ∈ sorted X <-> c ∈ X.
Proof.
  unfold sorted. rewrite merge_sort_Permutation. apply elem_of_elements.
Qed.

Lemma count_sorted (f : ValidateTools.error -> bool)
    (g : string -> ValidateTools.error) (c : string) (X : gset string) :
  (forall x, f (g x) = true <-> x = c) ->
  (c ∈ X -> count f (g <$> sorted X) = 1%nat)
  /\ (c ∉ X -> count f (g <$> sorted X) = 0%nat).
Proof.
  intros Hf.
  destruct (count_fmap_NoDup f g c (sorted X) Hf (sorted_NoDup X)) as [H1 H0].
  split; intros H; [apply H1|apply H0]; rewrite elem_of_sorted; exact H.
Qed.

Lemma count_fmap_none {A : Type} (f : ValidateTools.error -> bool)
    (g : A -> ValidateTools.error) (l : list A) :
  (forall x, f (g x) = false) -> count f (g <$> l) = 0%nat.
Proof. intros Hf. induction l as [|x l IH]; csimpl; [reflexivity|]. rewrite Hf, IH. reflexivity. Qed.

End CountFacts.

(** ** The category checks *)
Module CategoryFacts.
Import Py Rules CountFacts ValidateTools.

(** An error that is about no category. *)
Definition about_no_category (e : error) : Prop :=
  forall c, is_not_defined c e = false /\ is_not_used c e = false.

(** What the first loop of [validate_categories] computes from one
    tool object. *)
Definition category_of (i : nat) (tool : dict) : list error * gset string :=
  let category := get tool "category" JNull in
  if truthy category
  then match category with
       | JStr c => ([], {[ c ]})
       | v => ([ToolFieldNotString (get tool "name" (default_tool_name i))
                  "category" (type_name v)], ∅)
       end
  else ([], ∅).

Lemma referenced_categories_cons (i : nat) (tool : dict) (rest : list json) :
  referenced_categories i (JDict tool :: rest)
  = later ← referenced_categories (S i) rest;
    mret ((category_of i tool).1 ++ later.1, (category_of i tool).2 ∪ later.2).
Proof.
  unfold category_of. simpl.
  destruct (get tool "category" JNull) as [|b|n|s|l|d] eqn:E; simpl;
    try reflexivity.
  - destruct b; reflexivity.
  - destruct (n =? 0); reflexivity.
  - destruct (String.eqb s ""); reflexivity.
  - destruct l; reflexivity.
  - destruct d; reflexivity.
Qed.

Lemma category_of_errors (i : nat) (tool : dict) :
  Forall about_no_category (category_of i tool).1.
Proof.
  unfold category_of.
  destruct (get tool "category" JNull) as [|b|n|s|l|d]; simpl;
    repeat match goal with
           | |- context [if ?b then _ else _] => destruct b
           | |- context [match ?l with [] => _ | _ => _ end] => destruct l
           end; simpl;
    repeat constructor.
Qed.

Lemma category_of_references (i : nat) (tool : dict) (c : string) :
  c ∈ (category_of i tool).2 <-> references c tool.
Proof.
  unfold category_of, references.
  destruct (get tool "category" JNull) as [|b|n|s|l|d]; simpl;
    try (split; [set_solver|intros [? _]; discriminate]).
  - destruct b; simpl; (split; [set_solver|intros [? _]; discriminate]).
  - destruct (n =? 0); simpl; (split; [set_solver|intros [? _]; discriminate]).
  - destruct (String.eqb_spec s ""); simpl.
    + split; [set_solver|]. intros [[= ->] Hne]. contradiction.
    + rewrite elem_of_singleton. split.
      * intros ->. split; [reflexivity|assumption].
      * intros [[= ->] _]. reflexivity.
  - destruct l; simpl; (split; [set_solver|intros [? _]; discriminate]).
  - destruct d; simpl; (split; [set_solver|intros [? _]; discriminate]).
Qed.

(** On a list of tool objects the first loop does not raise; its
    errors are about no category, and the set it builds holds the
    referenced categories. *)
Lemma referenced_categories_objects (tools : list dict) (i : nat) :
  exists errs refs,
    referenced_categories i (JDict <$> tools) = Ok (errs, refs)
    /\ Forall about_no_category errs
    /\ forall c, c ∈ refs <-> referenced tools c.
Proof.
  revert i. induction tools as [|tool tools IH]; intros i.
  - exists [], ∅. split; [reflexivity|]. split; [constructor|].
    intros c. unfold referenced. rewrite Exists_nil. set_solver.
  - destruct (IH (S i)) as (errs & refs & Heq & Herrs & Hrefs).
    rewrite fmap_cons, referenced_categories_cons, Heq. simpl.
    eexists _, _. split; [reflexivity|]. split.
    + apply Forall_app. split; [apply category_of_errors|exact Herrs].
    + intros c. unfold referenced. rewrite elem_of_union, Exists_cons.
      rewrite category_of_references, Hrefs. reflexivity.
Qed.

Lemma count_about_no_category (f : string -> error -> bool) (c : string)
    (errs : list error) :
  (forall e, about_no_category e -> f c e = false) ->
  Forall about_no_category errs -> count (f c) errs = 0%nat.
Proof.
  intros Hf Herrs. apply count_none.
  eapply Forall_impl; [exact Herrs|]. intros e He. apply Hf, He.
Qed.

Lemma is_not_defined_iff (c x : string) :
  is_not_defined c (CategoryNotDefined x) = true <-> x = c.
Proof. simpl. apply String.eqb_eq. Qed.

Lemma is_not_used_iff (c x : string) :
  is_not_used c (CategoryNotUsed x) = true <-> x = c.
Proof. simpl. apply String.eqb_eq. Qed.

Lemma elem_of_key_set (d : dict) (c : string) : c ∈ key_set d <-> defined d c.
Proof. unfold key_set, defined. apply elem_of_list_to_set. Qed.

(** [validate_categories] on tool objects: it returns, and for every
    category the number of its "not defined" and of its "not used"
    errors is as stated. *)
Lemma validate_categories_counts (tools : list dict) (categories : dict) :
  exists errs,
    validate_categories (JDict <$> tools) categories = Ok errs
    /\ forall c,
         (referenced tools c -> ~ defined categories c ->
          count (is_not_defined c) errs = 1%nat)
         /\ (~ (referenced tools c /\ ~ defined categories c) ->
             count (is_not_defined c) errs = 0%nat)
         /\ (defined categories c -> ~ referenced tools c ->
             count (is_not_used c) errs = 1%nat)
         /\ (~ (defined categories c /\ ~ referenced tools c) ->
             count (is_not_used c) errs = 0%nat).
Proof.
  destruct (referenced_categories_objects tools 0)
    as (errs & refs & Heq & Herrs & Hrefs).
  unfold validate_categories. rewrite Heq. simpl.
  eexists. split; [reflexivity|]. intros c.
  rewrite !count_app.
  rewrite (count_about_no_category is_not_defined c errs), 
          (count_about_no_category is_not_used c errs);
    [|intros e He; apply He|exact Herrs|intros e He; apply He|exact Herrs].
  rewrite (count_fmap_none (is_not_defined c) CategoryNotUsed),
          (count_fmap_none (is_not_used c) CategoryNotDefined);
    [|reflexivity|reflexivity].
  destruct (count_sorted (is_not_defined c) CategoryNotDefined c
              (refs ∖ key_set categories) (is_not_defined_iff c)) as [Hd1 Hd0].
  destruct (count_sorted (is_not_used c) CategoryNotUsed c
              (key_set categories ∖ refs) (is_not_used_iff c)) as [Hu1 Hu0].
  rewrite !elem_of_difference, !elem_of_key_set, !Hrefs in Hd1, Hd0, Hu1, Hu0.
  repeat split.
  - intros Hr Hd. rewrite Hd1; [lia|split; assumption].
  - intros H. rewrite Hd0; [lia|exact H].
  - intros Hd Hr. rewrite Hu1; [lia|split; assumption].
  - intros H. rewrite Hu0; [lia|exact H].
Qed.

End CategoryFacts.

(** ** The uniqueness check *)
Module UniqueFacts.
Import Py Rules CountFacts ValidateTools.

Lemma hash_str_iff (v : json) (n : string) :
  hash v = Ok (HStr n) <-> v = JStr n.
Proof.
  split; [|intros ->; reflexivity].
  destruct v as [|[]| | | |]; simpl; intros [=]; subst; reflexivity.
Qed.

Lemma has_name_iff (n : string) (tool : dict) :
  has_name n tool = true <-> get tool "name" JNull = JStr n.
Proof.
  unfold has_name. destruct (get tool "name" JNull); split;
    try discriminate.
  - intros ->%String.eqb_eq. reflexivity.
  - intros [= ->]. apply String.eqb_refl.
Qed.

Lemma duplicate_names_cons (seen : gset hkey) (tool : dict) (rest : list json) :
  duplicate_names seen (JDict tool :: rest)
  = let name := get tool "name" JNull in
    if truthy name
    then k ← hash name;
         if decide (k ∈ seen)
         then later ← duplicate_names seen rest;
              mret (DuplicateToolName name :: later)
         else duplicate_names ({[ k ]} ∪ seen) rest
    else duplicate_names seen rest.
Proof. reflexivity. Qed.

(** On tool objects whose names can be tested, the loop returns;
    the errors for the non-empty name [n] are as many as the tools
    named [n], less the first one when [n] has not been seen. *)
Lemma duplicate_names_count (tools : list dict) :
  Forall name_is_hashable_if_truthy tools ->
  forall seen : gset hkey,
  exists errs,
    duplicate_names seen (JDict <$> tools) = Ok errs
    /\ forall n, n <> "" ->
         count (is_duplicate n) errs
         = if decide (HStr n ∈ seen) then count (has_name n) tools
           else pred (count (has_name n) tools).
Proof.
  induction 1 as [|tool tools Htool _ IH]; intros seen.
  - exists []. split; [reflexivity|]. intros n _. simpl.
    destruct (decide _); reflexivity.
  - rewrite fmap_cons, duplicate_names_cons. cbv zeta.
    destruct (truthy (get tool "name" JNull)) eqn:Ht.
    + destruct (Htool Ht) as [k Hk]. rewrite Hk. simpl.
      destruct (decide (k ∈ seen)) as [Hin|Hnin].
      * destruct (IH seen) as (errs & -> & Hcount). simpl.
        eexists. split; [reflexivity|]. intros n Hn.
        specialize (Hcount n Hn). cbn [count]. rewrite Hcount.
        change (is_duplicate n (DuplicateToolName (get tool "name" JNull)))
          with (has_name n tool).
        destruct (has_name n tool) eqn:E.
        -- apply has_name_iff in E. rewrite E in Hk. injection Hk as <-.
           repeat case_decide; (reflexivity || contradiction).
        -- reflexivity.
      * destruct (IH ({[ k ]} ∪ seen)) as (errs & -> & Hcount).
        eexists. split; [reflexivity|]. intros n Hn.
        rewrite (Hcount n Hn). cbn [count].
        destruct (has_name n tool) eqn:E.
        -- apply has_name_iff in E. rewrite E in Hk. injection Hk as <-.
           repeat case_decide; (reflexivity || set_solver).
        -- assert (k <> HStr n) as Hne.
           { intros ->. apply hash_str_iff, has_name_iff in Hk. congruence. }
           destruct (decide (HStr n ∈ seen)) as [Hs|Hs],
             (decide (HStr n ∈ {[k]} ∪ seen)) as [Hs'|Hs']; try reflexivity.
           ++ exfalso. apply Hs', elem_of_union. right. exact Hs.
           ++ exfalso. apply elem_of_union in Hs' as [Hk'|Hk'].
              ** apply elem_of_singleton in Hk'. congruence.
              ** contradiction.
    + destruct (IH seen) as (errs & -> & Hcount).
      eexists. split; [reflexivity|]. intros n Hn.
      rewrite (Hcount n Hn). cbn [count].
      assert (has_name n tool = false) as ->; [|reflexivity].
      unfold has_name. destruct (get tool "name" JNull); try reflexivity.
      simpl in Ht. apply negb_false_iff, String.eqb_eq in Ht. subst.
      apply String.eqb_neq. congruence.
Qed.

End UniqueFacts.

(** C5, at the catalog
    [[{"name": ["x"]}, {"name": "a"}, {"name": "a"}]]: the tools are
    objects and the name "a" is shared by two of them, but the check
    reports no duplicate: it raises [TypeError] when it tests the list
    against the set of seen names, a test that it makes without the
    [isinstance] guard of the checks beside it.  The validator, which
    has reported the name of the first tool as not a string, raises
    with it. *)
Theorem validate_tool_names_unique_raises_on_list_name :
  forall set_iter : gset string -> list string,
    let tools := [[("name", Py.JList [Py.JStr "x"])];
                  [("name", Py.JStr "a")]; [("name", Py.JStr "a")]] in
    Rules.count (Rules.has_name "a") tools = 2%nat
    /\ ValidateTools.validate_tool_names_unique (Py.JDict <$> tools)
       = Py.Raise Py.TypeError
    /\ ValidateTools.validate_tools_json set_iter
         [("tools", Py.JList (Py.JDict <$> tools));
          ("categories", Py.JDict [])]
         None
       = Py.Raise Py.TypeError.
Proof. intros set_iter tools. repeat split; reflexivity. Qed.

(** Where the check returns, it counts: for tool objects none of
    which has a non-empty list or object as its name, and a non-empty
    string name shared by exactly N tools, N >= 2, the uniqueness
    check returns a list in which exactly N-1 duplicate-name errors
    carry that string. *)
Theorem validate_tool_names_unique_counts (tools : list Py.dict)
    (n : string) (N : nat) :
  Forall Rules.name_is_hashable_if_truthy tools ->
  n <> "" ->
  Rules.count (Rules.has_name n) tools = N ->
  (2 <= N)%nat ->
  exists errs,
    ValidateTools.validate_tool_names_unique (Py.JDict <$> tools) = Py.Ok errs
    /\ Rules.count (Rules.is_duplicate n) errs = (N - 1)%nat.
Proof.
  intros Htools Hn HN _.
  destruct (UniqueFacts.duplicate_names_count tools Htools ∅)
    as (errs & Heq & Hcount).
  exists errs. split; [exact Heq|].
  rewrite (Hcount n Hn), decide_False by set_solver. lia.
Qed.

Lemma validate_tool_names_unique_counts_witness :
  exists errs,
    ValidateTools.validate_tool_names_unique
      (Py.JDict <$> [[("name", Py.JStr "a"); ("type", Py.JStr "skill")];
                     [("name", Py.JStr "b")];
                     [("name", Py.JStr "a"); ("type", Py.JStr "agent")];
                     [("name", Py.JStr "a")]])
    = Py.Ok errs
    /\ Rules.count (Rules.is_duplicate "a") errs = (3 - 1)%nat.
Proof.
  apply (validate_tool_names_unique_counts _ "a" 3).
  - repeat constructor; intros _; eexists; reflexivity.
  - discriminate.
  - reflexivity.
  - lia.
Defined.

(** ** The per-tool check *)
Module ToolFacts.
Import Py Rules CountFacts ValidateTools.

Lemma lookup_Some_keys (d : dict) (k : string) (v : json) :
  lookup d k = Some v -> k ∈ keys d.
Proof.
  induction d as [|[k' v'] d IH]; simpl; [discriminate|].
  destruct (String.eqb_spec k' k) as [->|Hne].
  - intros _. left.
  - intros H. right. apply IH, H.
Qed.

Lemma lookup_None_keys (d : dict) (k : string) :
  lookup d k = None <-> k ∉ keys d.
Proof.
  induction d as [|[k' v'] d IH]; simpl.
  - split; [intros _ H; inversion H|reflexivity].
  - rewrite not_elem_of_cons. destruct (String.eqb_spec k' k) as [->|Hne].
    + split; [discriminate|intros [H _]; contradiction].
    + rewrite IH. split; [intros H; split; [congruence|exact H]|intros [_ H]; exact H].
Qed.

Lemma has_key_keys (d : dict) (k : string) :
  has_key d k = true <-> k ∈ keys d.
Proof.
  unfold has_key. destruct (lookup d k) eqn:E.
  - split; [intros _; eapply lookup_Some_keys, E|reflexivity].
  - apply lookup_None_keys in E. split; [discriminate|contradiction].
Qed.

Lemma get_lookup (d : dict) (k : string) (v default : json) :
  lookup d k = Some v -> get d k default = v.
Proof. unfold get. intros ->. reflexivity. Qed.

Lemma bind_nil {A B : Type} (f : A -> list B) (l : list A) :
  Forall (fun x => f x = []) l -> l ≫= f = [].
Proof. induction 1 as [|x l Hx _ IH]; csimpl; [reflexivity|]. rewrite Hx, IH. reflexivity. Qed.

Lemma count_bind_none {A B : Type} (f : B -> bool) (g : A -> list B)
    (l : list A) :
  (forall x, count f (g x) = 0%nat) -> count f (l ≫= g) = 0%nat.
Proof.
  intros Hg. induction l as [|x l IH]; csimpl; [reflexivity|].
  rewrite count_app, Hg, IH. reflexivity.
Qed.

Lemma sorted_empty : sorted ∅ = [].
Proof. unfold sorted. rewrite elements_empty. reflexivity. Qed.

Lemma valid_type_not_empty (t : string) :
  t ∈ VALID_TOOL_TYPES -> truthy (JStr t) = true.
Proof.
  unfold VALID_TOOL_TYPES. rewrite !elem_of_union, !elem_of_singleton.
  intros [[[->| ->]| ->]| ->]; reflexivity.
Qed.

Lemma check_string_ok (not_string : string -> error) (empty : error)
    (tool : dict) (k : string) :
  field_ok tool k ->
  check_string not_string empty (get tool k JNull) = [].
Proof.
  intros (v & Hv & Hb). rewrite (get_lookup _ _ _ _ Hv). simpl.
  rewrite Hb. reflexivity.
Qed.

Lemma required_fields (k : string) :
  k ∈ REQUIRED_TOOL_FIELDS <->
  k = "name" \/ k = "description" \/ k = "type" \/ k = "category".
Proof.
  unfold REQUIRED_TOOL_FIELDS. rewrite !elem_of_union, !elem_of_singleton.
  tauto.
Qed.

Section SetOrder.
Variable set_iter : gset string -> list string.
Hypothesis set_iter_elements : forall X, set_iter X ≡ₚ elements X.

Lemma set_iter_empty : set_iter ∅ = [].
Proof.
  apply Permutation_nil_r. rewrite set_iter_elements, elements_empty.
  reflexivity.
Qed.

Lemma elem_of_set_iter (X : gset string) (x : string) :
  x ∈ set_iter X <-> x ∈ X.
Proof. rewrite set_iter_elements. apply elem_of_elements. Qed.

Lemma set_iter_NoDup (X : gset string) : NoDup (set_iter X).
Proof. rewrite set_iter_elements. apply NoDup_elements. Qed.

(** A valid tool record has no finding. *)
Lemma validate_tool_structure_valid (tool : dict) (index : nat) :
  valid_tool tool -> validate_tool_structure set_iter tool index = Ok [].
Proof.
  intros [Hfields Hname Hdesc Hcat (t & Ht & Hvalid)].
  assert (field_ok tool "type") as Htype.
  { exists t. split; [exact Ht|].
    revert Hvalid. unfold VALID_TOOL_TYPES.
    rewrite !elem_of_union, !elem_of_singleton.
    intros [[[->| ->]| ->]| ->]; reflexivity. }
  unfold validate_tool_structure.
  assert (REQUIRED_TOOL_FIELDS ∖ key_set tool = ∅) as ->.
  { apply set_eq. intros k. rewrite elem_of_difference, required_fields.
    unfold key_set. rewrite elem_of_list_to_set.
    split; [|set_solver]. intros [Hk Hnot]. exfalso. apply Hnot.
    destruct Hname as (? & ? & _), Hdesc as (? & ? & _), Hcat as (? & ? & _).
    destruct Hk as [->|[->|[->| ->]]]; eapply lookup_Some_keys; eassumption. }
  assert (key_set tool ∖ ALLOWED_TOOL_FIELDS = ∅) as ->.
  { apply set_eq. intros k. rewrite elem_of_difference.
    unfold key_set, ALLOWED_TOOL_FIELDS. rewrite elem_of_list_to_set.
    split; [|set_solver]. intros [Hk Hnot]. exfalso. apply Hnot, Hfields, Hk. }
  rewrite set_iter_empty, sorted_empty.
  rewrite (get_lookup _ _ _ _ Ht), (valid_type_not_empty _ Hvalid).
  simpl. rewrite decide_True by exact Hvalid.
  rewrite bind_nil; [reflexivity|].
  apply Forall_forall. intros k Hk.
  apply elem_of_set_iter, required_fields in Hk.
  destruct Hk as [->|[->|[->| ->]]]; apply check_string_ok; assumption.
Qed.

(** A tool object that is a valid record but for its description,
    which it lacks: the one finding is the missing description. *)
Lemma validate_tool_structure_only_description (tool : dict) (index : nat)
    (n t : string) :
  (forall k, k ∈ keys tool -> k ∈ REQUIRED_TOOL_FIELDS) ->
  lookup tool "name" = Some (JStr n) ->
  field_ok tool "name" ->
  lookup tool "type" = Some (JStr t) ->
  t ∈ VALID_TOOL_TYPES ->
  field_ok tool "category" ->
  lookup tool "description" = None ->
  validate_tool_structure set_iter tool index
  = Ok [ToolMissingField (JStr n) "description"].
Proof.
  intros Hfields Hn Hname Ht Hvalid Hcat Hd.
  assert (field_ok tool "type") as Htype.
  { exists t. split; [exact Ht|].
    revert Hvalid. unfold VALID_TOOL_TYPES.
    rewrite !elem_of_union, !elem_of_singleton.
    intros [[[->| ->]| ->]| ->]; reflexivity. }
  unfold validate_tool_structure.
  assert (REQUIRED_TOOL_FIELDS ∖ key_set tool = {[ "description" ]}) as ->.
  { apply set_eq. intros k.
    rewrite elem_of_difference, required_fields, elem_of_singleton.
    unfold key_set. rewrite elem_of_list_to_set. split.
    - intros [Hk Hnot].
      destruct Hcat as (? & Hc & _).
      destruct Hk as [->|[->|[->| ->]]]; [|reflexivity| |]; exfalso;
        apply Hnot; eapply lookup_Some_keys; eassumption.
    - intros ->. split; [auto|]. apply lookup_None_keys, Hd. }
  assert (key_set tool ∖ ALLOWED_TOOL_FIELDS = ∅) as ->.
  { apply set_eq. intros k. rewrite elem_of_difference.
    unfold key_set, ALLOWED_TOOL_FIELDS. rewrite elem_of_list_to_set.
    split; [|set_solver]. intros [Hk Hnot]. exfalso. apply Hnot, Hfields, Hk. }
  assert (set_iter {[ "description" ]} = ["description"]) as ->.
  { apply Permutation_singleton_r.
    rewrite set_iter_elements, elements_singleton. reflexivity. }
  rewrite sorted_empty.
  rewrite (get_lookup _ _ _ _ Hn), (get_lookup _ _ _ _ Ht),
    (valid_type_not_empty _ Hvalid).
  simpl. rewrite decide_True by exact Hvalid.
  rewrite bind_nil; [reflexivity|].
  apply Forall_forall. intros k Hk.
  apply elem_of_set_iter, required_fields in Hk.
  destruct Hk as [->|[->|[->| ->]]]; try (apply check_string_ok; assumption).
  unfold get. rewrite Hd. reflexivity.
Qed.
End SetOrder.

End ToolFacts.

(** ** The filesystem-agreement check *)
Module FilesystemFacts.
Import Py Rules CountFacts ValidateTools.

Lemma catalog_type_None (n : string) (tools : list dict) :
  catalog_type n tools = None <-> Forall (fun tool => has_name n tool = false) tools.
Proof.
  induction tools as [|tool tools IH]; simpl.
  - split; [constructor|reflexivity].
  - rewrite Forall_cons, <- IH. destruct (catalog_type n tools).
    + split; [discriminate|intros [_ [=]]].
    + destruct (has_name n tool); split; try discriminate; auto.
      intros [[=] _].
Qed.

(** The dict comprehension over tool objects with hashable names:
    it returns, and a string key maps to the type of the last tool
    of that name. *)
Lemma json_tools_from_lookup (tools : list dict) :
  Forall name_is_hashable tools ->
  forall acc : gmap hkey json,
  exists m,
    json_tools_from acc (JDict <$> tools) = Ok m
    /\ forall n, m !! HStr n
                 = match catalog_type n tools with
                   | Some t => Some t
                   | None => acc !! HStr n
                   end.
Proof.
  induction 1 as [|tool tools [k Hk] _ IH]; intros acc.
  - exists acc. split; reflexivity.
  - rewrite fmap_cons. simpl. rewrite Hk. simpl.
    destruct (IH (<[k:=get tool "type" JNull]> acc)) as (m & -> & Hm).
    exists m. split; [reflexivity|]. intros n. rewrite Hm.
    destruct (catalog_type n tools); [reflexivity|].
    destruct (has_name n tool) eqn:E.
    + apply UniqueFacts.has_name_iff in E. rewrite E in Hk.
      injection Hk as <-. apply lookup_insert_eq.
    + apply lookup_insert_ne. intros ->.
      apply UniqueFacts.hash_str_iff, UniqueFacts.has_name_iff in Hk.
      congruence.
Qed.

(** In a loop over the items of a dict, the errors about the key [n]
    come from the item of [n]. *)
Lemma count_items {V : Type} (f : error -> bool) (g : string * V -> list error)
    (n : string) (items : list (string * V)) :
  (forall item, item.1 <> n -> count f (g item) = 0%nat) ->
  NoDup items.*1 ->
  (forall v, (n, v) ∈ items -> count f (items ≫= g) = count f (g (n, v)))
  /\ (n ∉ items.*1 -> count f (items ≫= g) = 0%nat).
Proof.
  intros Hg. induction items as [|[k v] items IH]; csimpl; intros Hnd.
  - split; [intros v H; inversion H|reflexivity].
  - apply NoDup_cons in Hnd as [Hk Hnd]. destruct (IH Hnd) as [IH1 IH0].
    rewrite !count_app. split.
    + intros v' Hin. apply elem_of_cons in Hin as [[= <- <-]|Hin].
      * rewrite IH0; [lia|exact Hk].
      * rewrite (IH1 _ Hin), (Hg (k, v)); [reflexivity|].
        simpl. intros ->. apply Hk.
        apply (list_elem_of_fmap_2 fst) in Hin. exact Hin.
    + intros Hn. apply not_elem_of_cons in Hn as [Hne Hn].
      rewrite (IH0 Hn), (Hg (k, v)); [reflexivity|].
      simpl. congruence.
Qed.

Lemma ne_str_iff (v : json) (s : string) : ne_str v s = false <-> v = JStr s.
Proof.
  destruct v; simpl; split; try discriminate.
  - intros ->%negb_false_iff%String.eqb_eq. reflexivity.
  - intros [= ->]. rewrite String.eqb_refl. reflexivity.
Qed.

Lemma check_filesystem_tool_other (m : gmap hkey json) (f : error -> bool)
    (n : string) (item : string * string) :
  (f = is_fs_missing n \/ f = is_fs_mismatch n) ->
  item.1 <> n ->
  count f (check_filesystem_tool m item.1 item.2) = 0%nat.
Proof.
  intros Hf Hne. unfold check_filesystem_tool.
  assert (String.eqb item.1 n = false) as E by (apply String.eqb_neq, Hne).
  destruct (m !! HStr item.1) as [t|]; [destruct (ne_str t item.2)|];
    destruct Hf as [-> | ->]; simpl; rewrite ?E; reflexivity.
Qed.

End FilesystemFacts.

(** C4 as stated fails at the catalog with the tools
    [{"name": "foo", "type": "skill"}] and
    [{"name": "foo", "type": "command"}] and the filesystem view
    [{"foo": "skill"}]: the catalog has an entry of the same name and
    type, and the check still reports a type mismatch, because the
    dict comprehension keeps the type of the last tool named "foo". *)
Lemma filesystem_check_reports_mismatch_for_present_tool :
  let tools := [[("name", Py.JStr "foo"); ("type", Py.JStr "skill")];
                [("name", Py.JStr "foo"); ("type", Py.JStr "command")]] in
  Exists (fun tool => Py.get tool "name" Py.JNull = Py.JStr "foo"
                      /\ Py.get tool "type" Py.JNull = Py.JStr "skill") tools
  /\ ValidateTools.validate_filesystem_tools_in_json
       [("tools", Py.JList (Py.JDict <$> tools)); ("categories", Py.JDict [])]
       [("foo", "skill")]
     = Py.Ok [ValidateTools.FilesystemTypeMismatch "foo" "skill"
                (Py.JStr "command")].
Proof.
  split; [left; split; reflexivity|vm_compute; reflexivity].
Qed.

(** C4, amended: for a catalog of tool objects whose names are not
    lists or objects, the check returns; for every tool name of the
    filesystem view it reports exactly one "missing from tools.json"
    error when no catalog tool has that name, exactly one type-mismatch
    error when the last catalog tool of that name has another type, and
    no error when the last catalog tool of that name has the same type;
    and it reports no error for a name that is not in the view. *)
Theorem filesystem_agreement_counts (tools_data : Py.dict)
    (tools : list Py.dict) (view : ValidateTools.filesystem_view) :
  Py.lookup tools_data "tools" = Some (Py.JList (Py.JDict <$> tools)) ->
  Forall Rules.name_is_hashable tools ->
  NoDup view.*1 ->
  exists errs,
    ValidateTools.validate_filesystem_tools_in_json tools_data view
    = Py.Ok errs
    /\ (forall n t, (n, t) ∈ view ->
          (Forall (fun tool => Rules.has_name n tool = false) tools ->
           Rules.count (Rules.is_fs_missing n) errs = 1%nat
           /\ Rules.count (Rules.is_fs_mismatch n) errs = 0%nat)
          /\ (forall ty, Rules.catalog_type n tools = Some ty ->
                ty <> Py.JStr t ->
                Rules.count (Rules.is_fs_missing n) errs = 0%nat
                /\ Rules.count (Rules.is_fs_mismatch n) errs = 1%nat)
          /\ (Rules.catalog_type n tools = Some (Py.JStr t) ->
              Rules.count (Rules.is_fs_missing n) errs = 0%nat
              /\ Rules.count (Rules.is_fs_mismatch n) errs = 0%nat))
    /\ (forall n, n ∉ view.*1 ->
          Rules.count (Rules.is_fs_missing n) errs = 0%nat
          /\ Rules.count (Rules.is_fs_mismatch n) errs = 0%nat).
Proof.
  intros Htools Hhash Hview.
  unfold ValidateTools.validate_filesystem_tools_in_json.
  rewrite (ToolFacts.get_lookup _ _ _ _ Htools). simpl.
  destruct (FilesystemFacts.json_tools_from_lookup tools Hhash ∅)
    as (m & -> & Hm). simpl.
  eexists. split; [reflexivity|].
  set (g := fun item : string * string =>
              ValidateTools.check_filesystem_tool m item.1 item.2).
  assert (forall n f, f = Rules.is_fs_missing n \/ f = Rules.is_fs_mismatch n ->
            (forall t, (n, t) ∈ view ->
               Rules.count f (view ≫= g) = Rules.count f (g (n, t)))
            /\ (n ∉ view.*1 -> Rules.count f (view ≫= g) = 0%nat))
    as Hcount.
  { intros n f Hf. apply FilesystemFacts.count_items; [|exact Hview].
    intros item Hne.
    exact (FilesystemFacts.check_filesystem_tool_other m f n item Hf Hne). }
  split.
  - intros n t Hin.
    destruct (Hcount n _ (or_introl eq_refl)) as [H1 _].
    destruct (Hcount n _ (or_intror eq_refl)) as [H2 _].
    rewrite (H1 t Hin), (H2 t Hin). clear H1 H2.
    unfold g, ValidateTools.check_filesystem_tool. simpl. rewrite Hm.
    rewrite lookup_empty. split; [|split].
    + intros Hnone. apply FilesystemFacts.catalog_type_None in Hnone.
      rewrite Hnone. simpl. rewrite String.eqb_refl. split; reflexivity.
    + intros ty -> Hne. destruct (Py.ne_str ty t) eqn:E.
      * simpl. rewrite String.eqb_refl. split; reflexivity.
      * apply FilesystemFacts.ne_str_iff in E. contradiction.
    + intros ->. simpl. rewrite String.eqb_refl. split; reflexivity.
  - intros n Hn.
    destruct (Hcount n _ (or_introl eq_refl)) as [_ H1].
    destruct (Hcount n _ (or_intror eq_refl)) as [_ H2].
    rewrite (H1 Hn), (H2 Hn).
    split; reflexivity.
Qed.

Lemma filesystem_agreement_counts_witness :
  let tools := [[("name", Py.JStr "foo"); ("type", Py.JStr "skill")];
                [("name", Py.JStr "baz"); ("type", Py.JStr "agent")]] in
  exists errs,
    ValidateTools.validate_filesystem_tools_in_json
      [("tools", Py.JList (Py.JDict <$> tools)); ("categories", Py.JDict [])]
      [("foo", "skill"); ("bar", "command"); ("baz", "skill")]
    = Py.Ok errs
    /\ Rules.count (Rules.is_fs_missing "bar") errs = 1%nat
    /\ Rules.count (Rules.is_fs_mismatch "baz") errs = 1%nat
    /\ Rules.count (Rules.is_fs_missing "foo") errs = 0%nat
    /\ Rules.count (Rules.is_fs_mismatch "foo") errs = 0%nat
    /\ Rules.count (Rules.is_fs_missing "qux") errs = 0%nat.
Proof.
  intros tools.
  destruct (filesystem_agreement_counts
              [("tools", Py.JList (Py.JDict <$> tools));
               ("categories", Py.JDict [])]
              tools [("foo", "skill"); ("bar", "command"); ("baz", "skill")])
    as (errs & Heq & Hin & Hout).
  - reflexivity.
  - repeat constructor; eexists; reflexivity.
  - simpl. no_dup.
  - exists errs. split; [exact Heq|].
    destruct (Hin "bar" "command") as (Hbar & _ & _); [in_list|].
    destruct (Hin "baz" "skill") as (_ & Hbaz & _); [in_list|].
    destruct (Hin "foo" "skill") as (_ & _ & Hfoo); [in_list|].
    split; [apply Hbar; repeat constructor|].
    split; [apply (Hbaz (Py.JStr "agent")); [reflexivity|discriminate]|].
    split; [apply Hfoo; reflexivity|].
    split; [apply Hfoo; reflexivity|].
    apply Hout. simpl. not_in_list.
Defined.

(** ** The validator as a whole *)
Module ValidatorFacts.
Import Py Rules CountFacts ValidateTools.

(** Past the checks of the top-level structure, the validator is the
    sequence of its five checks. *)
Lemma validate_tools_json_checks (set_iter : gset string -> list string)
    (tools_data : dict) (helpers : option filesystem_view)
    (tools : list json) (categories : dict) :
  lookup tools_data "tools" = Some (JList tools) ->
  lookup tools_data "categories" = Some (JDict categories) ->
  validate_tools_json set_iter tools_data helpers
  = (e1 ← validate_tool_entries set_iter 0 tools;
     e2 ← validate_tool_names_unique tools;
     e4 ← validate_categories tools categories;
     e5 ← match helpers with
          | Some view => validate_filesystem_tools_in_json tools_data view
          | None => mret []
          end;
     mret (e1 ++ e2 ++ validate_category_structure categories ++ e4 ++ e5)).
Proof.
  intros Ht Hc. unfold validate_tools_json, has_key, get.
  rewrite Ht, Hc. reflexivity.
Qed.

Lemma tool_foo_valid : valid_tool Examples.tool_foo.
Proof.
  split.
  - intros k Hk. apply ToolFacts.required_fields.
    simpl in Hk. rewrite !elem_of_cons in Hk.
    destruct Hk as [->|[->|[->|[->|Hk]]]]; auto. inversion Hk.
  - eexists. split; reflexivity.
  - eexists. split; reflexivity.
  - eexists. split; reflexivity.
  - eexists. split; [reflexivity|]. unfold VALID_TOOL_TYPES.
    rewrite !elem_of_union, !elem_of_singleton. auto.
Qed.

End ValidatorFacts.

(** On a catalog of tool objects [validate_categories] returns;
    a category that some tool references (as a non-empty string) and
    that is not defined has exactly one "not defined" error, and no
    other category has one; a category that is defined and that no tool
    references has exactly one "not used" error, and no other category
    has one.  The catalog with the one tool foo of category "bar" and
    no category yields exactly the one error that "bar" is not
    defined. *)
Theorem category_closure_counts (set_iter : gset string -> list string)
    (tools : list Py.dict) (categories : Py.dict) :
  (forall X, set_iter X ≡ₚ elements X) ->
  (exists errs,
     ValidateTools.validate_categories (Py.JDict <$> tools) categories
     = Py.Ok errs
     /\ forall c,
          (Rules.referenced tools c -> ~ Rules.defined categories c ->
           Rules.count (Rules.is_not_defined c) errs = 1%nat)
          /\ (~ (Rules.referenced tools c /\ ~ Rules.defined categories c) ->
              Rules.count (Rules.is_not_defined c) errs = 0%nat)
          /\ (Rules.defined categories c -> ~ Rules.referenced tools c ->
              Rules.count (Rules.is_not_used c) errs = 1%nat)
          /\ (~ (Rules.defined categories c /\ ~ Rules.referenced tools c) ->
              Rules.count (Rules.is_not_used c) errs = 0%nat))
  /\ ValidateTools.validate_tools_json set_iter
       Examples.doc_with_undefined_category None
     = Py.Ok [ValidateTools.CategoryNotDefined "bar"].
Proof.
  intros Hiter. split.
  - apply CategoryFacts.validate_categories_counts.
  - rewrite (ValidatorFacts.validate_tools_json_checks set_iter _ None
               [Py.JDict Examples.tool_foo] []) by reflexivity.
    cbn [ValidateTools.validate_tool_entries].
    rewrite (ToolFacts.validate_tool_structure_valid set_iter Hiter)
      by apply ValidatorFacts.tool_foo_valid.
    vm_compute. reflexivity.
Qed.

Lemma category_closure_counts_witness :
  let tools := [[("name", Py.JStr "t1"); ("category", Py.JStr "a")];
                [("name", Py.JStr "t2"); ("category", Py.JStr "b")]] in
  let categories := [("b", Py.JDict []); ("c", Py.JDict [])] in
  (exists errs,
     ValidateTools.validate_categories (Py.JDict <$> tools) categories
     = Py.Ok errs
     /\ Rules.count (Rules.is_not_defined "a") errs = 1%nat
     /\ Rules.count (Rules.is_not_used "c") errs = 1%nat
     /\ Rules.count (Rules.is_not_defined "b") errs = 0%nat
     /\ Rules.count (Rules.is_not_used "b") errs = 0%nat)
  /\ ValidateTools.validate_tools_json Examples.ascending
       Examples.doc_with_undefined_category None
     = Py.Ok [ValidateTools.CategoryNotDefined "bar"].
Proof.
  intros tools categories.
  destruct (category_closure_counts Examples.ascending tools categories)
    as [(errs & Heq & Hcount) Hscenario].
  - intros X. apply merge_sort_Permutation.
  - split; [|exact Hscenario].
    exists errs. split; [exact Heq|].
    assert (Rules.referenced tools "a") as Ha.
    { left. split; [reflexivity|discriminate]. }
    assert (Rules.referenced tools "b") as Hb.
    { right. left. split; [reflexivity|discriminate]. }
    assert (~ Rules.referenced tools "c") as Hc.
    { intros H. apply Exists_cons in H as [[[=] _]|H].
      apply Exists_cons in H as [[[=] _]|H]. inversion H. }
    assert (Rules.defined categories "b") as Hdb
      by (unfold Rules.defined, categories; simpl; in_list).
    assert (Rules.defined categories "c") as Hdc
      by (unfold Rules.defined, categories; simpl; in_list).
    assert (~ Rules.defined categories "a") as Hda
      by (unfold Rules.defined, categories; simpl; not_in_list).
    split; [apply (Hcount "a"); assumption|].
    split; [apply (Hcount "c"); assumption|].
    split; [apply (Hcount "b"); tauto|].
    apply (Hcount "b"); tauto.
Defined.

(** C6, at the catalog with the tools
    [["oops", {"name": "foo", "type": "skill", "description": "x",
      "category": "bar"}]] and no category: the category "bar" is
    referenced by a tool and not defined, but no error is reported for
    it.  [validate_categories] calls [get] on the entry that is not an
    object and raises [AttributeError], and so does the validator, for
    every order of set iteration, although its own loop over the tools
    reports such an entry and goes on (the guard that C1 misses in the
    checks beside that loop).  Without the entry "oops" the one error
    for "bar" is reported. *)
Theorem validate_categories_raises_on_string_tool :
  forall set_iter : gset string -> list string,
    ValidateTools.validate_categories
      [Py.JStr "oops"; Py.JDict Examples.tool_foo] []
    = Py.Raise Py.AttributeError
    /\ ValidateTools.validate_tools_json set_iter
         [("tools", Py.JList [Py.JStr "oops"; Py.JDict Examples.tool_foo]);
          ("categories", Py.JDict [])]
         None
       = Py.Raise Py.AttributeError
    /\ ValidateTools.validate_categories [Py.JDict Examples.tool_foo] []
       = Py.Ok [ValidateTools.CategoryNotDefined "bar"].
Proof.
  intros set_iter. split; [reflexivity|]. split; [reflexivity|].
  vm_compute. reflexivity.
Qed.

(** ** Valid catalogs *)
Module ValidCatalogFacts.
Import Py Rules CountFacts ValidateTools.

Lemma field_ok_get (tool : dict) (k : string) :
  field_ok tool k -> exists v, get tool k JNull = JStr v /\ v <> "".
Proof.
  intros (v & Hv & Hb). exists v. split; [apply ToolFacts.get_lookup, Hv|].
  intros ->. discriminate.
Qed.

Section SetOrder.
Variable set_iter : gset string -> list string.
Hypothesis set_iter_elements : forall X, set_iter X ≡ₚ elements X.

Lemma validate_tool_entries_valid (tools : list dict) (i : nat) :
  Forall valid_tool tools ->
  validate_tool_entries set_iter i (JDict <$> tools) = Ok [].
Proof.
  intros Hvalid. revert i.
  induction Hvalid as [|tool tools Htool _ IH]; intros i; [reflexivity|].
  rewrite fmap_cons. cbn [validate_tool_entries].
  rewrite (ToolFacts.validate_tool_structure_valid set_iter
             set_iter_elements _ _ Htool).
  simpl. rewrite IH. reflexivity.
Qed.
End SetOrder.

Lemma duplicate_names_valid (tools : list dict) :
  Forall valid_tool tools ->
  NoDup (tool_names tools) ->
  forall seen : gset hkey,
    (forall n, JStr n ∈ tool_names tools -> HStr n ∉ seen) ->
    duplicate_names seen (JDict <$> tools) = Ok [].
Proof.
  induction 1 as [|tool tools Htool _ IH]; intros Hnd seen Hseen;
    [reflexivity|].
  unfold tool_names in Hnd, Hseen. rewrite fmap_cons in Hnd, Hseen.
  apply NoDup_cons in Hnd as [Hhead Hnd].
  destruct (field_ok_get _ _ (tool_name_ok _ Htool)) as (n & Hn & Hne).
  rewrite fmap_cons, UniqueFacts.duplicate_names_cons. cbv zeta.
  rewrite Hn in *. simpl.
  assert (String.eqb n "" = false) as -> by (apply String.eqb_neq, Hne).
  simpl. rewrite decide_False by (apply Hseen; left).
  apply (IH Hnd). intros m Hm.
  rewrite elem_of_union, elem_of_singleton. intros [[= ->]|Hin].
  - contradiction.
  - revert Hin. apply Hseen. right. exact Hm.
Qed.

Lemma validate_category_good (key : string) (data : json) :
  good_category data -> validate_category key data = [].
Proof.
  intros (d & -> & Hname & Hdesc). unfold validate_category.
  rewrite !ToolFacts.check_string_ok by assumption.
  destruct Hname as (v1 & H1 & _), Hdesc as (v2 & H2 & _).
  unfold has_key. rewrite H1, H2. reflexivity.
Qed.

Lemma referenced_categories_valid (tools : list dict) (i : nat) :
  Forall valid_tool tools ->
  exists refs,
    referenced_categories i (JDict <$> tools) = Ok ([], refs)
    /\ forall c, c ∈ refs <-> referenced tools c.
Proof.
  intros Hvalid. revert i.
  induction Hvalid as [|tool tools Htool _ IH]; intros i.
  - exists ∅. split; [reflexivity|]. intros c. unfold referenced.
    rewrite Exists_nil. apply elem_of_empty.
  - destruct (IH (S i)) as (refs & Heq & Hrefs).
    rewrite fmap_cons, CategoryFacts.referenced_categories_cons, Heq. simpl.
    assert ((CategoryFacts.category_of i tool).1 = []) as ->.
    { unfold CategoryFacts.category_of.
      destruct (field_ok_get _ _ (tool_category_ok _ Htool)) as (c & -> & _).
      destruct (truthy (JStr c)); reflexivity. }
    eexists. split; [reflexivity|]. intros c. unfold referenced.
    rewrite elem_of_union, Exists_cons.
    rewrite CategoryFacts.category_of_references, Hrefs. reflexivity.
Qed.

Lemma catalog_type_unique (tools : list dict) (n t : string) :
  NoDup (tool_names tools) ->
  in_catalog tools (n, t) ->
  catalog_type n tools = Some (JStr t).
Proof.
  unfold in_catalog, tool_names. simpl.
  induction tools as [|tool tools IH]; intros Hnd Hin; [inversion Hin|].
  rewrite fmap_cons in Hnd. apply NoDup_cons in Hnd as [Hhead Hnd].
  simpl. apply Exists_cons in Hin as [[Hn Ht]|Hin].
  - assert (catalog_type n tools = None) as ->.
    { apply FilesystemFacts.catalog_type_None, Forall_forall.
      intros tool' Hin'. destruct (has_name n tool') eqn:E; [|reflexivity].
      apply UniqueFacts.has_name_iff in E. exfalso. apply Hhead.
      rewrite Hn, <- E.
      apply (list_elem_of_fmap_2 (fun tool => get tool "name" JNull)), Hin'. }
    assert (has_name n tool = true) as ->
      by (apply UniqueFacts.has_name_iff, Hn).
    rewrite Ht. reflexivity.
  - rewrite (IH Hnd Hin). reflexivity.
Qed.

End ValidCatalogFacts.

(** C2 as stated fails at the catalog of the tool foo of category
    "bar", where "bar" is defined with the name " ": the name is a
    non-empty string, every other condition of the claim holds as well,
    and the validator reports that the category has an empty name. *)
Lemma validate_tools_json_rejects_blank_category_name :
  String.eqb " " "" = false
  /\ ValidateTools.validate_tools_json Examples.ascending
       Examples.doc_with_blank_category_name None
     = Py.Ok [ValidateTools.CategoryEmptyField "bar" "name"].
Proof. split; [reflexivity|vm_compute; reflexivity]. Qed.

(** C2, amended: the validator returns the empty list for every
    catalog in which each tool is an object with exactly the four
    fields, their values strings that are not blank and the type one of
    the four tool types; the tool names are pairwise distinct; every
    referenced category is defined and every defined category is
    referenced; every defined category is an object whose name and
    description are strings that are not blank; and every tool of the
    filesystem view has a catalog entry of the same name and type. *)
Theorem valid_catalog_no_errors (set_iter : gset string -> list string)
    (tools_data : Py.dict) (tools : list Py.dict) (categories : Py.dict)
    (helpers : option ValidateTools.filesystem_view) :
  (forall X, set_iter X ≡ₚ elements X) ->
  Py.lookup tools_data "tools" = Some (Py.JList (Py.JDict <$> tools)) ->
  Py.lookup tools_data "categories" = Some (Py.JDict categories) ->
  Forall Rules.valid_tool tools ->
  NoDup (Rules.tool_names tools) ->
  (forall c, Rules.referenced tools c -> Rules.defined categories c) ->
  (forall c, Rules.defined categories c -> Rules.referenced tools c) ->
  Forall (fun item => Rules.good_category item.2) categories ->
  (forall view, helpers = Some view -> Forall (Rules.in_catalog tools) view) ->
  ValidateTools.validate_tools_json set_iter tools_data helpers = Py.Ok [].
Proof.
  intros Hiter Htools Hcats Hvalid Hnames Hdefined Hused Hgood Hview.
  rewrite (ValidatorFacts.validate_tools_json_checks _ _ _ _ _ Htools Hcats).
  rewrite (ValidCatalogFacts.validate_tool_entries_valid set_iter Hiter _ _ Hvalid).
  unfold ValidateTools.validate_tool_names_unique.
  rewrite (ValidCatalogFacts.duplicate_names_valid _ Hvalid Hnames ∅)
    by (intros n _; apply not_elem_of_empty).
  unfold ValidateTools.validate_categories.
  destruct (ValidCatalogFacts.referenced_categories_valid tools 0 Hvalid)
    as (refs & -> & Hrefs).
  simpl.
  assert (refs ∖ Py.key_set categories = ∅) as ->.
  { apply set_eq. intros c.
    rewrite elem_of_difference, CategoryFacts.elem_of_key_set, Hrefs.
    split; [intros [Hr Hd]; exfalso; apply Hd, Hdefined, Hr|].
    intros H. exfalso. revert H. apply not_elem_of_empty. }
  assert (Py.key_set categories ∖ refs = ∅) as ->.
  { apply set_eq. intros c.
    rewrite elem_of_difference, CategoryFacts.elem_of_key_set, Hrefs.
    split; [intros [Hd Hr]; exfalso; apply Hr, Hused, Hd|].
    intros H. exfalso. revert H. apply not_elem_of_empty. }
  rewrite ToolFacts.sorted_empty. simpl.
  assert (ValidateTools.validate_category_structure categories = []) as ->.
  { apply ToolFacts.bind_nil. eapply Forall_impl; [exact Hgood|].
    intros item Hitem. apply ValidCatalogFacts.validate_category_good, Hitem. }
  destruct helpers as [view|]; [|reflexivity].
  unfold ValidateTools.validate_filesystem_tools_in_json.
  rewrite (ToolFacts.get_lookup _ _ _ _ Htools). simpl.
  destruct (FilesystemFacts.json_tools_from_lookup tools) with (acc := ∅ : gmap Py.hkey Py.json)
    as (m & -> & Hm).
  { eapply Forall_impl; [exact Hvalid|]. intros tool Htool.
    destruct (ValidCatalogFacts.field_ok_get _ _ (Rules.tool_name_ok _ Htool))
      as (n & Hn & _).
    exists (Py.HStr n). rewrite Hn. reflexivity. }
  simpl. rewrite ToolFacts.bind_nil; [reflexivity|].
  eapply Forall_impl; [exact (Hview view eq_refl)|].
  intros [n t] Hin. unfold ValidateTools.check_filesystem_tool. simpl.
  rewrite Hm, (ValidCatalogFacts.catalog_type_unique _ _ _ Hnames Hin).
  simpl. rewrite String.eqb_refl. reflexivity.
Qed.

Lemma valid_catalog_no_errors_witness :
  ValidateTools.validate_tools_json Examples.ascending Examples.valid_doc
    (Some [("foo", "skill")])
  = Py.Ok [].
Proof.
  apply (valid_catalog_no_errors Examples.ascending Examples.valid_doc
           [Examples.tool_foo] Examples.valid_categories).
  - intros X. apply merge_sort_Permutation.
  - reflexivity.
  - reflexivity.
  - constructor; [apply ValidatorFacts.tool_foo_valid|constructor].
  - unfold Rules.tool_names. simpl. no_dup.
  - intros c H. apply Exists_cons in H as [[[= <-] _]|H]; [|inversion H].
    unfold Rules.defined. simpl. in_list.
  - intros c H. unfold Rules.defined in H. simpl in H.
    apply elem_of_cons in H as [->|H]; [|inversion H].
    left. split; [reflexivity|discriminate].
  - constructor; [|constructor]. eexists. split; [reflexivity|].
    split; eexists; split; reflexivity.
  - intros view [= <-]. constructor; [|constructor].
    left. split; reflexivity.
Defined.

(** ** The website builder *)
Module BuilderFacts.
Import Py Rules BuildWebsite.

Section Builder.
Variable py_str : json -> string.
Variable env : assets.

(** A tool object that lacks one of the four keys is skipped. *)
Lemma add_tool_missing_key (out : website_tools) (tool : dict) (k : string) :
  k ∈ required_keys -> has_key tool k = false ->
  add_tool py_str env out (JDict tool) = Ok out.
Proof.
  intros Hk Hmissing. unfold add_tool.
  destruct (filter _ required_keys) as [|k' l] eqn:E; [|reflexivity].
  exfalso.
  assert (k ∈ filter (fun key => has_key tool key = false) required_keys) as Hin
    by (apply list_elem_of_filter; split; assumption).
  rewrite E in Hin. inversion Hin.
Qed.

Lemma add_tools_app (out : website_tools) (l1 l2 : list json) :
  add_tools py_str env out (l1 ++ l2)
  = out' ← add_tools py_str env out l1; add_tools py_str env out' l2.
Proof.
  revert out. induction l1 as [|tool l1 IH]; intros out; [reflexivity|].
  simpl. destruct (add_tool py_str env out tool) as [out'|e]; simpl;
    [apply IH|reflexivity].
Qed.

Lemma build_website_data_skips (before after : list json) (tool : dict)
    (k : string) :
  k ∈ required_keys -> has_key tool k = false ->
  build_website_data py_str env (before ++ JDict tool :: after)
  = build_website_data py_str env (before ++ after).
Proof.
  intros Hk Hmissing. unfold build_website_data.
  rewrite !add_tools_app.
  destruct (add_tools py_str env no_tools before) as [out|e]; [|reflexivity].
  change (add_tools py_str env out (JDict tool :: after)
          = add_tools py_str env out after).
  cbn [add_tools].
  rewrite (add_tool_missing_key out tool k Hk Hmissing). reflexivity.
Qed.
End Builder.

End BuilderFacts.

(** C7 as stated fails at the catalog with the one tool
    [{"name": "foo", "type": "skill", "category": "bar"}]: the website
    builder emits no entry for it, its four output lists stay empty.
    And a tool with a non-empty string name, type and category and no
    description has more than the one error when its type is not of the
    enumeration, when it has another field, or when its name is blank:
    the per-tool check reports these on purpose. *)
Lemma build_website_data_emits_no_entry_without_description :
  BuildWebsite.build_website_data Examples.no_str
    Examples.registry_with_q_and_a
    [Py.JDict Examples.tool_without_description]
  = Py.Ok BuildWebsite.no_tools
  /\ ValidateTools.validate_tool_structure Examples.ascending
       [("name", Py.JStr "foo"); ("type", Py.JStr "widget");
        ("category", Py.JStr "bar")] 0
     = Py.Ok [ValidateTools.ToolMissingField (Py.JStr "foo") "description";
              ValidateTools.ToolInvalidType (Py.JStr "foo")
                (Py.JStr "widget")]
  /\ ValidateTools.validate_tool_structure Examples.ascending
       [("name", Py.JStr "foo"); ("type", Py.JStr "skill");
        ("category", Py.JStr "bar"); ("owner", Py.JStr "me")] 0
     = Py.Ok [ValidateTools.ToolMissingField (Py.JStr "foo") "description";
              ValidateTools.ToolDisallowedField (Py.JStr "foo") "owner"]
  /\ ValidateTools.validate_tool_structure Examples.ascending
       [("name", Py.JStr " "); ("type", Py.JStr "skill");
        ("category", Py.JStr "bar")] 0
     = Py.Ok [ValidateTools.ToolMissingField (Py.JStr " ") "description";
              ValidateTools.ToolEmptyField (Py.JStr " ") "name"].
Proof. repeat split; vm_compute; reflexivity. Qed.

(** C7, amended: for a tool object that has no other field than
    name, type and category, each a string that is not blank, the type
    one of the enumeration, and that lacks the description field, the
    per-tool check returns exactly one error, which says that this tool
    misses the field description; and the website builder skips the
    tool: it emits no entry for it, and its output is the output for the
    catalog without that tool. *)
Theorem missing_description_reported_and_skipped
    (set_iter : gset string -> list string) (py_str : Py.json -> string)
    (env : BuildWebsite.assets) (tool : Py.dict) (index : nat)
    (n t : string) :
  (forall X, set_iter X ≡ₚ elements X) ->
  (forall k, k ∈ Py.keys tool -> k ∈ ValidateTools.REQUIRED_TOOL_FIELDS) ->
  Py.lookup tool "name" = Some (Py.JStr n) ->
  Rules.field_ok tool "name" ->
  Py.lookup tool "type" = Some (Py.JStr t) ->
  t ∈ ValidateTools.VALID_TOOL_TYPES ->
  Rules.field_ok tool "category" ->
  Py.lookup tool "description" = None ->
  ValidateTools.validate_tool_structure set_iter tool index
  = Py.Ok [ValidateTools.ToolMissingField (Py.JStr n) "description"]
  /\ (forall out,
        BuildWebsite.add_tool py_str env out (Py.JDict tool) = Py.Ok out)
  /\ (forall before after,
        BuildWebsite.build_website_data py_str env
          (before ++ Py.JDict tool :: after)
        = BuildWebsite.build_website_data py_str env (before ++ after)).
Proof.
  intros Hiter Hfields Hn Hname Ht Hvalid Hcat Hd.
  assert ("description" ∈ BuildWebsite.required_keys) as Hk
    by (unfold BuildWebsite.required_keys; in_list).
  assert (Py.has_key tool "description" = false) as Hmissing
    by (unfold Py.has_key; rewrite Hd; reflexivity).
  split; [|split].
  - apply (ToolFacts.validate_tool_structure_only_description
             set_iter Hiter tool index n t Hfields Hn Hname Ht Hvalid Hcat Hd).
  - intros out.
    apply (BuilderFacts.add_tool_missing_key py_str env out tool _ Hk Hmissing).
  - intros before after.
    apply (BuilderFacts.build_website_data_skips py_str env before after tool
             _ Hk Hmissing).
Qed.

Lemma missing_description_reported_and_skipped_witness :
  ValidateTools.validate_tool_structure Examples.ascending
    Examples.tool_without_description 0
  = Py.Ok [ValidateTools.ToolMissingField (Py.JStr "foo") "description"]
  /\ (forall out,
        BuildWebsite.add_tool Examples.no_str Examples.registry_with_q_and_a
          out (Py.JDict Examples.tool_without_description)
        = Py.Ok out)
  /\ (forall before after,
        BuildWebsite.build_website_data Examples.no_str
          Examples.registry_with_q_and_a
          (before ++ Py.JDict Examples.tool_without_description :: after)
        = BuildWebsite.build_website_data Examples.no_str
            Examples.registry_with_q_and_a (before ++ after)).
Proof.
  apply (missing_description_reported_and_skipped Examples.ascending
           Examples.no_str Examples.registry_with_q_and_a
           Examples.tool_without_description 0 "foo" "skill").
  - intros X. apply merge_sort_Permutation.
  - intros k Hk. unfold ValidateTools.REQUIRED_TOOL_FIELDS.
    rewrite !elem_of_union, !elem_of_singleton.
    apply elem_of_cons in Hk as [->|Hk]; [tauto|].
    apply elem_of_cons in Hk as [->|Hk]; [tauto|].
    apply elem_of_cons in Hk as [->|Hk]; [tauto|].
    inversion Hk.
  - reflexivity.
  - exists "foo". split; reflexivity.
  - reflexivity.
  - unfold ValidateTools.VALID_TOOL_TYPES.
    rewrite !elem_of_union, !elem_of_singleton. tauto.
  - exists "bar". split; reflexivity.
  - reflexivity.
Defined.

(** ** The marketplace generator *)
Module MarketplaceFacts.
Import Py Rules UpdateClaudeSettings.

(** On entries that are objects the loop of [load_external_plugins]
    returns the entries of the well-formed ones, in their order. *)
Lemma external_plugins_of_objects (py_str : json -> string)
    (entries : list dict) :
  external_plugins_of py_str (JDict <$> entries)
  = Ok (external_entry py_str
          <$> filter (fun plugin => well_formed plugin = true) entries).
Proof.
  induction entries as [|plugin entries IH]; [reflexivity|].
  rewrite fmap_cons. cbn [external_plugins_of contains].
  unfold well_formed at 1.
  change (mbind ?f (mret ?x)) with (f x).
  destruct (has_key plugin "name") eqn:Hname; simpl.
  - destruct (has_key plugin "source") eqn:Hsource; simpl.
    + rewrite IH. simpl.
      rewrite filter_cons_True
        by (unfold well_formed; rewrite Hname, Hsource; reflexivity).
      reflexivity.
    + rewrite IH.
      rewrite filter_cons_False
        by (unfold well_formed; rewrite Hname, Hsource; discriminate).
      reflexivity.
  - rewrite IH.
    rewrite filter_cons_False
      by (unfold well_formed; rewrite Hname; discriminate).
    reflexivity.
Qed.

End MarketplaceFacts.

(** For an external-plugin document whose [plugins] are objects,
    the plugins of the generated marketplace are the entries of the
    well-formed ones (those with a name and a source), in their input
    order, followed by the one entry of the local plugin: K well-formed
    entries give K+1 plugins.  Without an external-plugin document the
    list is the local plugin alone. *)
Theorem marketplace_plugins (py_str : Py.json -> string)
    (tools_config : Py.json) (config : Py.dict) (entries : list Py.dict) :
  Py.lookup config "plugins" = Some (Py.JList (Py.JDict <$> entries)) ->
  let well_formed_entries :=
    filter (fun plugin => Rules.well_formed plugin = true) entries in
  (exists externals,
     UpdateClaudeSettings.load_external_plugins py_str (Some (Py.JDict config))
     = Py.Ok externals
     /\ externals = Rules.external_entry py_str <$> well_formed_entries
     /\ Py.lookup
          (UpdateClaudeSettings.generate_marketplace_json tools_config externals)
          "plugins"
        = Some (Py.JList (externals ++ [UpdateClaudeSettings.local_plugin]))
     /\ length (externals ++ [UpdateClaudeSettings.local_plugin])
        = S (length well_formed_entries))
  /\ UpdateClaudeSettings.load_external_plugins py_str None = Py.Ok []
  /\ Py.lookup (UpdateClaudeSettings.generate_marketplace_json tools_config [])
       "plugins"
     = Some (Py.JList [UpdateClaudeSettings.local_plugin]).
Proof.
  intros Hplugins well_formed_entries. split; [|split; reflexivity].
  eexists. split; [|split; [reflexivity|split; [reflexivity|]]].
  - unfold UpdateClaudeSettings.load_external_plugins. simpl.
    rewrite (ToolFacts.get_lookup _ _ _ _ Hplugins). simpl.
    apply MarketplaceFacts.external_plugins_of_objects.
  - rewrite length_app, length_fmap. simpl. lia.
Qed.

Lemma marketplace_plugins_witness :
  exists externals,
    UpdateClaudeSettings.load_external_plugins Examples.no_str
      (Some (Py.JDict Examples.plugin_config))
    = Py.Ok externals
    /\ externals
       = [Py.JDict [("name", Py.JStr "alpha");
                    ("description", Py.JStr "alpha plugin");
                    ("source", Py.JStr "github:org/alpha")];
          Py.JDict [("name", Py.JStr "delta");
                    ("description", Py.JStr "The delta plugin");
                    ("source", Py.JStr "github:org/delta")]]
    /\ length (externals ++ [UpdateClaudeSettings.local_plugin]) = 3%nat.
Proof.
  destruct (marketplace_plugins Examples.no_str Py.JNull
              Examples.plugin_config Examples.plugin_entries eq_refl)
    as [(externals & Heq & Hext & _ & Hlen) _].
  exists externals. split; [exact Heq|]. split.
  - rewrite Hext. reflexivity.
  - rewrite Hlen. reflexivity.
Defined.

(** C9, at the external-plugin documents
    [{"plugins": [{"name": "alpha", "source": "github:org/alpha"}, 5]}]
    and [{"plugins": [{...}, "rename"]}]: the entry after the
    well-formed one has no name and no source, but it is not skipped.
    The test ["name" not in plugin] raises [TypeError] on the number;
    the string passes that test, since it holds the substring, and
    then [plugin.get] raises [AttributeError] in the branch that means
    to skip the entry.  No plugin list is produced, where the one entry
    of alpha is produced without the malformed entry. *)
Theorem load_external_plugins_raises_on_malformed_entry :
  forall py_str : Py.json -> string,
    let alpha :=
      Py.JDict [("name", Py.JStr "alpha");
                ("source", Py.JStr "github:org/alpha")] in
    UpdateClaudeSettings.load_external_plugins py_str
      (Some (Py.JDict [("plugins", Py.JList [alpha; Py.JInt 5])]))
    = Py.Raise Py.TypeError
    /\ UpdateClaudeSettings.load_external_plugins py_str
         (Some (Py.JDict [("plugins", Py.JList [alpha; Py.JStr "rename"])]))
       = Py.Raise Py.AttributeError
    /\ UpdateClaudeSettings.load_external_plugins py_str
         (Some (Py.JDict [("plugins", Py.JList [alpha])]))
       = Py.Ok [Py.JDict [("name", Py.JStr "alpha");
                          ("description", Py.JStr "alpha plugin");
                          ("source", Py.JStr "github:org/alpha")]].
Proof. intros py_str alpha. repeat split; reflexivity. Qed.

(** ** When the validator returns *)
Module SafetyFacts.
Import Py Rules Notions ValidateTools.

Lemma hash_container (v : json) :
  truthy v = true -> (exists k, hash v = Ok k) \/ is_nonempty_container v.
Proof.
  destruct v as [|b|n|s|[|x l]|[|x d]]; simpl; intros Ht;
    try discriminate; try (left; eexists; reflexivity); right; exact I.
Qed.

Lemma hash_nonempty_container (v : json) :
  is_nonempty_container v -> truthy v = true /\ hash v = Raise TypeError.
Proof.
  destruct v as [|b|n|s|[|x l]|[|x d]]; simpl; intros []; split; reflexivity.
Qed.

(** The per-tool check raises exactly when the type of the tool is a
    non-empty list or object, and what it raises then is
    [TypeError]. *)
Lemma validate_tool_structure_raises (set_iter : gset string -> list string)
    (tool : dict) (index : nat) :
  (is_nonempty_container (get tool "type" JNull) ->
   validate_tool_structure set_iter tool index = Raise TypeError)
  /\ (~ is_nonempty_container (get tool "type" JNull) ->
      exists errs, validate_tool_structure set_iter tool index = Ok errs).
Proof.
  unfold validate_tool_structure. split.
  - intros [-> ->]%hash_nonempty_container. reflexivity.
  - intros Hno. destruct (truthy (get tool "type" JNull)) eqn:Ht.
    + destruct (hash_container _ Ht) as [[k ->]|Hc]; [|contradiction].
      simpl. eexists. reflexivity.
    + simpl. eexists. reflexivity.
Qed.

Lemma validate_tool_entries_returns (set_iter : gset string -> list string)
    (tools : list dict) (i : nat) :
  Forall type_is_hashable_if_truthy tools ->
  exists errs, validate_tool_entries set_iter i (JDict <$> tools) = Ok errs.
Proof.
  intros Htools. revert i.
  induction Htools as [|tool tools Htool _ IH]; intros i.
  - exists []. reflexivity.
  - rewrite fmap_cons. cbn [validate_tool_entries].
    destruct (validate_tool_structure_raises set_iter tool i) as [_ Hok].
    destruct (Hok Htool) as [errs ->]. destruct (IH (S i)) as [errs' ->].
    eexists. reflexivity.
Qed.

Lemma name_is_hashable_weaken (tool : dict) :
  name_is_hashable tool -> name_is_hashable_if_truthy tool.
Proof. intros H _. exact H. Qed.

End SafetyFacts.


(** On a document whose tools are objects, none with a list or
    object as its name or a non-empty list or object as its type, and
    whose categories are a mapping, the validator returns a list of
    errors: it does not raise, with or without a filesystem view. *)
Theorem validate_tools_json_returns (set_iter : gset string -> list string)
    (tools_data : Py.dict) (helpers : option ValidateTools.filesystem_view)
    (tools : list Py.dict) (categories : Py.dict) :
  Py.lookup tools_data "tools" = Some (Py.JList (Py.JDict <$> tools)) ->
  Py.lookup tools_data "categories" = Some (Py.JDict categories) ->
  Forall Rules.name_is_hashable tools ->
  Forall Notions.type_is_hashable_if_truthy tools ->
  exists errs,
    ValidateTools.validate_tools_json set_iter tools_data helpers = Py.Ok errs.
Proof.
  intros Htools Hcats Hnames Htypes.
  rewrite (ValidatorFacts.validate_tools_json_checks _ _ _ _ _ Htools Hcats).
  destruct (SafetyFacts.validate_tool_entries_returns set_iter tools 0 Htypes)
    as [e1 ->].
  destruct (UniqueFacts.duplicate_names_count tools) with (seen := ∅ : gset Py.hkey)
    as (e2 & He2 & _).
  { eapply Forall_impl; [exact Hnames|].
    apply SafetyFacts.name_is_hashable_weaken. }
  unfold ValidateTools.validate_tool_names_unique. rewrite He2.
  destruct (CategoryFacts.validate_categories_counts tools categories)
    as (e4 & -> & _).
  destruct helpers as [view|]; simpl; [|eexists; reflexivity].
  unfold ValidateTools.validate_filesystem_tools_in_json.
  rewrite (ToolFacts.get_lookup _ _ _ _ Htools). simpl.
  destruct (FilesystemFacts.json_tools_from_lookup tools Hnames ∅)
    as (m & -> & _).
  simpl. eexists. reflexivity.
Qed.

Lemma validate_tools_json_returns_witness :
  exists errs,
    ValidateTools.validate_tools_json Examples.descending
      [("tools",
        Py.JList (Py.JDict <$> [[("name", Py.JInt 7); ("type", Py.JList [])];
                                Examples.tool_foo]));
       ("categories", Py.JDict [("bar", Py.JNull)])]
      (Some [("foo", "agent")])
    = Py.Ok errs.
Proof.
  apply (validate_tools_json_returns Examples.descending _ _
           [[("name", Py.JInt 7); ("type", Py.JList [])]; Examples.tool_foo]
           [("bar", Py.JNull)]).
  - reflexivity.
  - reflexivity.
  - repeat constructor; eexists; reflexivity.
  - repeat constructor; intros [].
Defined.

(** ** What the checks let through *)
Module AcceptFacts.
Import Py Rules Notions ValidateTools.

Lemma check_string_nil (not_string : string -> error) (empty : error)
    (v : json) :
  check_string not_string empty v = [] <-> value_passes v.
Proof.
  unfold check_string, value_passes. destruct v as [|b|n|s|l|d];
    try (split; [discriminate|intros [[=]|(s' & [=] & _)]]).
  - split; [left; reflexivity|reflexivity].
  - destruct (PyStr.is_blank s) eqn:E.
    + split; [discriminate|]. intros [[=]|(s' & [= <-] & Hs)]. congruence.
    + split; [|reflexivity]. intros _. right. exists s. split; [reflexivity|exact E].
Qed.

Lemma bind_nil_iff {A B : Type} (f : A -> list B) (l : list A) :
  l ≫= f = [] <-> Forall (fun x => f x = []) l.
Proof.
  split; [|apply ToolFacts.bind_nil].
  induction l as [|x l IH]; csimpl; [constructor|].
  intros [Hx Hl]%app_eq_nil. constructor; [exact Hx|apply IH, Hl].
Qed.

Lemma sorted_nil (X : gset string) : sorted X = [] <-> X = ∅.
Proof.
  split; [|intros ->; apply ToolFacts.sorted_empty].
  intros H. apply leibniz_equiv, elements_empty_inv, Permutation_nil_r.
  rewrite <- H. unfold sorted. symmetry. apply merge_sort_Permutation.
Qed.

Lemma valid_type_passes (t : string) :
  t ∈ VALID_TOOL_TYPES -> PyStr.is_blank t = false.
Proof.
  unfold VALID_TOOL_TYPES. rewrite !elem_of_union, !elem_of_singleton.
  intros [[[->| ->]| ->]| ->]; reflexivity.
Qed.

Lemma not_blank_truthy (s : string) :
  PyStr.is_blank s = false -> truthy (JStr s) = true.
Proof. destruct s; [discriminate|reflexivity]. Qed.

Section SetOrder.
Variable set_iter : gset string -> list string.
Hypothesis set_iter_elements : forall X, set_iter X ≡ₚ elements X.

Lemma set_iter_nil (X : gset string) : set_iter X = [] <-> X = ∅.
Proof.
  split; [|intros ->; apply (ToolFacts.set_iter_empty _ set_iter_elements)].
  intros H. apply leibniz_equiv, elements_empty_inv, Permutation_nil_r.
  rewrite <- H. symmetry. apply set_iter_elements.
Qed.

(** The findings of a tool whose type is not a non-empty list or
    object, part by part. *)
Lemma validate_tool_structure_parts (tool : dict) (index : nat) :
  ~ is_nonempty_container (get tool "type" JNull) ->
  exists invalid,
    validate_tool_structure set_iter tool index
    = Ok ((ToolMissingField (get tool "name" (default_tool_name index))
             <$> set_iter (REQUIRED_TOOL_FIELDS ∖ key_set tool))
          ++ (ToolDisallowedField (get tool "name" (default_tool_name index))
                <$> sorted (key_set tool ∖ ALLOWED_TOOL_FIELDS))
          ++ invalid
          ++ (set_iter REQUIRED_TOOL_FIELDS ≫= fun field =>
                check_string
                  (ToolFieldNotString
                     (get tool "name" (default_tool_name index)) field)
                  (ToolEmptyField
                     (get tool "name" (default_tool_name index)) field)
                  (get tool field JNull)))
    /\ (invalid = [] <->
        truthy (get tool "type" JNull) = false
        \/ exists t, get tool "type" JNull = JStr t /\ t ∈ VALID_TOOL_TYPES).
Proof.
  intros Hno. unfold validate_tool_structure.
  destruct (truthy (get tool "type" JNull)) eqn:Ht.
  - destruct (SafetyFacts.hash_container _ Ht) as [[k Hk]|Hc]; [|contradiction].
    rewrite Hk. simpl. eexists. split; [reflexivity|].
    destruct k as [|n|s].
    + split; [discriminate|]. intros [[=]|(t & Heq & _)].
      rewrite Heq in Hk. discriminate.
    + split; [discriminate|]. intros [[=]|(t & Heq & _)].
      rewrite Heq in Hk. discriminate.
    + apply UniqueFacts.hash_str_iff in Hk.
      destruct (decide (s ∈ VALID_TOOL_TYPES)) as [Hin|Hnin].
      * split; [|reflexivity]. intros _. right. exists s. split; assumption.
      * split; [discriminate|]. intros [[=]|(t & Heq & Hin)].
        rewrite Hk in Heq. injection Heq as <-. contradiction.
  - exists []. split; [reflexivity|].
    split; [|reflexivity]. intros _. left. reflexivity.
Qed.
End SetOrder.

Lemma validate_category_nil (key : string) (data : json) :
  validate_category key data = [] <-> passes_category_check data.
Proof.
  unfold validate_category, passes_category_check.
  destruct data as [|b|n|s|l|d];
    try (split; [discriminate|intros (d' & [=] & _)]).
  split.
  - intros H. apply app_eq_nil in H as [H1 H].
    apply app_eq_nil in H as [H2 H]. apply app_eq_nil in H as [H3 H4].
    exists d. split; [reflexivity|].
    split; [destruct (has_key d "name"); [reflexivity|discriminate]|].
    split; [destruct (has_key d "description"); [reflexivity|discriminate]|].
    split; eapply check_string_nil; eassumption.
  - intros (d' & [= <-] & -> & -> & Hn & Hd).
    apply (check_string_nil (CategoryFieldNotString key "name")
             (CategoryEmptyField key "name")) in Hn.
    apply (check_string_nil (CategoryFieldNotString key "description")
             (CategoryEmptyField key "description")) in Hd.
    rewrite Hn, Hd. reflexivity.
Qed.

End AcceptFacts.

(** The per-tool check returns no finding exactly for the tool
    objects that have the four keys and no other, each value [None] or
    a string that is not blank, and the type [None] or one of the four
    types.  A value [None] passes: the key is there, and the checks of
    the value skip [None]. *)
Theorem validate_tool_structure_accepts_iff
    (set_iter : gset string -> list string) (tool : Py.dict) (index : nat) :
  (forall X, set_iter X ≡ₚ elements X) ->
  ValidateTools.validate_tool_structure set_iter tool index = Py.Ok []
  <-> Notions.passes_tool_check tool.
Proof.
  intros Hiter. split.
  - intros Hok.
    assert (~ Notions.is_nonempty_container (Py.get tool "type" Py.JNull))
      as Hno.
    { intros Hc.
      destruct (SafetyFacts.validate_tool_structure_raises set_iter tool index)
        as [Hraise _].
      rewrite (Hraise Hc) in Hok. discriminate. }
    destruct (AcceptFacts.validate_tool_structure_parts set_iter tool index Hno)
      as (invalid & Heq & Hinvalid).
    rewrite Heq in Hok. injection Hok as Hok.
    apply app_nil in Hok as [Hmissing Hok].
    apply app_nil in Hok as [Hdisallowed Hok].
    apply app_nil in Hok as [Hinv Hstrings].
    apply fmap_nil_inv, (AcceptFacts.set_iter_nil set_iter Hiter) in Hmissing.
    apply fmap_nil_inv, AcceptFacts.sorted_nil in Hdisallowed.
    apply AcceptFacts.bind_nil_iff in Hstrings.
    assert (forall k, k ∈ ValidateTools.REQUIRED_TOOL_FIELDS ->
                      Notions.value_passes (Py.get tool k Py.JNull)) as Hvalues.
    { intros k Hk.
      apply (ToolFacts.elem_of_set_iter set_iter Hiter) in Hk.
      rewrite Forall_forall in Hstrings.
      eapply AcceptFacts.check_string_nil, (Hstrings k Hk). }
    split.
    + intros k. unfold Py.key_set in Hmissing, Hdisallowed.
      destruct (decide (k ∈ Py.keys tool)) as [Hin|Hnin],
        (decide (k ∈ ValidateTools.REQUIRED_TOOL_FIELDS)) as [Hr|Hnr];
        try tauto; exfalso.
      * assert (k ∈ (list_to_set (Py.keys tool) : gset string)
                    ∖ ValidateTools.ALLOWED_TOOL_FIELDS) as H.
        { apply elem_of_difference. split; [apply elem_of_list_to_set, Hin|exact Hnr]. }
        rewrite Hdisallowed in H. revert H. apply not_elem_of_empty.
      * assert (k ∈ ValidateTools.REQUIRED_TOOL_FIELDS
                    ∖ (list_to_set (Py.keys tool) : gset string)) as H.
        { apply elem_of_difference. split; [exact Hr|].
          rewrite elem_of_list_to_set. exact Hnin. }
        rewrite Hmissing in H. revert H. apply not_elem_of_empty.
    + exact Hvalues.
    + apply Hinvalid in Hinv as [Hfalsy|Htype]; [|right; exact Htype].
      left. destruct (Hvalues "type") as [Hnull|(t & Ht & Hb)].
      * apply ToolFacts.required_fields. auto.
      * exact Hnull.
      * rewrite Ht, (AcceptFacts.not_blank_truthy _ Hb) in Hfalsy. discriminate.
  - intros [Hkeys Hvalues Htype].
    assert (~ Notions.is_nonempty_container (Py.get tool "type" Py.JNull))
      as Hno.
    { destruct Htype as [-> |(t & -> & _)]; intros []. }
    destruct (AcceptFacts.validate_tool_structure_parts set_iter tool index Hno)
      as (invalid & -> & Hinvalid).
    assert (ValidateTools.REQUIRED_TOOL_FIELDS ∖ Py.key_set tool = ∅) as ->.
    { apply set_eq. intros k. unfold Py.key_set.
      rewrite elem_of_difference, elem_of_list_to_set, Hkeys.
      split; [tauto|]. intros H. exfalso. revert H. apply not_elem_of_empty. }
    assert (Py.key_set tool ∖ ValidateTools.ALLOWED_TOOL_FIELDS = ∅) as ->.
    { apply set_eq. intros k. unfold Py.key_set, ValidateTools.ALLOWED_TOOL_FIELDS.
      rewrite elem_of_difference, elem_of_list_to_set, Hkeys.
      split; [tauto|]. intros H. exfalso. revert H. apply not_elem_of_empty. }
    rewrite (ToolFacts.set_iter_empty set_iter Hiter), ToolFacts.sorted_empty.
    assert (invalid = []) as ->.
    { apply Hinvalid. destruct Htype as [-> |Htype]; [left; reflexivity|].
      right. exact Htype. }
    rewrite ToolFacts.bind_nil; [reflexivity|].
    apply Forall_forall. intros k Hk.
    apply (ToolFacts.elem_of_set_iter set_iter Hiter) in Hk.
    apply AcceptFacts.check_string_nil, Hvalues, Hk.
Qed.

Lemma validate_tool_structure_accepts_iff_witness :
  ValidateTools.validate_tool_structure Examples.ascending Examples.null_tool 3
  = Py.Ok [].
Proof.
  apply (validate_tool_structure_accepts_iff Examples.ascending
           Examples.null_tool 3).
  - intros X. apply merge_sort_Permutation.
  - split.
    + intros k. rewrite ToolFacts.required_fields. simpl.
      rewrite !elem_of_cons, elem_of_nil. tauto.
    + intros k Hk. apply ToolFacts.required_fields in Hk.
      destruct Hk as [->|[->|[->| ->]]]; left; reflexivity.
    + left. reflexivity.
Defined.

(** The category structure check returns no error exactly when every
    category value is an object that has the keys name and description,
    each value [None] or a string that is not blank. *)
Theorem validate_category_structure_accepts_iff (categories : Py.dict) :
  ValidateTools.validate_category_structure categories = []
  <-> Forall (fun item => Notions.passes_category_check item.2) categories.
Proof.
  unfold ValidateTools.validate_category_structure.
  rewrite AcceptFacts.bind_nil_iff. apply Forall_iff. intros [key data].
  apply AcceptFacts.validate_category_nil.
Qed.

(** ** The gem-title conversion of the website builder *)

(** The conversion of the website builder is idempotent on every
    string, whatever the classes [\w] and [\s] are.  Of [str.lower]
    the proof uses that it leaves a string as it is when every
    character of the string is a hyphen or occurs in a lowered
    string. *)
Theorem title_to_kebab_case_idempotent (lower : Unicode.text -> Unicode.text)
    (is_word isspace : N -> bool) (title : Unicode.text) :
  (forall s t,
     Forall (fun c => c ∈ lower s \/ c = Unicode.hyphen) t -> lower t = t) ->
  Unicode.title_to_kebab_case lower is_word isspace
    (Unicode.title_to_kebab_case lower is_word isspace title)
  = Unicode.title_to_kebab_case lower is_word isspace title.
Proof.
  intros Hstable.
  apply (TextFacts.kebab_fixed lower is_word isspace Hstable).
Qed.

Lemma title_to_kebab_case_idempotent_witness :
  Unicode.title_to_kebab_case SampleTables.lower SampleTables.is_word
    SampleTables.isspace
    (Unicode.title_to_kebab_case SampleTables.lower SampleTables.is_word
       SampleTables.isspace [304; 8195; 38; 8490; 45; 45; 82]%N)
  = [105; 45; 107; 45; 114]%N.
Proof.
  rewrite (title_to_kebab_case_idempotent SampleTables.lower
             SampleTables.is_word SampleTables.isspace _
             SampleTables.lower_stable).
  vm_compute. reflexivity.
Defined.

(** On a title that has no other character than ASCII letters and
    digits, whitespace and hyphens, the validator and the website
    builder derive the same gem name.  Of the tables the proof uses
    that the lowering changes nothing but the letters A to Z in a
    string of ASCII characters and whitespace, and that an ASCII
    letter or digit is of the class [\w] and not of the class [\s]. *)
Theorem title_to_slug_kebab_case_agree (lower : Unicode.text -> Unicode.text)
    (is_word isspace : N -> bool) (title : Unicode.text) :
  (forall s, Forall (fun c => (c < 128)%N \/ isspace c = true) s ->
             lower s = Unicode.ascii_lower <$> s) ->
  (forall c, Unicode.is_ascii_alnum c = true -> is_word c = true) ->
  (forall c, Unicode.is_ascii_alnum c = true -> isspace c = false) ->
  Notions.plain_title isspace title ->
  Unicode.title_to_slug lower title
  = Unicode.title_to_kebab_case lower is_word isspace title.
Proof.
  intros Huncased Hword Hspace Hplain.
  apply (TextFacts.plain_agree lower is_word isspace Huncased Hword Hspace
           title Hplain).
Qed.

Lemma title_to_slug_kebab_case_agree_witness :
  Unicode.title_to_slug SampleTables.lower
    (Unicode.of_string "My  Cool-Gem 2" ++ [8195; 65]%N)
  = Unicode.title_to_kebab_case SampleTables.lower SampleTables.is_word
      SampleTables.isspace
      (Unicode.of_string "My  Cool-Gem 2" ++ [8195; 65]%N).
Proof.
  apply (title_to_slug_kebab_case_agree SampleTables.lower
           SampleTables.is_word SampleTables.isspace _
           SampleTables.lower_uncased SampleTables.word_alnum
           SampleTables.space_alnum).
  unfold Notions.plain_title.
  repeat (constructor; [first [left; reflexivity
                              |right; left; reflexivity
                              |right; right; reflexivity]|]).
  constructor.
Defined.

(** ** The order of the website data *)
Module OrderFacts.
Import Py Rules BuildWebsite.

(** The tool entry is an object that has the four keys. *)
Definition complete (tool : json) : option dict :=
  match tool with
  | JDict d => if forallb (has_key d) required_keys then Some d else None
  | _ => None
  end.

Section Builder.
Variable py_str : json -> string.
Variable env : assets.

(** The entry that the tool gets in the list of the type [ty]. *)
Definition entry_of (ty : string) (tool : json) : option dict :=
  match complete tool with
  | Some d =>
      if eq_str (get d "type" JNull) ty
      then match get_tool_metadata py_str env d with
           | Ok metadata => Some metadata
           | Raise _ => None
           end
      else None
  | None => None
  end.

(** The entries that the tools of type [ty] get, in tool order. *)
Definition entries_of (ty : string) (tools : list json) : list dict :=
  omap (entry_of ty) tools.

Lemma missing_keys_nil (d : dict) (l : list string) :
  filter (fun key => has_key d key = false) l = [] <-> forallb (has_key d) l = true.
Proof.
  induction l as [|k l IH]; [split; reflexivity|].
  simpl. destruct (has_key d k) eqn:E.
  - rewrite filter_cons_False by congruence. exact IH.
  - rewrite filter_cons_True by exact E. split; discriminate.
Qed.

Lemma eq_str_iff (v : json) (s : string) : eq_str v s = true <-> v = JStr s.
Proof.
  unfold eq_str. rewrite negb_true_iff. apply FilesystemFacts.ne_str_iff.
Qed.

(** The list of the output that takes the tools of type [ty]. *)
Definition bucket (ty : string) (out : website_tools) : list dict :=
  if String.eqb ty "skill" then skills out
  else if String.eqb ty "command" then commands out
  else if String.eqb ty "agent" then agents out
  else if String.eqb ty "gem" then gemini out
  else [].

Lemma eq_str_other (t ty : string) :
  t <> ty -> eq_str (JStr t) ty = false.
Proof. intros H. unfold eq_str. simpl. rewrite negb_involutive. apply String.eqb_neq, H. Qed.

Definition listed_type (ty : string) : Prop :=
  ty = "skill" \/ ty = "command" \/ ty = "agent" \/ ty = "gem".

Lemma add_tool_bucket (ty : string) (out out' : website_tools) (tool : json) :
  listed_type ty ->
  add_tool py_str env out tool = Ok out' ->
  bucket ty out' = bucket ty out ++ option_list (entry_of ty tool).
Proof.
  intros Hty. unfold add_tool, entry_of, complete.
  destruct tool as [| | | | |d];
    try (intros [= <-]; simpl; rewrite app_nil_r; reflexivity).
  destruct (filter _ required_keys) as [|k l] eqn:E.
  - apply missing_keys_nil in E. rewrite E.
    destruct (get_tool_metadata py_str env d) as [metadata|e]; [|discriminate].
    change (mbind ?f (Ok metadata)) with (f metadata). cbv beta.
    destruct (eq_str (get d "type" JNull) "skill") eqn:T1.
    { apply eq_str_iff in T1. rewrite T1. intros [= <-]. unfold bucket.
      destruct (String.eqb_spec ty "skill") as [->|H].
      - reflexivity.
      - rewrite eq_str_other by congruence. simpl.
        repeat destruct (String.eqb ty _); rewrite app_nil_r; reflexivity. }
    destruct (eq_str (get d "type" JNull) "command") eqn:T2.
    { apply eq_str_iff in T2. rewrite T2. intros [= <-]. unfold bucket.
      destruct (String.eqb_spec ty "command") as [->|H].
      - reflexivity.
      - rewrite eq_str_other by congruence. simpl.
        repeat destruct (String.eqb ty _); rewrite app_nil_r; reflexivity. }
    destruct (eq_str (get d "type" JNull) "agent") eqn:T3.
    { apply eq_str_iff in T3. rewrite T3. intros [= <-]. unfold bucket.
      destruct (String.eqb_spec ty "agent") as [->|H].
      - reflexivity.
      - rewrite eq_str_other by congruence. simpl.
        repeat destruct (String.eqb ty _); rewrite app_nil_r; reflexivity. }
    destruct (eq_str (get d "type" JNull) "gem") eqn:T4.
    { apply eq_str_iff in T4. rewrite T4. intros [= <-]. unfold bucket.
      destruct (String.eqb_spec ty "gem") as [->|H].
      - reflexivity.
      - rewrite eq_str_other by congruence. simpl.
        repeat destruct (String.eqb ty _); rewrite app_nil_r; reflexivity. }
    intros [= <-]. unfold bucket.
    destruct (String.eqb_spec ty "skill") as [->|N1];
      [rewrite T1; simpl; rewrite app_nil_r; reflexivity|].
    destruct (String.eqb_spec ty "command") as [->|N2];
      [rewrite T2; simpl; rewrite app_nil_r; reflexivity|].
    destruct (String.eqb_spec ty "agent") as [->|N3];
      [rewrite T3; simpl; rewrite app_nil_r; reflexivity|].
    destruct (String.eqb_spec ty "gem") as [->|N4];
      [rewrite T4; simpl; rewrite app_nil_r; reflexivity|].
    destruct Hty as [?|[?|[?|?]]]; contradiction.
  - intros [= <-].
    assert (forallb (has_key d) required_keys = false) as ->.
    { destruct (forallb (has_key d) required_keys) eqn:F; [|reflexivity].
      apply missing_keys_nil in F. congruence. }
    simpl. rewrite app_nil_r. reflexivity.
Qed.

Lemma entries_of_cons (ty : string) (tool : json) (tools : list json) :
  entries_of ty (tool :: tools)
  = option_list (entry_of ty tool) ++ entries_of ty tools.
Proof.
  unfold entries_of. cbn [omap list_omap].
  destruct (entry_of ty tool); reflexivity.
Qed.

Lemma add_tools_bucket (ty : string) (tools : list json)
    (out out' : website_tools) :
  listed_type ty ->
  add_tools py_str env out tools = Ok out' ->
  bucket ty out' = bucket ty out ++ entries_of ty tools.
Proof.
  intros Hty. revert out. induction tools as [|tool tools IH]; intros out.
  - simpl. intros [= <-]. rewrite app_nil_r. reflexivity.
  - cbn [add_tools].
    destruct (add_tool py_str env out tool) as [mid|e] eqn:E; [|discriminate].
    change (add_tools py_str env mid tools = Ok out' ->
            bucket ty out' = bucket ty out ++ entries_of ty (tool :: tools)).
    intros H. rewrite (IH _ H), (add_tool_bucket ty _ _ _ Hty E).
    rewrite entries_of_cons, app_assoc. reflexivity.
Qed.
End Builder.

End OrderFacts.

(** The website data keeps the order of the catalog: when the
    builder returns, each of its four lists holds the entries of the
    complete tools of its type, in the order of the tools in the
    catalog, and a tool of any other type is in none of them. *)
Theorem build_website_data_keeps_order (py_str : Py.json -> string)
    (env : BuildWebsite.assets) (tools : list Py.json)
    (out : BuildWebsite.website_tools) :
  BuildWebsite.build_website_data py_str env tools = Py.Ok out ->
  BuildWebsite.skills out = OrderFacts.entries_of py_str env "skill" tools
  /\ BuildWebsite.commands out
     = OrderFacts.entries_of py_str env "command" tools
  /\ BuildWebsite.agents out = OrderFacts.entries_of py_str env "agent" tools
  /\ BuildWebsite.gemini out = OrderFacts.entries_of py_str env "gem" tools.
Proof.
  intros Hout. unfold BuildWebsite.build_website_data in Hout.
  repeat split.
  - apply (OrderFacts.add_tools_bucket py_str env "skill" tools
             BuildWebsite.no_tools out);
      [unfold OrderFacts.listed_type; tauto|exact Hout].
  - apply (OrderFacts.add_tools_bucket py_str env "command" tools
             BuildWebsite.no_tools out);
      [unfold OrderFacts.listed_type; tauto|exact Hout].
  - apply (OrderFacts.add_tools_bucket py_str env "agent" tools
             BuildWebsite.no_tools out);
      [unfold OrderFacts.listed_type; tauto|exact Hout].
  - apply (OrderFacts.add_tools_bucket py_str env "gem" tools
             BuildWebsite.no_tools out);
      [unfold OrderFacts.listed_type; tauto|exact Hout].
Qed.

Lemma build_website_data_keeps_order_witness :
  BuildWebsite.skills Examples.site_data
  = OrderFacts.entries_of Examples.no_str Examples.registry_with_q_and_a
      "skill" Examples.site_catalog
  /\ BuildWebsite.commands Examples.site_data
     = OrderFacts.entries_of Examples.no_str Examples.registry_with_q_and_a
         "command" Examples.site_catalog
  /\ BuildWebsite.agents Examples.site_data
     = OrderFacts.entries_of Examples.no_str Examples.registry_with_q_and_a
         "agent" Examples.site_catalog
  /\ BuildWebsite.gemini Examples.site_data
     = OrderFacts.entries_of Examples.no_str Examples.registry_with_q_and_a
         "gem" Examples.site_catalog.
Proof.
  apply (build_website_data_keeps_order Examples.no_str
           Examples.registry_with_q_and_a Examples.site_catalog
           Examples.site_data).
  vm_compute. reflexivity.
Defined.

(** ** When the website builder returns *)
Module BuilderSafetyFacts.
Import Py Rules BuildWebsite.



Section Builder.
Variable py_str : json -> string.
Variable env : assets.
Hypothesis stat_succeeds : forall path, stat_fails env path = false.




End Builder.

End BuilderSafetyFacts.



(** ** scripts/validate_tools.py: the filesystem scanner *)
Module Scanner.
Import Py.

(** An entry of a directory, as [iterdir] yields it. *)
Record dir_entry : Type := {
  entry_name : string;
  entry_is_dir : bool;
  entry_is_file : bool
}.

(** The gem registry helpers/gems/gems.yaml.  A loaded registry is
    a document of [null], booleans, integers, strings, lists and
    mappings with string keys; the other values that YAML can hold
    (floats, binary data, dates) are outside the model. *)
Inductive gems_file : Type :=
| NoGemsFile                (* the file does not exist *)
| NoYamlModule              (* the file exists, PyYAML is not installed *)
| Unreadable                (* the read or [yaml.safe_load] raised
                               [IOError] or [yaml.YAMLError], which the
                               scanner catches *)
| Undecodable               (* the file is not UTF-8 text: the read
                               raises [UnicodeDecodeError], which the
                               scanner does not catch *)
| Loaded (gems_data : json) (* what [yaml.safe_load] returned *).

(** The helpers directory: the entries of its directories skills,
    commands and agents, in the order of [iterdir] ([None] for a
    directory that does not exist), and its gem registry. *)
Record helpers_dir : Type := {
  (* one of the tests [exists], [is_dir], [is_file] or of the
     listings [iterdir] of the scan raises [OSError] *)
  scan_fails : bool;
  skills_dir : option (list dir_entry);
  commands_dir : option (list dir_entry);
  agents_dir : option (list dir_entry);
  gems_yaml : gems_file
}.

Abbreviation view := (list (string * string)).

(** [d.get(k)] on the view. *)
Fixpoint view_type (v : view) (k : string) : option string :=
  match v with
  | [] => None
  | (k', t) :: v' => if String.eqb k' k then Some t else view_type v' k
  end.

(** [for name in names: filesystem_tools[name] = type] *)
Definition assign_all (type : string) (names : list string) (v : view)
    : view :=
  foldl (fun v name => set_item v name type) v names.

(** The names of the subdirectories. *)
Definition dir_names (entries : option (list dir_entry)) : list string :=
  match entries with
  | None => []
  | Some l =>
      omap (fun e => if entry_is_dir e then Some (entry_name e) else None) l
  end.

(** The titles of the gems of the registry, in their order.  The
    exceptions of this part are not caught by the scanner. *)
Fixpoint titles_of (gems : list json) : result (list string) :=
  match gems with
  | [] => Ok []
  | gem :: rest =>
      has_title ← UpdateClaudeSettings.contains gem "title";
      if (has_title : bool)
      then title ← UpdateClaudeSettings.item gem "title";
           match title with
           | JStr t => later ← titles_of rest; Ok (t :: later)
           | _ => Raise AttributeError
           end
      else titles_of rest
  end.

Definition gem_titles (g : gems_file) : result (list string) :=
  match g with
  | Loaded gems_data =>
      if truthy gems_data
      then has_gems ← UpdateClaudeSettings.contains gems_data "gems";
           if (has_gems : bool)
           then gems ← UpdateClaudeSettings.item gems_data "gems";
                l ← iterate gems;
                titles_of l
           else mret []
      else mret []
  | Undecodable => Raise UnicodeDecodeError
  | _ => mret []
  end.

Section Paths.
(** [item.suffix] and [item.stem] of [pathlib], from the name of the
    entry. *)
Variable suffix : string -> string.
Variable stem : string -> string.

(** The tool of a file of the directory commands or agents. *)
Definition md_tool (e : dir_entry) : option string :=
  if entry_is_file e && String.eqb (suffix (entry_name e)) ".md"
  then if String.eqb (PyStr.lower (entry_name e)) "readme.md"
       then None
       else Some (stem (entry_name e))
  else None.

Definition md_names (entries : option (list dir_entry)) : list string :=
  match entries with
  | None => []
  | Some l => omap md_tool l
  end.

(** [get_filesystem_tools] *)
Definition get_filesystem_tools (h : helpers_dir) : result view :=
  if scan_fails h then Raise OSError else
  let v := assign_all "skill" (dir_names (skills_dir h)) [] in
  let v := assign_all "command" (md_names (commands_dir h)) v in
  let v := assign_all "agent" (md_names (agents_dir h)) v in
  titles ← gem_titles (gems_yaml h);
  mret (assign_all "gem" (ValidateTools.title_to_slug <$> titles) v).
End Paths.

End Scanner.

(** ** Properties of the scanner *)
Module ScannerFacts.
Import Py Scanner.

Lemma set_item_keys (v : view) (k t : string) :
  forall x, x ∈ (set_item v k t).*1 <-> x = k \/ x ∈ v.*1.
Proof.
  induction v as [|[k' t'] v IH]; intros x; simpl.
  - rewrite elem_of_cons, elem_of_nil. reflexivity.
  - destruct (String.eqb_spec k' k) as [->|Hne]; simpl.
    + rewrite !elem_of_cons. tauto.
    + rewrite !elem_of_cons, IH. tauto.
Qed.

Lemma set_item_NoDup (v : view) (k t : string) :
  NoDup v.*1 -> NoDup (set_item v k t).*1.
Proof.
  induction v as [|[k' t'] v IH]; simpl; intros Hnd.
  - constructor; [apply not_elem_of_nil|constructor].
  - apply NoDup_cons in Hnd as [Hk Hnd].
    destruct (String.eqb_spec k' k) as [->|Hne]; simpl.
    + constructor; assumption.
    + constructor; [|apply IH, Hnd].
      rewrite set_item_keys. intros [->|H]; contradiction.
Qed.

Lemma set_item_values (P : string -> Prop) (v : view) (k t : string) :
  P t -> Forall (fun kv => P kv.2) v ->
  Forall (fun kv => P kv.2) (set_item v k t).
Proof.
  intros Ht. induction 1 as [|[k' t'] v Hkv Hv IH]; simpl.
  - repeat constructor. exact Ht.
  - destruct (String.eqb k' k); constructor; assumption.
Qed.

Lemma view_type_set_item (v : view) (k t x : string) :
  view_type (set_item v k t) x
  = if String.eqb k x then Some t else view_type v x.
Proof.
  induction v as [|[k' t'] v IH]; simpl.
  - reflexivity.
  - destruct (String.eqb_spec k' k) as [->|Hne]; simpl.
    + destruct (String.eqb k x); reflexivity.
    + rewrite IH. destruct (String.eqb_spec k' x) as [->|_]; [|reflexivity].
      destruct (String.eqb_spec k x) as [->|_]; [contradiction|reflexivity].
Qed.

Lemma assign_all_NoDup (t : string) (names : list string) (v : view) :
  NoDup v.*1 -> NoDup (assign_all t names v).*1.
Proof.
  unfold assign_all. revert v.
  induction names as [|n names IH]; intros v Hnd; [exact Hnd|].
  simpl. apply IH, set_item_NoDup, Hnd.
Qed.

Lemma assign_all_values (P : string -> Prop) (t : string)
    (names : list string) (v : view) :
  P t -> Forall (fun kv => P kv.2) v ->
  Forall (fun kv => P kv.2) (assign_all t names v).
Proof.
  intros Ht. unfold assign_all. revert v.
  induction names as [|n names IH]; intros v Hv; [exact Hv|].
  simpl. apply IH, set_item_values; assumption.
Qed.

(** After a loop of assignments of the type [t], a name of the loop
    has the type [t] and every other name keeps its type. *)
Lemma view_type_assign_all (t : string) (names : list string) (v : view)
    (x : string) :
  view_type (assign_all t names v) x
  = if decide (x ∈ names) then Some t else view_type v x.
Proof.
  unfold assign_all. revert v.
  induction names as [|n names IH]; intros v; cbn [foldl].
  - destruct (decide (x ∈ [])) as [H|_]; [inversion H|reflexivity].
  - rewrite IH, view_type_set_item.
    destruct (decide (x ∈ names)) as [Hin|Hnin],
      (decide (x ∈ n :: names)) as [Hin'|Hnin']; try reflexivity.
    + exfalso. apply Hnin'. right. exact Hin.
    + apply elem_of_cons in Hin' as [->|Hin']; [|contradiction].
      rewrite String.eqb_refl. reflexivity.
    + destruct (String.eqb_spec n x) as [->|_]; [|reflexivity].
      exfalso. apply Hnin'. left.
Qed.

End ScannerFacts.

(** The view that the scanner returns is a dict of the four tool
    types: no name occurs twice in it, and every type in it is skill,
    command, agent or gem. *)
Theorem get_filesystem_tools_view (suffix stem : string -> string)
    (h : Scanner.helpers_dir) (v : Scanner.view) :
  Scanner.get_filesystem_tools suffix stem h = Py.Ok v ->
  NoDup v.*1 /\ Forall (fun kv => kv.2 ∈ ValidateTools.VALID_TOOL_TYPES) v.
Proof.
  unfold Scanner.get_filesystem_tools.
  destruct (Scanner.scan_fails h); [discriminate|].
  destruct (Scanner.gem_titles (Scanner.gems_yaml h)) as [titles|e];
    [|discriminate].
  simpl. intros [= <-]. split.
  - repeat apply ScannerFacts.assign_all_NoDup. constructor.
  - assert (forall t, t = "skill" \/ t = "command" \/ t = "agent" \/ t = "gem" ->
                      t ∈ ValidateTools.VALID_TOOL_TYPES) as Hvalid.
    { intros t. unfold ValidateTools.VALID_TOOL_TYPES.
      rewrite !elem_of_union, !elem_of_singleton. tauto. }
    apply (ScannerFacts.assign_all_values
             (fun t => t ∈ ValidateTools.VALID_TOOL_TYPES));
      [apply Hvalid; tauto|].
    apply (ScannerFacts.assign_all_values
             (fun t => t ∈ ValidateTools.VALID_TOOL_TYPES));
      [apply Hvalid; tauto|].
    apply (ScannerFacts.assign_all_values
             (fun t => t ∈ ValidateTools.VALID_TOOL_TYPES));
      [apply Hvalid; tauto|].
    apply (ScannerFacts.assign_all_values
             (fun t => t ∈ ValidateTools.VALID_TOOL_TYPES));
      [apply Hvalid; tauto|].
    constructor.
Qed.

(** The last rule wins: in the view that the scanner returns, a name
    has the type gem when it is the slug of a gem title; else agent
    when it comes from a file of agents; else command when it comes
    from a file of commands; else skill when it is a directory of
    skills; and no other name is in the view. *)
Theorem get_filesystem_tools_last_rule_wins (suffix stem : string -> string)
    (h : Scanner.helpers_dir) (v : Scanner.view) (titles : list string)
    (name : string) :
  Scanner.gem_titles (Scanner.gems_yaml h) = Py.Ok titles ->
  Scanner.get_filesystem_tools suffix stem h = Py.Ok v ->
  Scanner.view_type v name
  = if decide (name ∈ ValidateTools.title_to_slug <$> titles) then Some "gem"
    else if decide (name ∈ Scanner.md_names suffix stem (Scanner.agents_dir h))
    then Some "agent"
    else if decide (name ∈ Scanner.md_names suffix stem
                             (Scanner.commands_dir h))
    then Some "command"
    else if decide (name ∈ Scanner.dir_names (Scanner.skills_dir h))
    then Some "skill"
    else None.
Proof.
  intros Htitles. unfold Scanner.get_filesystem_tools. rewrite Htitles.
  destruct (Scanner.scan_fails h); [discriminate|].
  simpl. intros [= <-].
  rewrite !ScannerFacts.view_type_assign_all. reflexivity.
Qed.

(** ** A helpers directory, for the evaluations of the scanner *)
Module ScannerExamples.
Import Py Scanner.

(** [suffix] and [stem] on the file names of the example: names
    that end in ".md" after at least one other character, and names
    without a dot after the first character. *)
Definition suffix_of (name : string) : string :=
  let n := String.length name in
  if (3 <? n)%nat && String.eqb (String.substring (n - 3) 3 name) ".md"
  then ".md" else "".

Definition stem_of (name : string) : string :=
  if String.eqb (suffix_of name) ".md"
  then String.substring 0 (String.length name - 3) name
  else name.

Definition directory (name : string) : dir_entry :=
  {| entry_name := name; entry_is_dir := true; entry_is_file := false |}.
Definition file (name : string) : dir_entry :=
  {| entry_name := name; entry_is_dir := false; entry_is_file := true |}.

Definition helpers : helpers_dir :=
  {| scan_fails := false;
     skills_dir := Some [directory "foo"; file "notes.txt";
                         directory "q-a-bot"];
     commands_dir := Some [file "run.md"; file "README.md"; file "foo.md";
                           directory "x.md"; file "todo.txt"];
     agents_dir := None;
     gems_yaml :=
       Loaded (JDict [("gems",
                       JList [JDict [("title", JStr "Q&A Bot");
                                     ("link", JStr "https://gems.example/qa")];
                              JDict [("link", JStr "https://gems.example/x")]])])
  |}.

Definition helpers_view : view :=
  [("foo", "command"); ("q-a-bot", "gem"); ("run", "command")].

End ScannerExamples.

Lemma get_filesystem_tools_view_witness :
  NoDup ScannerExamples.helpers_view.*1
  /\ Forall (fun kv => kv.2 ∈ ValidateTools.VALID_TOOL_TYPES)
       ScannerExamples.helpers_view.
Proof.
  apply (get_filesystem_tools_view ScannerExamples.suffix_of
           ScannerExamples.stem_of ScannerExamples.helpers).
  vm_compute. reflexivity.
Defined.

Lemma get_filesystem_tools_last_rule_wins_witness :
  Scanner.view_type ScannerExamples.helpers_view "q-a-bot" = Some "gem"
  /\ Scanner.view_type ScannerExamples.helpers_view "foo" = Some "command"
  /\ Scanner.view_type ScannerExamples.helpers_view "README" = None.
Proof.
  assert (Scanner.gem_titles (Scanner.gems_yaml ScannerExamples.helpers)
          = Py.Ok ["Q&A Bot"]) as Htitles by (vm_compute; reflexivity).
  assert (Scanner.get_filesystem_tools ScannerExamples.suffix_of
            ScannerExamples.stem_of ScannerExamples.helpers
          = Py.Ok ScannerExamples.helpers_view) as Hview
    by (vm_compute; reflexivity).
  split; [|split].
  - rewrite (get_filesystem_tools_last_rule_wins _ _ _ _ _ "q-a-bot"
               Htitles Hview).
    vm_compute. reflexivity.
  - rewrite (get_filesystem_tools_last_rule_wins _ _ _ _ _ "foo"
               Htitles Hview).
    vm_compute. reflexivity.
  - rewrite (get_filesystem_tools_last_rule_wins _ _ _ _ _ "README"
               Htitles Hview).
    vm_compute. reflexivity.
Defined.

(** ** Malformed external plugin entries *)
Module PluginFacts.
Import Py Rules UpdateClaudeSettings.

(** [None], a boolean or a number. *)
Definition is_scalar (v : json) : Prop :=
  match v with
  | JNull | JBool _ | JInt _ => True
  | _ => False
  end.

Lemma external_plugins_of_app_objects (py_str : json -> string)
    (entries : list dict) (rest : list json) :
  external_plugins_of py_str ((JDict <$> entries) ++ rest)
  = later ← external_plugins_of py_str rest;
    mret ((external_entry py_str
             <$> filter (fun plugin => well_formed plugin = true) entries)
          ++ later).
Proof.
  induction entries as [|plugin entries IH].
  - simpl. destruct (external_plugins_of py_str rest); reflexivity.
  - rewrite fmap_cons, <- app_comm_cons.
    cbn [external_plugins_of contains].
    change (mbind ?f (mret ?x)) with (f x). cbv beta.
    destruct (has_key plugin "name") eqn:Hname; simpl.
    + destruct (has_key plugin "source") eqn:Hsource; simpl.
      * rewrite IH.
        rewrite filter_cons_True
          by (unfold well_formed; rewrite Hname, Hsource; reflexivity).
        destruct (external_plugins_of py_str rest); reflexivity.
      * rewrite IH.
        rewrite filter_cons_False
          by (unfold well_formed; rewrite Hname, Hsource; discriminate).
        reflexivity.
    + rewrite IH.
      rewrite filter_cons_False
        by (unfold well_formed; rewrite Hname; discriminate).
      reflexivity.
Qed.

End PluginFacts.

(** An entry of the external-plugin list that is [null], a boolean
    or a number stops the loading: when the entries before it are
    objects, [load_external_plugins] raises [TypeError] at the test
    ["name" not in plugin], whatever follows the entry. *)
Theorem load_external_plugins_raises_on_scalar (py_str : Py.json -> string)
    (config : Py.dict) (entries : list Py.dict) (entry : Py.json)
    (rest : list Py.json) :
  Py.lookup config "plugins"
  = Some (Py.JList ((Py.JDict <$> entries) ++ entry :: rest)) ->
  PluginFacts.is_scalar entry ->
  UpdateClaudeSettings.load_external_plugins py_str (Some (Py.JDict config))
  = Py.Raise Py.TypeError.
Proof.
  intros Hplugins Hscalar.
  unfold UpdateClaudeSettings.load_external_plugins. simpl.
  rewrite (ToolFacts.get_lookup _ _ _ _ Hplugins). simpl.
  rewrite PluginFacts.external_plugins_of_app_objects.
  destruct entry; try contradiction; reflexivity.
Qed.

Lemma load_external_plugins_raises_on_scalar_witness :
  UpdateClaudeSettings.load_external_plugins Examples.no_str
    (Some (Py.JDict
             [("plugins",
               Py.JList ((Py.JDict <$> Examples.plugin_entries)
                         ++ Py.JInt 5 :: [Py.JStr "later"]))]))
  = Py.Raise Py.TypeError.
Proof.
  apply (load_external_plugins_raises_on_scalar Examples.no_str _
           Examples.plugin_entries (Py.JInt 5) [Py.JStr "later"]).
  - reflexivity.
  - exact I.
Defined.

(** ** The shape of the website entries *)
Module MetadataFacts.
Import Py Rules BuildWebsite.


Section Builder.
Variable py_str : json -> string.
Variable env : assets.
Variable tool : dict.
Variable n : string.
Variables description category : json.
Hypothesis tool_name : lookup tool "name" = Some (JStr n).
Hypothesis tool_description : lookup tool "description" = Some description.
Hypothesis tool_category : lookup tool "category" = Some category.





End Builder.

End MetadataFacts.



(** ** Which tools the uniqueness check reports *)
Module ReportFacts.
Import Py Rules ValidateTools.

(** The name of the tool as the member of [seen_names] that the
    check tests: none for a name that is false in a condition. *)
Definition name_key (tool : dict) : option hkey :=
  let name := get tool "name" JNull in
  if truthy name
  then match hash name with Ok k => Some k | Raise _ => None end
  else None.

(** The error that the check adds for a tool that comes after the
    tools [earlier]. *)
Definition report (earlier : list dict) (tool : dict) : list error :=
  match name_key tool with
  | Some k =>
      if decide (k ∈ omap name_key earlier)
      then [DuplicateToolName (get tool "name" JNull)]
      else []
  | None => []
  end.

Definition seen_after (seen : gset hkey) (tools : list dict) : gset hkey :=
  seen ∪ list_to_set (omap name_key tools).

Lemma seen_after_cons_key (seen : gset hkey) (tool : dict) (tools : list dict)
    (k : hkey) :
  name_key tool = Some k ->
  seen_after seen (tool :: tools) = seen_after ({[ k ]} ∪ seen) tools.
Proof.
  intros Hk. unfold seen_after. cbn [omap list_omap]. rewrite Hk.
  apply set_eq. intros x.
  rewrite list_to_set_cons, !elem_of_union. tauto.
Qed.

Lemma seen_after_cons_seen (seen : gset hkey) (tool : dict)
    (tools : list dict) (k : hkey) :
  name_key tool = Some k -> k ∈ seen ->
  seen_after seen (tool :: tools) = seen_after seen tools.
Proof.
  intros Hk Hin. unfold seen_after. cbn [omap list_omap]. rewrite Hk.
  apply set_eq. intros x.
  rewrite list_to_set_cons, !elem_of_union, elem_of_singleton.
  split; [intros [H|[->|H]]; auto|tauto].
Qed.

Lemma seen_after_cons_none (seen : gset hkey) (tool : dict)
    (tools : list dict) :
  name_key tool = None ->
  seen_after seen (tool :: tools) = seen_after seen tools.
Proof.
  intros Hk. unfold seen_after. cbn [omap list_omap]. rewrite Hk.
  reflexivity.
Qed.

(** The check of a list of tools that begins with tool objects:
    the rest is checked against the names seen in the objects. *)
Lemma duplicate_names_app (tools : list dict) (rest : list json) :
  Forall name_is_hashable_if_truthy tools ->
  forall seen : gset hkey,
    duplicate_names seen ((JDict <$> tools) ++ rest)
    = e1 ← duplicate_names seen (JDict <$> tools);
      e2 ← duplicate_names (seen_after seen tools) rest;
      mret (e1 ++ e2).
Proof.
  induction 1 as [|tool tools Htool _ IH]; intros seen.
  - simpl. unfold seen_after. simpl. rewrite union_empty_r_L.
    destruct (duplicate_names seen rest); reflexivity.
  - rewrite fmap_cons, <- app_comm_cons, !UniqueFacts.duplicate_names_cons.
    cbv zeta. unfold name_is_hashable_if_truthy in Htool.
    destruct (truthy (get tool "name" JNull)) eqn:Ht.
    + destruct (Htool eq_refl) as [k Hk]. rewrite Hk. simpl.
      assert (name_key tool = Some k) as Hkey
        by (unfold name_key; rewrite Ht, Hk; reflexivity).
      destruct (decide (k ∈ seen)) as [Hin|Hnin].
      * rewrite IH, (seen_after_cons_seen _ _ _ _ Hkey Hin).
        destruct (duplicate_names seen (JDict <$> tools)) as [e1|e];
          [|reflexivity].
        simpl. destruct (duplicate_names (seen_after seen tools) rest);
          reflexivity.
      * rewrite IH, (seen_after_cons_key _ _ _ _ Hkey). reflexivity.
    + assert (name_key tool = None) as Hkey
        by (unfold name_key; rewrite Ht; reflexivity).
      rewrite IH, (seen_after_cons_none _ _ _ Hkey). reflexivity.
Qed.

Lemma duplicate_names_last (seen : gset hkey) (tool : dict) :
  name_is_hashable_if_truthy tool ->
  duplicate_names seen [JDict tool]
  = Ok (match name_key tool with
        | Some k =>
            if decide (k ∈ seen)
            then [DuplicateToolName (get tool "name" JNull)]
            else []
        | None => []
        end).
Proof.
  intros Htool. rewrite UniqueFacts.duplicate_names_cons. cbv zeta.
  unfold name_key, name_is_hashable_if_truthy in *.
  destruct (truthy (get tool "name" JNull)); [|reflexivity].
  destruct (Htool eq_refl) as [k ->]. simpl.
  destruct (decide (k ∈ seen)); reflexivity.
Qed.

Lemma seen_after_empty (tools : list dict) (k : hkey) :
  k ∈ seen_after ∅ tools <-> k ∈ omap name_key tools.
Proof.
  unfold seen_after. rewrite elem_of_union, elem_of_list_to_set.
  split; [intros [H|H]; [|exact H]|auto].
  exfalso. revert H. apply not_elem_of_empty.
Qed.

End ReportFacts.

(** The uniqueness check reports a tool exactly when an earlier tool
    has an equal name: the errors for a catalog with one more tool at
    its end are the errors for the catalog, followed by one error for
    the new tool when its name is true in a condition and equal to the
    name of an earlier tool, and by nothing otherwise.  The names are
    compared as Python compares members of a set, so the names 1 and
    true are equal. *)
Theorem validate_tool_names_unique_reports_repeats (tools : list Py.dict)
    (tool : Py.dict) :
  Forall Rules.name_is_hashable_if_truthy tools ->
  Rules.name_is_hashable_if_truthy tool ->
  exists errs,
    ValidateTools.validate_tool_names_unique (Py.JDict <$> tools) = Py.Ok errs
    /\ ValidateTools.validate_tool_names_unique (Py.JDict <$> tools ++ [tool])
       = Py.Ok (errs ++ ReportFacts.report tools tool).
Proof.
  intros Htools Htool.
  destruct (UniqueFacts.duplicate_names_count tools Htools ∅)
    as (errs & Heq & _).
  exists errs. split; [exact Heq|].
  unfold ValidateTools.validate_tool_names_unique in *.
  rewrite fmap_app. change (Py.JDict <$> [tool]) with [Py.JDict tool].
  rewrite (ReportFacts.duplicate_names_app tools _ Htools), Heq.
  rewrite (ReportFacts.duplicate_names_last _ _ Htool).
  unfold ReportFacts.report.
  destruct (ReportFacts.name_key tool) as [k|]; [|reflexivity].
  destruct (decide (k ∈ ReportFacts.seen_after ∅ tools)) as [Hs|Hs],
    (decide (k ∈ omap ReportFacts.name_key tools)) as [Hin|Hnin];
    try reflexivity; exfalso.
  - apply Hnin, ReportFacts.seen_after_empty, Hs.
  - apply Hs, ReportFacts.seen_after_empty, Hin.
Qed.

Lemma validate_tool_names_unique_reports_repeats_witness :
  ValidateTools.validate_tool_names_unique
    (Py.JDict <$> [[("name", Py.JInt 1)]; [("name", Py.JStr "a")]]
                  ++ [[("name", Py.JBool true)]])
  = Py.Ok [ValidateTools.DuplicateToolName (Py.JBool true)].
Proof.
  destruct (validate_tool_names_unique_reports_repeats
              [[("name", Py.JInt 1)]; [("name", Py.JStr "a")]]
              [("name", Py.JBool true)])
    as (errs & Heq & Hlast).
  - repeat constructor; intros _; eexists; reflexivity.
  - intros _. eexists. reflexivity.
  - rewrite Hlast. vm_compute in Heq. injection Heq as <-.
    vm_compute. reflexivity.
Defined.

(** ** How often a category of the wrong type is reported *)
Module TypeErrorFacts.
Import Py Rules Notions CountFacts ValidateTools.

(** The errors that say that the field [category] of a tool must be
    a string. *)
Definition is_category_type_error (e : error) : bool :=
  match e with
  | ToolFieldNotString _ field _ => String.eqb field "category"
  | _ => false
  end.

(** The category of the tool is given and is not a string. *)
Definition category_not_string (tool : dict) : bool :=
  match get tool "category" JNull with
  | JNull | JStr _ => false
  | _ => true
  end.

(** The category of the tool is not a string and is true in a
    condition. *)
Definition category_reported_again (tool : dict) : bool :=
  category_not_string tool && truthy (get tool "category" JNull).

Ltac run H := cbn [mbind mret result_bind result_ret] in H.

Lemma count_bind_one {A B : Type} (f : B -> bool) (g : A -> list B) (c : A)
    (l : list A) :
  (forall x, x <> c -> count f (g x) = 0%nat) ->
  NoDup l ->
  (c ∈ l -> count f (l ≫= g) = count f (g c))
  /\ (c ∉ l -> count f (l ≫= g) = 0%nat).
Proof.
  intros Hg. induction 1 as [|x l Hx Hl [IH1 IH0]]; csimpl.
  - split; [intros H; inversion H|reflexivity].
  - rewrite count_app. split; intros H.
    + apply elem_of_cons in H as [<-|H].
      * rewrite (IH0 Hx). lia.
      * rewrite (IH1 H), Hg; [reflexivity|]. intros ->. contradiction.
    + apply not_elem_of_cons in H as [Hne H].
      rewrite (IH0 H), (Hg x); [reflexivity|]. congruence.
Qed.

Lemma check_category_count (name : json) (tool : dict) :
  count is_category_type_error
    (check_string (ToolFieldNotString name "category")
       (ToolEmptyField name "category") (get tool "category" JNull))
  = if category_not_string tool then 1%nat else 0%nat.
Proof.
  unfold category_not_string.
  destruct (get tool "category" JNull) as [|b|n|s|l|d]; simpl;
    try reflexivity.
  destruct (PyStr.is_blank s); reflexivity.
Qed.

Lemma check_other_count (name : json) (field : string) (v : json) :
  field <> "category" ->
  count is_category_type_error
    (check_string (ToolFieldNotString name field)
       (ToolEmptyField name field) v)
  = 0%nat.
Proof.
  intros Hne. apply String.eqb_neq in Hne.
  destruct v as [|b|n|s|l|d]; cbn [check_string count is_category_type_error];
    rewrite ?Hne; try reflexivity.
  destruct (PyStr.is_blank s); reflexivity.
Qed.

Section SetOrder.
Variable set_iter : gset string -> list string.
Hypothesis set_iter_elements : forall X, set_iter X ≡ₚ elements X.

Lemma validate_tool_structure_count (tool : dict) (index : nat)
    (errs : list error) :
  validate_tool_structure set_iter tool index = Ok errs ->
  count is_category_type_error errs
  = if category_not_string tool then 1%nat else 0%nat.
Proof.
  unfold validate_tool_structure. cbv zeta. intros H.
  assert (exists invalid,
            errs
            = (ToolMissingField (get tool "name" (default_tool_name index))
                 <$> set_iter (REQUIRED_TOOL_FIELDS ∖ key_set tool))
              ++ (ToolDisallowedField
                    (get tool "name" (default_tool_name index))
                    <$> sorted (key_set tool ∖ ALLOWED_TOOL_FIELDS))
              ++ invalid
              ++ (set_iter REQUIRED_TOOL_FIELDS ≫= fun field =>
                    check_string
                      (ToolFieldNotString
                         (get tool "name" (default_tool_name index)) field)
                      (ToolEmptyField
                         (get tool "name" (default_tool_name index)) field)
                      (get tool field JNull))
            /\ count is_category_type_error invalid = 0%nat)
    as (invalid & -> & Hinv).
  { destruct (truthy (get tool "type" JNull)).
    - destruct (hash (get tool "type" JNull)) as [k|e]; run H;
        [|discriminate H].
      injection H as <-. eexists. split; [reflexivity|].
      destruct k as [| |s]; [reflexivity..|].
      destruct (decide (s ∈ VALID_TOOL_TYPES)); reflexivity.
    - run H. injection H as <-. exists []. split; reflexivity. }
  rewrite !count_app, Hinv.
  rewrite !count_fmap_none by reflexivity.
  destruct (count_bind_one is_category_type_error
              (fun field =>
                 check_string
                   (ToolFieldNotString
                      (get tool "name" (default_tool_name index)) field)
                   (ToolEmptyField
                      (get tool "name" (default_tool_name index)) field)
                   (get tool field JNull))
              "category" (set_iter REQUIRED_TOOL_FIELDS))
    as [Hone _].
  - intros x Hx. apply check_other_count, Hx.
  - apply (ToolFacts.set_iter_NoDup _ set_iter_elements).
  - rewrite Hone.
    + rewrite check_category_count. reflexivity.
    + apply (ToolFacts.elem_of_set_iter _ set_iter_elements).
      apply ToolFacts.required_fields. tauto.
Qed.

Lemma validate_tool_entries_count (tools : list dict) :
  forall (i : nat) (errs : list error),
    validate_tool_entries set_iter i (JDict <$> tools) = Ok errs ->
    count is_category_type_error errs = count category_not_string tools.
Proof.
  induction tools as [|tool tools IH]; intros i errs H.
  - injection H as <-. reflexivity.
  - rewrite fmap_cons in H. cbn [validate_tool_entries] in H.
    destruct (validate_tool_structure set_iter tool i) as [here|] eqn:Eh;
      run H; [|discriminate H].
    destruct (validate_tool_entries set_iter (S i) (JDict <$> tools))
      as [later|] eqn:El; run H; [|discriminate H].
    injection H as <-. rewrite count_app. cbn [count].
    rewrite (validate_tool_structure_count _ _ _ Eh), (IH _ _ El).
    reflexivity.
Qed.

End SetOrder.

Lemma duplicate_names_type_errors (tools : list dict) :
  forall (seen : gset hkey) (errs : list error),
    duplicate_names seen (JDict <$> tools) = Ok errs ->
    count is_category_type_error errs = 0%nat.
Proof.
  induction tools as [|tool tools IH]; intros seen errs H.
  - injection H as <-. reflexivity.
  - rewrite fmap_cons, UniqueFacts.duplicate_names_cons in H. cbv zeta in H.
    destruct (truthy (get tool "name" JNull)); [|apply (IH _ _ H)].
    destruct (hash (get tool "name" JNull)) as [k|]; run H;
      [|discriminate H].
    destruct (decide (k ∈ seen)); [|apply (IH _ _ H)].
    destruct (duplicate_names seen (JDict <$> tools)) as [later|] eqn:E;
      run H; [|discriminate H].
    injection H as <-. cbn [count is_category_type_error].
    apply (IH _ _ E).
Qed.

Lemma validate_category_structure_type_errors (categories : dict) :
  count is_category_type_error (validate_category_structure categories)
  = 0%nat.
Proof.
  apply ToolFacts.count_bind_none. intros [key data].
  unfold validate_category. cbn [fst snd].
  destruct data as [|b|n|s|l|d]; try reflexivity.
  rewrite !count_app.
  destruct (has_key d "name"), (has_key d "description"),
    (get d "name" JNull) as [| | |s1| |],
    (get d "description" JNull) as [| | |s2| |];
    cbn [check_string];
    repeat match goal with
           | |- context [PyStr.is_blank ?s] => destruct (PyStr.is_blank s)
           end;
    reflexivity.
Qed.

Lemma category_of_count (i : nat) (tool : dict) :
  count is_category_type_error (CategoryFacts.category_of i tool).1
  = if category_reported_again tool then 1%nat else 0%nat.
Proof.
  unfold CategoryFacts.category_of, category_reported_again,
    category_not_string.
  destruct (get tool "category" JNull) as [|b|n|s|l|d]; simpl;
    repeat match goal with
           | |- context [if ?b then _ else _] => destruct b
           | |- context [match ?l with [] => _ | _ => _ end] => destruct l
           end; reflexivity.
Qed.

Lemma referenced_categories_count (tools : list dict) :
  forall (i : nat) (r : list error * gset string),
    referenced_categories i (JDict <$> tools) = Ok r ->
    count is_category_type_error r.1 = count category_reported_again tools.
Proof.
  induction tools as [|tool tools IH]; intros i r H.
  - injection H as <-. reflexivity.
  - rewrite fmap_cons, CategoryFacts.referenced_categories_cons in H.
    destruct (referenced_categories (S i) (JDict <$> tools)) as [later|]
      eqn:E; run H; [|discriminate H].
    injection H as <-. cbn [fst count].
    rewrite count_app, category_of_count, (IH _ _ E). reflexivity.
Qed.

Lemma validate_categories_type_errors (tools : list dict) (categories : dict)
    (errs : list error) :
  validate_categories (JDict <$> tools) categories = Ok errs ->
  count is_category_type_error errs = count category_reported_again tools.
Proof.
  unfold validate_categories. intros H.
  destruct (referenced_categories 0 (JDict <$> tools)) as [r|] eqn:E; run H;
    [|discriminate H].
  cbv zeta in H. injection H as <-.
  rewrite !count_app, !count_fmap_none by reflexivity.
  rewrite (referenced_categories_count _ _ _ E). lia.
Qed.

Lemma filesystem_type_errors (tools_data : dict) (view : filesystem_view)
    (errs : list error) :
  validate_filesystem_tools_in_json tools_data view = Ok errs ->
  count is_category_type_error errs = 0%nat.
Proof.
  unfold validate_filesystem_tools_in_json. intros H.
  destruct (iterate (get tools_data "tools" (JList []))) as [tools|]; run H;
    [|discriminate H].
  destruct (json_tools_from ∅ tools) as [m|]; run H; [|discriminate H].
  injection H as <-. apply ToolFacts.count_bind_none. intros [n t].
  unfold check_filesystem_tool. cbn [fst snd].
  destruct (m !! HStr n) as [v|]; [destruct (ne_str v t)|]; reflexivity.
Qed.

End TypeErrorFacts.

(** A category that is not a string is reported by the per-tool
    check whenever it is given, and once more by the category check
    when it is true in a condition.  On a document whose tools are
    objects with names and types that can be tested, the validator
    returns, and among its errors the ones that say that the field
    [category] must be a string are as many as the tools whose
    category is given and is not a string, plus the tools among them
    whose category is true in a condition: for a tool with the
    category 5 the same line is printed twice, for one with the
    category 0 once. *)
Theorem category_type_errors_counted (set_iter : gset string -> list string)
    (tools_data : Py.dict) (helpers : option ValidateTools.filesystem_view)
    (tools : list Py.dict) (categories : Py.dict) :
  (forall X, set_iter X ≡ₚ elements X) ->
  Py.lookup tools_data "tools" = Some (Py.JList (Py.JDict <$> tools)) ->
  Py.lookup tools_data "categories" = Some (Py.JDict categories) ->
  Forall Rules.name_is_hashable tools ->
  Forall Notions.type_is_hashable_if_truthy tools ->
  exists errs,
    ValidateTools.validate_tools_json set_iter tools_data helpers = Py.Ok errs
    /\ Rules.count TypeErrorFacts.is_category_type_error errs
       = (Rules.count TypeErrorFacts.category_not_string tools
          + Rules.count TypeErrorFacts.category_reported_again tools)%nat.
Proof.
  intros Hiter Htools Hcats Hnames Htypes.
  rewrite (ValidatorFacts.validate_tools_json_checks _ _ _ _ _ Htools Hcats).
  destruct (SafetyFacts.validate_tool_entries_returns set_iter tools 0 Htypes)
    as [e1 He1].
  destruct (UniqueFacts.duplicate_names_count tools) with (seen := ∅ : gset Py.hkey)
    as (e2 & He2 & _).
  { eapply Forall_impl; [exact Hnames|].
    apply SafetyFacts.name_is_hashable_weaken. }
  destruct (CategoryFacts.validate_categories_counts tools categories)
    as (e4 & He4 & _).
  assert (exists e5,
            match helpers with
            | Some view =>
                ValidateTools.validate_filesystem_tools_in_json tools_data view
            | None => mret []
            end = Py.Ok e5
            /\ Rules.count TypeErrorFacts.is_category_type_error e5 = 0%nat)
    as (e5 & He5 & Hc5).
  { destruct helpers as [view|]; [|exists []; split; reflexivity].
    assert (exists e5,
              ValidateTools.validate_filesystem_tools_in_json tools_data view
              = Py.Ok e5) as [e5 He5].
    { unfold ValidateTools.validate_filesystem_tools_in_json.
      rewrite (ToolFacts.get_lookup _ _ _ _ Htools). simpl.
      destruct (FilesystemFacts.json_tools_from_lookup tools Hnames ∅)
        as (m & -> & _).
      simpl. eexists. reflexivity. }
    exists e5. split; [exact He5|].
    apply (TypeErrorFacts.filesystem_type_errors _ _ _ He5). }
  unfold ValidateTools.validate_tool_names_unique.
  rewrite He1, He2, He4, He5.
  eexists. split; [reflexivity|].
  rewrite !CountFacts.count_app.
  rewrite (TypeErrorFacts.validate_tool_entries_count set_iter Hiter _ _ _ He1).
  rewrite (TypeErrorFacts.duplicate_names_type_errors _ _ _ He2).
  rewrite TypeErrorFacts.validate_category_structure_type_errors.
  rewrite (TypeErrorFacts.validate_categories_type_errors _ _ _ He4), Hc5.
  lia.
Qed.

Lemma category_type_errors_counted_witness :
  exists errs,
    ValidateTools.validate_tools_json Examples.ascending
      [("tools",
        Py.JList
          (Py.JDict <$> [[("name", Py.JStr "a"); ("category", Py.JInt 5)];
                         [("name", Py.JStr "b"); ("category", Py.JInt 0)];
                         [("name", Py.JStr "c"); ("category", Py.JStr "x")]]));
       ("categories", Py.JDict [])]
      None
    = Py.Ok errs
    /\ Rules.count TypeErrorFacts.is_category_type_error errs = 3%nat.
Proof.
  apply (category_type_errors_counted Examples.ascending _ None
           [[("name", Py.JStr "a"); ("category", Py.JInt 5)];
            [("name", Py.JStr "b"); ("category", Py.JInt 0)];
            [("name", Py.JStr "c"); ("category", Py.JStr "x")]]
           []).
  - intros X. apply merge_sort_Permutation.
  - reflexivity.
  - reflexivity.
  - repeat constructor; eexists; reflexivity.
  - repeat constructor; intros [].
Defined.

(** ** When the scanner raises *)
Module RegistryFacts.
Import Py Scanner.

(** The title of the gem, when it has one, is a string. *)
Definition string_title (gem : dict) : Prop :=
  forall v, lookup gem "title" = Some v -> exists t, v = JStr t.

(** A helpers directory with nothing but a gem registry. *)
Definition registry_only (gems_data : json) : helpers_dir :=
  {| scan_fails := false; skills_dir := None; commands_dir := None; agents_dir := None;
     gems_yaml := Loaded gems_data |}.

Lemma titles_of_objects (gems : list dict) :
  (Forall string_title gems ->
   exists titles, titles_of (JDict <$> gems) = Ok titles)
  /\ (~ Forall string_title gems ->
      titles_of (JDict <$> gems) = Raise AttributeError).
Proof.
  induction gems as [|gem gems [IHok IHraise]].
  - split; [exists []; reflexivity|]. intros H. exfalso. apply H. constructor.
  - rewrite fmap_cons. cbn [titles_of].
    unfold UpdateClaudeSettings.contains, UpdateClaudeSettings.item,
      has_key, get.
    cbn [mbind mret result_bind result_ret].
    destruct (lookup gem "title") as [v|] eqn:E.
    + destruct v as [|b|n|t|l|d];
        try (split; [|reflexivity]; intros H;
             inversion H as [|? ? Hg _]; destruct (Hg _ E) as [t [=]]).
      split; intros H.
      * inversion H as [|? ? _ Hrest]. destruct (IHok Hrest) as [titles ->].
        eexists. reflexivity.
      * rewrite IHraise; [reflexivity|]. intros Hrest. apply H.
        constructor; [|exact Hrest]. intros v Hv. rewrite E in Hv.
        injection Hv as <-. eexists. reflexivity.
    + split; intros H.
      * inversion H as [|? ? _ Hrest]. apply IHok, Hrest.
      * apply IHraise. intros Hrest. apply H.
        constructor; [|exact Hrest]. intros v Hv. rewrite E in Hv.
        discriminate.
Qed.

End RegistryFacts.

(** The scanner is stopped by a gem title that is not a string.
    For a scan without [OSError] and a registry that is a mapping
    whose gems are a list of mappings, the scanner returns a view when
    every title that is given is a string, and raises [AttributeError]
    when some title is [null], a boolean, an integer, a list or a
    mapping, whatever the directories of skills, commands and agents
    hold: the lowering of the title fails, and the scanner catches
    only the errors of the YAML reader. *)
Theorem get_filesystem_tools_raises_iff (suffix stem : string -> string)
    (h : Scanner.helpers_dir) (registry : Py.dict) (gems : list Py.dict) :
  Scanner.scan_fails h = false ->
  Scanner.gems_yaml h = Scanner.Loaded (Py.JDict registry) ->
  Py.lookup registry "gems" = Some (Py.JList (Py.JDict <$> gems)) ->
  (Forall RegistryFacts.string_title gems ->
   exists v, Scanner.get_filesystem_tools suffix stem h = Py.Ok v)
  /\ (~ Forall RegistryFacts.string_title gems ->
      Scanner.get_filesystem_tools suffix stem h = Py.Raise Py.AttributeError).
Proof.
  intros Hscan Hfile Hgems.
  assert (Scanner.gem_titles (Scanner.gems_yaml h)
          = Scanner.titles_of (Py.JDict <$> gems)) as Htitles.
  { rewrite Hfile. unfold Scanner.gem_titles.
    destruct registry as [|item registry]; [discriminate|].
    cbn [Py.truthy].
    unfold UpdateClaudeSettings.contains, UpdateClaudeSettings.item,
      Py.has_key, Py.get.
    rewrite Hgems. reflexivity. }
  unfold Scanner.get_filesystem_tools. rewrite Hscan, Htitles.
  destruct (RegistryFacts.titles_of_objects gems) as [Hok Hraise].
  split; intros H.
  - destruct (Hok H) as [titles ->]. eexists. reflexivity.
  - rewrite (Hraise H). reflexivity.
Qed.

Lemma get_filesystem_tools_raises_iff_witness :
  Scanner.get_filesystem_tools ScannerExamples.suffix_of
    ScannerExamples.stem_of
    (RegistryFacts.registry_only
       (Py.JDict [("gems", Py.JList [Py.JDict [("title", Py.JInt 5)]])]))
  = Py.Raise Py.AttributeError.
Proof.
  apply (get_filesystem_tools_raises_iff _ _ _
           [("gems", Py.JList [Py.JDict [("title", Py.JInt 5)]])]
           [[("title", Py.JInt 5)]]).
  - reflexivity.
  - reflexivity.
  - reflexivity.
  - intros H. inversion H as [|? ? Hg _].
    destruct (Hg (Py.JInt 5) eq_refl) as [t Ht]. discriminate Ht.
Defined.
